(** * Paywall: entitlement cache, billing query, finalize writer, webhook
      reconciler and provider-client cache

    A shallow embedding of the TypeScript services and handlers of the
    paywall API.  Asynchronous functions become computations in a state and
    exception monad over a [World] that holds the DynamoDB tables, the
    Secrets Manager store, the module-level Stripe client cache and a trace
    of the external calls made so far.  Everything the program cannot
    decide by itself (the wall clock, AWS faults, what Stripe answers) is an
    oracle of the environment [Env], indexed by the number of external
    calls already made, so that an answer may change from one call to the
    next. *)

From Stdlib Require Import ZArith Lia Ascii String.
From stdpp Require Import gmap strings list fin_maps.

Open Scope Z_scope.
Open Scope string_scope.

(** ** JavaScript values *)

Module Js.

(** Truthiness of a value of type [string | undefined]: [undefined] and the
    empty string are falsy. *)
Definition truthy (v : option string) : bool :=
  match v with
  | Some s => negb (String.eqb s "")
  | None => false
  end.

(** [a || b] on optional strings. *)
Definition or (a b : option string) : option string :=
  if truthy a then a else b.

(** [a || 'literal'] on an optional string. *)
Definition orStr (a : option string) (d : string) : string :=
  match a with
  | Some s => if String.eqb s "" then d else s
  | None => d
  end.

(** Whitespace removed by [String.prototype.trim], on one-byte characters. *)
Definition isSpace (c : ascii) : bool :=
  match c with
  | " "%char | "009"%char | "010"%char | "011"%char | "012"%char
  | "013"%char => true
  | _ => false
  end.

Fixpoint trimStart (s : string) : string :=
  match s with
  | String c r => if isSpace c then trimStart r else s
  | EmptyString => EmptyString
  end.

(** [trimEnd] drops a character when it is a space and nothing but spaces
    follows. *)
Fixpoint trimEnd (s : string) : string :=
  match s with
  | String c r =>
      match trimEnd r with
      | EmptyString => if isSpace c then EmptyString else String c EmptyString
      | r' => String c r'
      end
  | EmptyString => EmptyString
  end.

Definition trim (s : string) : string := trimEnd (trimStart s).

(** [s.split(sep)] for a one-character separator: the pieces between the
    separators, [[""]] for the empty string. *)
Fixpoint split (sep : ascii) (s : string) : list string :=
  match s with
  | EmptyString => [EmptyString]
  | String c r =>
      if Ascii.eqb c sep then EmptyString :: split sep r
      else
        match split sep r with
        | p :: ps => String c p :: ps
        | [] => [String c EmptyString]
        end
  end.

(** The value when it is truthy. *)
Definition nonEmpty (v : option string) : option string :=
  if truthy v then v else None.

(** [obj[key]] on an object whose members are strings. *)
Fixpoint get (obj : list (string * string)) (key : string) : option string :=
  match obj with
  | [] => None
  | (k, v) :: rest => if String.eqb k key then Some v else get rest key
  end.

(** [arr.includes(x)] on an array of strings. *)
Definition includes (arr : list string) (x : string) : bool :=
  existsb (String.eqb x) arr.

(** [s.startsWith(p)]. *)
Definition startsWith (s p : string) : bool := String.prefix p s.

(** JSON values, for response bodies. *)
#[warnings="-register-all"]
Inductive Json :=
| JNull
| JBool (b : bool)
| JNum (z : Z)
| JStr (s : string)
| JArr (xs : list Json)
| JObj (fields : list (string * Json)).

(** A thrown value: the class name of the error and its message. *)
Record Exn := mkExn { exnName : string; exnMessage : string }.

Definition Error (msg : string) : Exn := mkExn "Error" msg.

End Js.

Import Js.

(** ** Records of the data model (types/index.ts) *)

Record Tenant := {
  tenantId : string;
  name : string;
  adminEmail : string;
  stripePublishableKey : option string;
  credentialsConfigured : bool;
  credentialsValidatedAt : option string;
  createdAt : string;
  updatedAt : string;
}.

Record Product := {
  p_tenantId : string;
  p_productId : string;
  productName : string;
  checkoutDomain : option string;
  allowedReturnUrls : list string;
  subscriptionCallbackUrl : option string;
}.

(** ['admin' | 'product']. *)
Inductive KeyType := adminKey | productKey.

Record ApiKeyRecord := {
  apiKeyHash : string;
  k_tenantId : string;
  k_productId : string;
  keyType : KeyType;
}.

Record EntitlementCache := {
  tenantProductKey : string;
  userId : string;
  hasAccess : bool;
  subscriptionId : option string;
  planCode : option string;
  status : option string;
  currentPeriodEnd : option string;
  userEmail : option string;
  ttl : Z;
}.

Inductive AuditResult := success_ | error_.

Record WebhookAudit := {
  tenantEventKey : string;
  a_tenantId : string;
  eventType : string;
  processedAt : string;
  result : AuditResult;
  errorMessage : option string;
  a_ttl : Z;
}.

(** ** Objects of the billing provider (the parts of the Stripe SDK types
       that the code reads) *)

Record StripeProduct := {
  sp_id : string;
  sp_active : bool;
  sp_name : string;
  sp_audience : option string;   (* metadata.audience *)
  sp_plan_code : option string;  (* metadata.plan_code *)
}.

(** [price.product] is the product id unless the request asked to expand
    it. *)
Inductive ProductField :=
| ProductId (id : string)
| ProductObject (p : StripeProduct).

(** Truthiness of [price.product]. *)
Definition pf_truthy (f : ProductField) : bool :=
  match f with
  | ProductId id => negb (String.eqb id "")
  | ProductObject _ => true
  end.

(** [product.metadata?.audience], [product.metadata?.plan_code] and
    [product.id] after the cast [as Stripe.Product]: all undefined on a
    string. *)
Definition pf_audience (f : ProductField) : option string :=
  match f with ProductObject p => sp_audience p | ProductId _ => None end.

Definition pf_plan_code (f : ProductField) : option string :=
  match f with ProductObject p => sp_plan_code p | ProductId _ => None end.

Definition pf_id (f : ProductField) : option string :=
  match f with ProductObject p => Some (sp_id p) | ProductId _ => None end.

Record Price := {
  price_id : string;
  price_product : ProductField;
  price_recurring : bool;
}.

Record SubscriptionItem := { item_price : Price }.

Record Subscription := {
  sub_id : string;
  sub_status : string;
  sub_customer : string;
  sub_items : list SubscriptionItem;
  sub_current_period_end : Z;
  sub_paywall_product : option string;  (* metadata.paywall_product *)
  sub_user_id : option string;          (* metadata.user_id *)
}.

Record Customer := {
  cus_id : string;
  cus_email : option string;
}.

Record Invoice := { inv_subscription : option string }.

Inductive EventObject :=
| SubscriptionObject (s : Subscription)
| InvoiceObject (i : Invoice)
| OtherObject.

Record StripeEvent := {
  ev_id : string;
  ev_type : string;
  ev_object : EventObject;   (* event.data.object *)
}.

Record SubscriptionCreateParams := {
  scp_customer : string;
  scp_price : string;
  scp_paywall_tenant : string;
  scp_paywall_product : string;
  scp_plan_code : option string;
  scp_default_payment_method : option string;
}.

(** The SDK client: what distinguishes two clients is the secret key they
    were constructed from. *)
Record Stripe := { secretKey : string }.

Record StripeCredentials := {
  stripe_secret_key : string;
  stripe_webhook_secret : option string;
}.

Record CachedClient := {
  client : Stripe;
  expiry : Z;
}.

(** ** External calls and the world *)

Inductive Table :=
| TENANTS_TABLE
| PRODUCTS_TABLE
| API_KEYS_TABLE
| ENTITLEMENT_CACHE_TABLE
| WEBHOOK_AUDIT_TABLE.

Inductive Command :=
| GetCommand
| PutCommand
| UpdateCommand
| DeleteCommand.

Inductive SecretCommand :=
| CreateSecretCommand
| GetSecretValueCommand
| PutSecretValueCommand
| DeleteSecretCommand.

(** One request leaving the process. *)
Inductive Effect :=
| DynamoDB (c : Command) (t : Table) (key : list string)
| SecretsManager (c : SecretCommand) (secretName : string)
| StripeApi (call : string) (key : string) (arg : string)
| Fetch (url : string).

Record World := {
  tenants : gmap string Tenant;
  products : gmap (string * string) Product;
  apiKeys : gmap string ApiKeyRecord;
  entitlements : gmap (string * string) EntitlementCache;
  audits : gmap string WebhookAudit;
  secrets : gmap string StripeCredentials;
  clientCache : gmap string CachedClient;
  trace : list Effect;   (* most recent first *)
}.

(** The number of external calls made so far. *)
Definition ticks (w : World) : nat := length (trace w).

(** The environment: every oracle that answers a request takes the number
    of external calls made before it; an oracle of the Stripe API then takes
    the secret key of the client and the arguments of the call. *)
Class Env := {
  clock : nat -> Z;                      (* Date.now(), milliseconds *)
  awsFault : nat -> Effect -> option Exn; (* a DynamoDB or Secrets Manager
                                            request that fails *)
  toISOString : Z -> string;             (* new Date(ms).toISOString() *)
  hashApiKey : string -> string;
  customers_list : nat -> string -> string -> Exn + list Customer;
  customers_retrieve : nat -> string -> string -> Exn + Customer;
  subscriptions_list :
    nat -> string -> string -> string -> Exn + list Subscription;
  subscriptions_retrieve : nat -> string -> string -> Exn + Subscription;
  subscriptions_create :
    nat -> string -> SubscriptionCreateParams -> Exn + Subscription;
  prices_retrieve : nat -> string -> string -> Exn + Price;
  products_list : nat -> string -> option Exn;
  constructEvent : string -> string -> string -> Exn + StripeEvent;
  fetch : nat -> string -> option Exn;
  JSON_parse : string -> Exn + list (string * string);
                                         (* the string members of the
                                            object parsed *)
}.

(** ** The monad of asynchronous code: state and exceptions *)

Definition M (A : Type) : Type := World -> (Exn + A) * World.

Definition ret {A} (a : A) : M A := fun w => (inr a, w).

Definition throw {A} (e : Exn) : M A := fun w => (inl e, w).

Definition bind {A B} (m : M A) (k : A -> M B) : M B :=
  fun w =>
    match m w with
    | (inr a, w') => k a w'
    | (inl e, w') => (inl e, w')
    end.

(** [try { m } catch (err) { h err }]: the effects of [m] up to the throw
    stay. *)
Definition try_catch {A} (m : M A) (h : Exn -> M A) : M A :=
  fun w =>
    match m w with
    | (inl e, w') => h e w'
    | r => r
    end.

Definition get_world : M World := fun w => (inr w, w).

Notation "x <- m ;; k" := (bind m (fun x => k))
  (at level 100, m at next level, right associativity).
Notation "m ;;; k" := (bind m (fun _ => k))
  (at level 100, right associativity).

(** Record a request in the trace. *)
Definition record (e : Effect) (w : World) : World :=
  {| tenants := tenants w; products := products w; apiKeys := apiKeys w;
     entitlements := entitlements w; audits := audits w;
     secrets := secrets w; clientCache := clientCache w;
     trace := e :: trace w |}.

Definition set_tenants (f : gmap string Tenant -> gmap string Tenant)
    (w : World) : World :=
  {| tenants := f (tenants w); products := products w; apiKeys := apiKeys w;
     entitlements := entitlements w; audits := audits w;
     secrets := secrets w; clientCache := clientCache w;
     trace := trace w |}.

Definition set_entitlements
    (f : gmap (string * string) EntitlementCache ->
         gmap (string * string) EntitlementCache)
    (w : World) : World :=
  {| tenants := tenants w; products := products w; apiKeys := apiKeys w;
     entitlements := f (entitlements w); audits := audits w;
     secrets := secrets w; clientCache := clientCache w;
     trace := trace w |}.

Definition set_audits
    (f : gmap string WebhookAudit -> gmap string WebhookAudit)
    (w : World) : World :=
  {| tenants := tenants w; products := products w; apiKeys := apiKeys w;
     entitlements := entitlements w; audits := f (audits w);
     secrets := secrets w; clientCache := clientCache w;
     trace := trace w |}.

Definition set_secrets
    (f : gmap string StripeCredentials -> gmap string StripeCredentials)
    (w : World) : World :=
  {| tenants := tenants w; products := products w; apiKeys := apiKeys w;
     entitlements := entitlements w; audits := audits w;
     secrets := f (secrets w); clientCache := clientCache w;
     trace := trace w |}.

Definition set_clientCache
    (f : gmap string CachedClient -> gmap string CachedClient)
    (w : World) : World :=
  {| tenants := tenants w; products := products w; apiKeys := apiKeys w;
     entitlements := entitlements w; audits := audits w;
     secrets := secrets w; clientCache := f (clientCache w);
     trace := trace w |}.

Definition modify (f : World -> World) : M unit := fun w => (inr tt, f w).

Section Primitives.
Context {env : Env}.

(** [Date.now()]. *)
Definition Date_now : M Z := fun w => (inr (clock (ticks w)), w).

(** A request to DynamoDB or Secrets Manager: it is recorded, and it fails
    when the environment says so. *)
Definition aws (e : Effect) : M unit :=
  fun w =>
    match awsFault (ticks w) e with
    | Some x => (inl x, record e w)
    | None => (inr tt, record e w)
    end.

(** A request to the billing provider, answered by the oracle [f]. *)
Definition stripeCall {A} (call : string) (s : Stripe) (arg : string)
    (f : nat -> string -> Exn + A) : M A :=
  fun w =>
    match f (ticks w) (secretKey s) with
    | inl x => (inl x, record (StripeApi call (secretKey s) arg) w)
    | inr a => (inr a, record (StripeApi call (secretKey s) arg) w)
    end.


(** A computation that does not touch the world. *)
Definition lift {A} (r : Exn + A) : M A := fun w => (r, w).

End Primitives.

(** ** services/dynamodb.ts *)

Module db.
Section Db.
Context {env : Env}.

(** The fields [updateTenant] is called with; [None] is [undefined]. *)
Record TenantUpdates := {
  u_stripePublishableKey : option string;
  u_credentialsConfigured : option bool;
  u_credentialsValidatedAt : option string;
  u_updatedAt : option string;
}.

Definition getTenant (tenantId : string) : M (option Tenant) :=
  aws (DynamoDB GetCommand TENANTS_TABLE [tenantId]) ;;;
  w <- get_world ;;
  ret (tenants w !! tenantId).

(** The [SET] expression built from the defined values, applied to the item
    (an item that does not exist is created by DynamoDB with the key and the
    assigned attributes; its other attributes are rendered empty here). *)
Definition applyUpdates (tenantId : string) (u : TenantUpdates)
    (old : option Tenant) : Tenant :=
  let t := default {| tenantId := tenantId; name := ""; adminEmail := "";
                      stripePublishableKey := None;
                      credentialsConfigured := false;
                      credentialsValidatedAt := None;
                      createdAt := ""; updatedAt := "" |} old in
  {| tenantId := tenantId; name := name t; adminEmail := adminEmail t;
     stripePublishableKey :=
       match u_stripePublishableKey u with
       | Some v => Some v | None => stripePublishableKey t end;
     credentialsConfigured :=
       default (credentialsConfigured t) (u_credentialsConfigured u);
     credentialsValidatedAt :=
       match u_credentialsValidatedAt u with
       | Some v => Some v | None => credentialsValidatedAt t end;
     createdAt := createdAt t;
     updatedAt := default (updatedAt t) (u_updatedAt u) |}.

Definition noUpdates (u : TenantUpdates) : bool :=
  match u_stripePublishableKey u, u_credentialsConfigured u,
        u_credentialsValidatedAt u, u_updatedAt u with
  | None, None, None, None => true
  | _, _, _, _ => false
  end.

Definition updateTenant (tenantId : string) (updates : TenantUpdates)
    : M (option Tenant) :=
  if noUpdates updates then getTenant tenantId
  else
    aws (DynamoDB UpdateCommand TENANTS_TABLE [tenantId]) ;;;
    w <- get_world ;;
    let t := applyUpdates tenantId updates (tenants w !! tenantId) in
    modify (set_tenants <[tenantId := t]>) ;;;
    ret (Some t).

Definition getProduct (tenantId productId : string) : M (option Product) :=
  aws (DynamoDB GetCommand PRODUCTS_TABLE [tenantId; productId]) ;;;
  w <- get_world ;;
  ret (products w !! (tenantId, productId)).

Definition getApiKeyByHash (apiKeyHash : string) : M (option ApiKeyRecord) :=
  aws (DynamoDB GetCommand API_KEYS_TABLE [apiKeyHash]) ;;;
  w <- get_world ;;
  ret (apiKeys w !! apiKeyHash).

Definition getEntitlementCache (tenantId productId userId : string)
    : M (option EntitlementCache) :=
  let tenantProductKey := tenantId ++ "#" ++ productId in
  aws (DynamoDB GetCommand ENTITLEMENT_CACHE_TABLE [tenantProductKey; userId]) ;;;
  w <- get_world ;;
  ret (entitlements w !! (tenantProductKey, userId)).

(** An unconditional put: the item replaces whatever the key held. *)
Definition setEntitlementCache (cache : EntitlementCache) : M unit :=
  aws (DynamoDB PutCommand ENTITLEMENT_CACHE_TABLE
         [tenantProductKey cache; userId cache]) ;;;
  modify (set_entitlements <[(tenantProductKey cache, userId cache) := cache]>).

Definition getWebhookAudit (tenantId eventId : string)
    : M (option WebhookAudit) :=
  let tenantEventKey := tenantId ++ "#" ++ eventId in
  aws (DynamoDB GetCommand WEBHOOK_AUDIT_TABLE [tenantEventKey]) ;;;
  w <- get_world ;;
  ret (audits w !! tenantEventKey).

(** A put with [ConditionExpression: attribute_not_exists(tenantEventKey)]:
    it fails when the key already holds an item. *)
Definition createWebhookAudit (audit : WebhookAudit) : M unit :=
  aws (DynamoDB PutCommand WEBHOOK_AUDIT_TABLE [tenantEventKey audit]) ;;;
  w <- get_world ;;
  match audits w !! tenantEventKey audit with
  | Some _ =>
      throw (mkExn "ConditionalCheckFailedException"
               "The conditional request failed")
  | None => modify (set_audits <[tenantEventKey audit := audit]>)
  end.

End Db.
End db.

(** ** services/credentials.ts *)

Module creds.
Section Creds.
Context {env : Env}.

Definition SECRET_PREFIX : string := "paywall/stripe/".

Definition isResourceNotFound (e : Exn) : bool :=
  String.eqb (exnName e) "ResourceNotFoundException".

Definition ResourceNotFoundException : Exn :=
  mkExn "ResourceNotFoundException" "Secrets Manager can't find the specified secret.".

(** [PutSecretValue] needs the secret to exist. *)
Definition putSecretValue (secretName : string) (v : StripeCredentials)
    : M unit :=
  aws (SecretsManager PutSecretValueCommand secretName) ;;;
  w <- get_world ;;
  match secrets w !! secretName with
  | Some _ => modify (set_secrets <[secretName := v]>)
  | None => throw ResourceNotFoundException
  end.

Definition createSecret (secretName : string) (v : StripeCredentials)
    : M unit :=
  aws (SecretsManager CreateSecretCommand secretName) ;;;
  w <- get_world ;;
  match secrets w !! secretName with
  | Some _ =>
      throw (mkExn "ResourceExistsException" "The secret already exists.")
  | None => modify (set_secrets <[secretName := v]>)
  end.

Definition getSecretValue (secretName : string) : M StripeCredentials :=
  aws (SecretsManager GetSecretValueCommand secretName) ;;;
  w <- get_world ;;
  match secrets w !! secretName with
  | Some v => ret v
  | None => throw ResourceNotFoundException
  end.

Definition deleteSecret (secretName : string) : M unit :=
  aws (SecretsManager DeleteSecretCommand secretName) ;;;
  w <- get_world ;;
  match secrets w !! secretName with
  | Some _ => modify (set_secrets (delete secretName))
  | None => throw ResourceNotFoundException
  end.

Definition storeCredentials (tenantId : string)
    (credentials : StripeCredentials) : M unit :=
  let secretName := SECRET_PREFIX ++ tenantId in
  try_catch (putSecretValue secretName credentials)
    (fun err =>
       if isResourceNotFound err then createSecret secretName credentials
       else throw err).

Definition getStripeSecretKey (tenantId : string) : M (option string) :=
  let secretName := SECRET_PREFIX ++ tenantId in
  try_catch
    (parsed <- getSecretValue secretName ;;
     ret (Some (stripe_secret_key parsed)))   (* the stored JSON string is
                                                 never empty *)
    (fun err => if isResourceNotFound err then ret None else throw err).

Definition getStripeWebhookSecret (tenantId : string) : M (option string) :=
  let secretName := SECRET_PREFIX ++ tenantId in
  try_catch
    (parsed <- getSecretValue secretName ;;
     ret (Js.or (stripe_webhook_secret parsed) None))
    (fun err => if isResourceNotFound err then ret None else throw err).

Definition deleteCredentials (tenantId : string) : M unit :=
  let secretName := SECRET_PREFIX ++ tenantId in
  try_catch (deleteSecret secretName)
    (fun err => if isResourceNotFound err then ret tt else throw err).

Record Validation := { valid : bool; v_error : option string }.

(** [message.includes(needle)]. *)
Definition includesStr (message needle : string) : bool :=
  match String.index 0 needle message with Some _ => true | None => false end.

Definition validateStripeKey (secretKey : string) : M Validation :=
  try_catch
    (stripeCall "products.list" {| secretKey := secretKey |} "limit=1"
       (fun n k => match products_list n k with
                   | Some x => inl x | None => inr tt end) ;;;
     ret {| valid := true; v_error := None |})
    (fun err =>
       let message := exnMessage err in
       if includesStr message "Invalid API Key" then
         ret {| valid := false; v_error := Some "Invalid Stripe API key" |}
       else ret {| valid := false; v_error := Some message |}).

End Creds.
End creds.

(** ** services/stripe.ts *)

Section StripeService.
Context {env : Env}.

Definition CACHE_TTL : Z := 5 * 60 * 1000.

(** The cached client when it has not expired. *)
Definition cachedClient (w : World) (tenantId : string) (now : Z)
    : option Stripe :=
  match clientCache w !! tenantId with
  | Some cached => if expiry cached >? now then Some (client cached) else None
  | None => None
  end.

Definition noCredentials {A} (tenantId : string) : M A :=
  throw (Error ("No Stripe credentials configured for tenant " ++ tenantId)).

Definition getStripeClient (tenantId : string) : M Stripe :=
  w <- get_world ;;
  now <- Date_now ;;
  match cachedClient w tenantId now with
  | Some c => ret c
  | None =>
      secretKey <- creds.getStripeSecretKey tenantId ;;
      match secretKey with
      | Some key =>
          if String.eqb key "" then noCredentials tenantId
          else
            let client := {| secretKey := key |} in
            now' <- Date_now ;;
            modify (set_clientCache
                      <[tenantId := {| client := client;
                                       expiry := now' + CACHE_TTL |}]>) ;;;
            ret client
      | None => noCredentials tenantId
      end
  end.

Definition invalidateStripeClient (tenantId : string) : M unit :=
  modify (set_clientCache (delete tenantId)).

End StripeService.

(** ** services/entitlements.ts *)

Module entitlements.
Section Entitlements.
Context {env : Env}.

Definition ACTIVE_TTL : Z := 5 * 60.
Definition INACTIVE_TTL : Z := 60.

Record SubscriptionInfo := {
  s_status : string;
  s_planCode : string;
  s_currentPeriodEnd : string;
}.

(** What [checkEntitlement] resolves to. *)
Record Decision := {
  d_hasAccess : bool;
  d_subscription : option SubscriptionInfo;
}.

(** What [queryStripeEntitlement] resolves to. *)
Record QueryResult := {
  q_hasAccess : bool;
  q_subscriptionId : option string;
  q_planCode : option string;
  q_status : option string;
  q_currentPeriodEnd : option string;
}.

Definition noAccess : QueryResult :=
  {| q_hasAccess := false; q_subscriptionId := None; q_planCode := None;
     q_status := None; q_currentPeriodEnd := None |}.

(** [!audience || audience === productId]. *)
Definition audienceMatches (audience : option string) (productId : string)
    : bool :=
  negb (Js.truthy audience)
  || match audience with
     | Some a => String.eqb a productId
     | None => false
     end.

(** The inner loop over [sub.items.data]. *)
Fixpoint matchItems (productId : string) (sub : Subscription)
    (items : list SubscriptionItem) : option QueryResult :=
  match items with
  | [] => None
  | item :: rest =>
      let stripeProduct := price_product (item_price item) in
      let audience := pf_audience stripeProduct in
      if audienceMatches audience productId then
        Some {| q_hasAccess := true;
                q_subscriptionId := Some (sub_id sub);
                q_planCode :=
                  Js.or (pf_plan_code stripeProduct) (pf_id stripeProduct);
                q_status := Some (sub_status sub);
                q_currentPeriodEnd :=
                  Some (toISOString (sub_current_period_end sub * 1000)) |}
      else matchItems productId sub rest
  end.

(** The outer loop over [allSubs]. *)
Fixpoint matchSubs (productId : string) (allSubs : list Subscription)
    : option QueryResult :=
  match allSubs with
  | [] => None
  | sub :: rest =>
      match matchItems productId sub (sub_items sub) with
      | Some r => Some r
      | None => matchSubs productId rest
      end
  end.

Definition queryStripeEntitlement (stripe : Stripe) (email productId : string)
    : M QueryResult :=
  customers <- stripeCall "customers.list" stripe email
                 (fun n k => customers_list n k email) ;;
  match customers with
  | [] => ret noAccess
  | customer :: _ =>
      subscriptions <- stripeCall "subscriptions.list" stripe "active"
                         (fun n k =>
                            subscriptions_list n k (cus_id customer) "active") ;;
      trialingSubs <- stripeCall "subscriptions.list" stripe "trialing"
                        (fun n k =>
                           subscriptions_list n k (cus_id customer) "trialing") ;;
      let allSubs := (subscriptions ++ trialingSubs)%list in
      ret (default noAccess (matchSubs productId allSubs))
  end.

(** The [subscription] member of the decision. *)
Definition subscriptionOf (hasAccess : bool)
    (status planCode currentPeriodEnd : option string)
    : option SubscriptionInfo :=
  if hasAccess then
    Some {| s_status := Js.orStr status "active";
            s_planCode := Js.orStr planCode "";
            s_currentPeriodEnd := Js.orStr currentPeriodEnd "" |}
  else None.

(** [cached && cached.ttl > Math.floor(Date.now() / 1000)]. *)
Definition fresh (cached : option EntitlementCache) (now : Z)
    : option EntitlementCache :=
  match cached with
  | Some c => if ttl c >? now / 1000 then Some c else None
  | None => None
  end.

Definition checkEntitlement (tenantId productId userId userEmail : string)
    : M Decision :=
  (* 1. cache *)
  cached <- db.getEntitlementCache tenantId productId userId ;;
  now <- Date_now ;;
  match fresh cached now with
  | Some cached =>
      ret {| d_hasAccess := hasAccess cached;
             d_subscription :=
               subscriptionOf (hasAccess cached) (status cached)
                 (planCode cached) (currentPeriodEnd cached) |}
  | None =>
      (* 2. cache miss: query the provider *)
      stripe <- getStripeClient tenantId ;;
      result <- queryStripeEntitlement stripe userEmail productId ;;
      (* 3. write back *)
      let tenantProductKey := tenantId ++ "#" ++ productId in
      let ttlSeconds :=
        if q_hasAccess result then ACTIVE_TTL else INACTIVE_TTL in
      now' <- Date_now ;;
      let cacheEntry :=
        {| tenantProductKey := tenantProductKey;
           userId := userId;
           hasAccess := q_hasAccess result;
           subscriptionId := q_subscriptionId result;
           planCode := q_planCode result;
           status := q_status result;
           currentPeriodEnd := q_currentPeriodEnd result;
           userEmail := Some userEmail;
           ttl := now' / 1000 + ttlSeconds |} in
      db.setEntitlementCache cacheEntry ;;;
      ret {| d_hasAccess := q_hasAccess result;
             d_subscription :=
               subscriptionOf (q_hasAccess result) (q_status result)
                 (q_planCode result) (q_currentPeriodEnd result) |}
  end.

End Entitlements.
End entitlements.

(** ** handlers/plans.ts: the filter of the listed plans *)

Module plans.

(** [audience.split(',').map((a) => a.trim()).includes(productId)]. *)
Definition audiencesInclude (audience productId : string) : bool :=
  Js.includes (map Js.trim (Js.split "," audience)) productId.

(** The predicate given to [prices.data.filter]. *)
Definition listed (productId : string) (price : Price) : bool :=
  if negb (price_recurring price) then false
  else
    match price_product price with
    | ProductId _ => false   (* [.active] of a string is undefined *)
    | ProductObject stripeProduct =>
        if negb (sp_active stripeProduct) then false
        else
          match sp_audience stripeProduct with
          | Some audience =>
              if String.eqb audience "" then true
              else audiencesInclude audience productId
          | None => true
          end
    end.

End plans.

(** ** utils/response.ts *)

Record APIGatewayProxyResult := {
  statusCode : Z;
  body : Json;       (* the value given to JSON.stringify *)
}.

Definition json (statusCode : Z) (body : Json) : APIGatewayProxyResult :=
  {| statusCode := statusCode; body := body |}.

Definition success (data : Json) : APIGatewayProxyResult :=
  json 200 (JObj [("success", JBool true); ("data", data)]).

Definition error (message : string) (statusCode : Z)
    : APIGatewayProxyResult :=
  json statusCode (JObj [("success", JBool false); ("error", JStr message)]).

(** An optional string as a member of a body. *)
Definition JOpt (v : option string) : Json :=
  match v with Some s => JStr s | None => JNull end.

Record APIGatewayProxyEvent := {
  headers : list (string * string);
  pathParameters : list (string * string);
  eventBody : option string;
}.

(** ** middleware/auth.ts *)

Record ResolvedApiKey := {
  r_tenantId : string;
  r_productId : string;
  r_keyType : KeyType;
}.

Section Auth.
Context {env : Env}.

Definition resolveApiKey (event : APIGatewayProxyEvent)
    : M (option ResolvedApiKey) :=
  let rawKey :=
    Js.or (Js.get (headers event) "x-api-key")
      (Js.or (Js.get (headers event) "X-Api-Key")
         (Js.get (headers event) "X-API-KEY")) in
  match Js.nonEmpty rawKey with
  | None => ret None
  | Some rawKey =>
      let hash := hashApiKey rawKey in
      record <- db.getApiKeyByHash hash ;;
      match record with
      | None => ret None
      | Some record =>
          ret (Some {| r_tenantId := k_tenantId record;
                       r_productId := k_productId record;
                       r_keyType := keyType record |})
      end
  end.

Definition requireAdminKey (event : APIGatewayProxyEvent)
    : M (option ResolvedApiKey) :=
  resolved <- resolveApiKey event ;;
  match resolved with
  | Some r =>
      match r_keyType r with
      | adminKey => ret (Some r)
      | productKey => ret None
      end
  | None => ret None
  end.

End Auth.

(** ** handlers/subscriptions.ts *)

Module subscriptions.
Section Subscriptions.
Context {env : Env}.

Definition ACTIVE_TTL : Z := 5 * 60.


End Subscriptions.
End subscriptions.

(** ** handlers/webhooks.ts *)

Module webhooks.
Section Webhooks.
Context {env : Env}.

Definition ACTIVE_TTL : Z := 5 * 60.
Definition AUDIT_TTL : Z := 30 * 24 * 60 * 60.

(** [subscription.items?.data[0]?.price?.product]. *)
Definition firstProduct (subscription : Subscription) : option ProductField :=
  match sub_items subscription with
  | item :: _ => Some (price_product (item_price item))
  | [] => None
  end.

(** The subscription itself when its first item carries a product, else
    the subscription retrieved again with the product expanded. *)
Definition fullSubscription (stripe : Stripe) (subscription : Subscription)
    : M Subscription :=
  if from_option pf_truthy false (firstProduct subscription) then
    ret subscription
  else
    stripeCall "subscriptions.retrieve" stripe (sub_id subscription)
      (fun n k => subscriptions_retrieve n k (sub_id subscription)).

(** [subscription.metadata?.paywall_product ||
     stripeProduct?.metadata?.audience || '*']. *)
Definition targetProduct (subscription : Subscription)
    (stripeProduct : option ProductField) : string :=
  Js.orStr
    (Js.or (sub_paywall_product subscription)
           (stripeProduct ≫= pf_audience)) "*".

Definition updateEntitlementFromSubscription (tenantId : string)
    (stripe : Stripe) (subscription : Subscription) : M unit :=
  customer <- stripeCall "customers.retrieve" stripe (sub_customer subscription)
                (fun n k => customers_retrieve n k (sub_customer subscription)) ;;
  match Js.nonEmpty (cus_email customer) with
  | None => ret tt
  | Some email =>
      fullSub <- fullSubscription stripe subscription ;;
      let stripeProduct := firstProduct fullSub in
      let planCode :=
        Js.orStr (Js.or (stripeProduct ≫= pf_plan_code)
                        (stripeProduct ≫= pf_id)) "" in
      let productId := targetProduct subscription stripeProduct in
      let hasAccess :=
        String.eqb (sub_status subscription) "active"
        || String.eqb (sub_status subscription) "trialing" in
      let tenantProductKey := tenantId ++ "#" ++ productId in
      let userId := Js.orStr (sub_user_id subscription) email in
      now <- Date_now ;;
      let cache :=
        {| tenantProductKey := tenantProductKey;
           userId := userId;
           hasAccess := hasAccess;
           subscriptionId := Some (sub_id subscription);
           planCode := Some planCode;
           status := Some (sub_status subscription);
           currentPeriodEnd :=
             Some (toISOString (sub_current_period_end subscription * 1000));
           userEmail := Some email;
           ttl := now / 1000 + ACTIVE_TTL |} in
      db.setEntitlementCache cache
  end.

Definition revokeEntitlementFromSubscription (tenantId : string)
    (stripe : Stripe) (subscription : Subscription) : M unit :=
  customer <- stripeCall "customers.retrieve" stripe (sub_customer subscription)
                (fun n k => customers_retrieve n k (sub_customer subscription)) ;;
  match Js.nonEmpty (cus_email customer) with
  | None => ret tt
  | Some email =>
      fullSub <- fullSubscription stripe subscription ;;
      let stripeProduct := firstProduct fullSub in
      let productId := targetProduct subscription stripeProduct in
      let tenantProductKey := tenantId ++ "#" ++ productId in
      let userId := Js.orStr (sub_user_id subscription) email in
      now <- Date_now ;;
      (* the revoked entry, with a short TTL *)
      let cache :=
        {| tenantProductKey := tenantProductKey;
           userId := userId;
           hasAccess := false;
           subscriptionId := Some (sub_id subscription);
           planCode := None;
           status := Some (sub_status subscription);
           currentPeriodEnd := None;
           userEmail := Some email;
           ttl := now / 1000 + 60 |} in
      db.setEntitlementCache cache
  end.

(** The object of an event, read as the type of the event says.  Stripe
    sends a subscription with the subscription events and an invoice with
    the invoice events; any other pairing is a [TypeError] here. *)
Definition asSubscription (o : EventObject) : M Subscription :=
  match o with
  | SubscriptionObject s => ret s
  | _ => throw (mkExn "TypeError" "Cannot read properties of undefined")
  end.

Definition asInvoice (o : EventObject) : M Invoice :=
  match o with
  | InvoiceObject i => ret i
  | _ => throw (mkExn "TypeError" "Cannot read properties of undefined")
  end.

Definition processWebhookEvent (tenantId : string) (stripe : Stripe)
    (event : StripeEvent) : M unit :=
  if String.eqb (ev_type event) "customer.subscription.created"
     || String.eqb (ev_type event) "customer.subscription.updated" then
    subscription <- asSubscription (ev_object event) ;;
    updateEntitlementFromSubscription tenantId stripe subscription
  else if String.eqb (ev_type event) "customer.subscription.deleted" then
    subscription <- asSubscription (ev_object event) ;;
    revokeEntitlementFromSubscription tenantId stripe subscription
  else if String.eqb (ev_type event) "invoice.payment_failed" then
    invoice <- asInvoice (ev_object event) ;;
    match Js.nonEmpty (inv_subscription invoice) with
    | Some id =>
        subscription <- stripeCall "subscriptions.retrieve" stripe id
                          (fun n k => subscriptions_retrieve n k id) ;;
        updateEntitlementFromSubscription tenantId stripe subscription
    | None => ret tt
    end
  else ret tt.

(** Lines 26 to 52 of the handler: the secret, the signature header, the
    client and the verification; either the response of an early return or
    the client and the verified event. *)
Definition verify (tenantId : string) (event : APIGatewayProxyEvent)
    : M (APIGatewayProxyResult + Stripe * StripeEvent) :=
  webhookSecret <- creds.getStripeWebhookSecret tenantId ;;
  match Js.nonEmpty webhookSecret with
  | None =>
      ret (inl (json 400
                  (JObj [("error",
                          JStr "Webhook not configured for this tenant")])))
  | Some webhookSecret =>
      let signature :=
        Js.or (Js.get (headers event) "stripe-signature")
              (Js.get (headers event) "Stripe-Signature") in
      match Js.nonEmpty signature with
      | None =>
          ret (inl (json 400
                      (JObj [("error",
                              JStr "Missing stripe-signature header")])))
      | Some signature =>
          stripe <- getStripeClient tenantId ;;
          match constructEvent (Js.orStr (eventBody event) "") signature
                  webhookSecret with
          | inl err =>
              ret (inl (json 400 (JObj [("error", JStr "Invalid signature")])))
          | inr stripeEvent => ret (inr (stripe, stripeEvent))
          end
      end
  end.

(** Lines 54 to 86 of the handler: the idempotency check, the processing
    and the audit record. *)
Definition deliver (tenantId : string) (stripe : Stripe)
    (stripeEvent : StripeEvent) : M APIGatewayProxyResult :=
  existingAudit <- db.getWebhookAudit tenantId (ev_id stripeEvent) ;;
  match existingAudit with
  | Some _ =>
      ret (json 200 (JObj [("received", JBool true);
                           ("duplicate", JBool true)]))
  | None =>
      outcome <- try_catch
                   (processWebhookEvent tenantId stripe stripeEvent ;;;
                    ret (success_, None))
                   (fun err => ret (error_, Some (exnMessage err))) ;;
      now <- Date_now ;;
      let audit :=
        {| tenantEventKey := tenantId ++ "#" ++ ev_id stripeEvent;
           a_tenantId := tenantId;
           eventType := ev_type stripeEvent;
           processedAt := toISOString now;
           result := fst outcome;
           errorMessage := snd outcome;
           a_ttl := now / 1000 + AUDIT_TTL |} in
      db.createWebhookAudit audit ;;;
      ret (json 200 (JObj [("received", JBool true)]))
  end.

Definition handler (event : APIGatewayProxyEvent) : M APIGatewayProxyResult :=
  match Js.nonEmpty (Js.get (pathParameters event) "tenantId") with
  | None => ret (json 400 (JObj [("error", JStr "tenantId is required")]))
  | Some tenantId =>
      try_catch
        (verified <- verify tenantId event ;;
         match verified with
         | inl response => ret response
         | inr (stripe, stripeEvent) => deliver tenantId stripe stripeEvent
         end)
        (fun err => ret (json 500 (JObj [("error", JStr "Internal server error")])))
  end.

End Webhooks.
End webhooks.

(** ** handlers/credentials.ts *)

Module credentials.
Section Credentials.
Context {env : Env}.

Definition setHandler (event : APIGatewayProxyEvent)
    : M APIGatewayProxyResult :=
  try_catch
    (auth <- requireAdminKey event ;;
     match auth with
     | None => ret (error "Unauthorized — admin API key required" 401)
     | Some auth =>
     match Js.nonEmpty (Js.get (pathParameters event) "tenantId") with
     | None => ret (error "tenantId is required" 400)
     | Some tenantId =>
     if negb (String.eqb (r_tenantId auth) tenantId) then
       ret (error "Access denied" 403)
     else
     tenant <- db.getTenant tenantId ;;
     match tenant with
     | None => ret (error "Tenant not found" 404)
     | Some tenant =>
     body <- lift (JSON_parse (Js.orStr (eventBody event) "{}")) ;;
     let stripe_webhook_secret :=
       Js.nonEmpty (Js.get body "stripe_webhook_secret") in
     match Js.nonEmpty (Js.get body "stripe_secret_key") with
     | None => ret (error "stripe_secret_key is required" 400)
     | Some stripe_secret_key =>
     match Js.nonEmpty (Js.get body "stripe_publishable_key") with
     | None => ret (error "stripe_publishable_key is required" 400)
     | Some stripe_publishable_key =>
     if negb (Js.startsWith stripe_secret_key "sk_") then
       ret (error "stripe_secret_key must start with sk_" 400)
     else if negb (Js.startsWith stripe_publishable_key "pk_") then
       ret (error "stripe_publishable_key must start with pk_" 400)
     else if from_option (fun s => negb (Js.startsWith s "whsec_")) false
               stripe_webhook_secret then
       ret (error "stripe_webhook_secret must start with whsec_" 400)
     else
     (* the secret key is tried against Stripe *)
     validation <- creds.validateStripeKey stripe_secret_key ;;
     if negb (creds.valid validation) then
       ret (error ("Stripe key validation failed: "
                     ++ Js.orStr (creds.v_error validation) "undefined") 400)
     else
     (* secret key and webhook secret go to Secrets Manager *)
     creds.storeCredentials tenantId
       {| stripe_secret_key := stripe_secret_key;
          stripe_webhook_secret := stripe_webhook_secret |} ;;;
     (* publishable key and status go to the tenant record *)
     t <- Date_now ;;
     let now := toISOString t in
     db.updateTenant tenantId
       {| db.u_stripePublishableKey := Some stripe_publishable_key;
          db.u_credentialsConfigured := Some true;
          db.u_credentialsValidatedAt := Some now;
          db.u_updatedAt := Some now |} ;;;
     ret (success (JObj [("status", JStr "validated");
                         ("publishable_key", JStr stripe_publishable_key);
                         ("validated_at", JStr now)]))
     end end end end end)
    (fun err => ret (error "Failed to store credentials" 500)).

Definition deleteHandler (event : APIGatewayProxyEvent)
    : M APIGatewayProxyResult :=
  try_catch
    (auth <- requireAdminKey event ;;
     match auth with
     | None => ret (error "Unauthorized — admin API key required" 401)
     | Some auth =>
     match Js.nonEmpty (Js.get (pathParameters event) "tenantId") with
     | None => ret (error "tenantId is required" 400)
     | Some tenantId =>
     if negb (String.eqb (r_tenantId auth) tenantId) then
       ret (error "Access denied" 403)
     else
     tenant <- db.getTenant tenantId ;;
     match tenant with
     | None => ret (error "Tenant not found" 404)
     | Some tenant =>
     creds.deleteCredentials tenantId ;;;
     t <- Date_now ;;
     let now := toISOString t in
     db.updateTenant tenantId
       {| db.u_stripePublishableKey := None;
          db.u_credentialsConfigured := Some false;
          db.u_credentialsValidatedAt := None;
          db.u_updatedAt := Some now |} ;;;
     ret (success (JObj [("deleted", JBool true)]))
     end end end)
    (fun err => ret (error "Failed to delete credentials" 500)).

End Credentials.
End credentials.

(** ** Observations on the trace *)

Definition isEntitlementWrite (e : Effect) : bool :=
  match e with
  | DynamoDB PutCommand ENTITLEMENT_CACHE_TABLE _ => true
  | _ => false
  end.

Definition isAuditWrite (e : Effect) : bool :=
  match e with
  | DynamoDB PutCommand WEBHOOK_AUDIT_TABLE _ => true
  | _ => false
  end.

Definition isProviderCall (e : Effect) : bool :=
  match e with
  | StripeApi _ _ _ => true
  | _ => false
  end.

(** How many requests of a kind were made so far. *)
Definition count (p : Effect -> bool) (w : World) : nat :=
  length (List.filter p (trace w)).

Definition entitlementWrites : World -> nat := count isEntitlementWrite.
Definition auditWrites : World -> nat := count isAuditWrite.
Definition providerCalls : World -> nat := count isProviderCall.

(** ** Frames: what a computation leaves as it found it *)

(** [m] relates every world it starts in to the world it ends in by [P],
    whether it returns or throws. *)
Definition preserves (P : World -> World -> Prop) {A} (m : M A) : Prop :=
  forall w, P w (snd (m w)).

(** The entitlement and audit tables are untouched and no write to either
    was even attempted. *)
Definition keepsStore (w w' : World) : Prop :=
  entitlements w' = entitlements w /\ audits w' = audits w /\
  entitlementWrites w' = entitlementWrites w /\
  auditWrites w' = auditWrites w.

(** The client cache of the process is as it was. *)
Definition keepsCache (w w' : World) : Prop :=
  clientCache w' = clientCache w.

(** Requests are only ever added to the trace. *)
Definition later (w w' : World) : Prop := (ticks w <= ticks w')%nat.

(** [keepsStore], and no request went to the billing provider. *)
Definition silent (w w' : World) : Prop :=
  keepsStore w w' /\ providerCalls w' = providerCalls w.

(** The audit table is untouched and at most one write to the entitlement
    table was attempted. *)
Definition oneWrite (w w' : World) : Prop :=
  audits w' = audits w /\ auditWrites w' = auditWrites w /\
  (entitlementWrites w' = entitlementWrites w \/
   entitlementWrites w' = S (entitlementWrites w)).



(** The status code of an answered request. *)
Definition answered (r : Exn + APIGatewayProxyResult) : option Z :=
  match r with
  | inr response => Some (statusCode response)
  | inl _ => None
  end.

(** ** The serializer of [URLSearchParams]
       (application/x-www-form-urlencoded, on the bytes of the string) *)

Module Url.

Definition hexDigit (n : N) : ascii :=
  match n with
  | 0%N => "0" | 1%N => "1" | 2%N => "2" | 3%N => "3" | 4%N => "4"
  | 5%N => "5" | 6%N => "6" | 7%N => "7" | 8%N => "8" | 9%N => "9"
  | 10%N => "A" | 11%N => "B" | 12%N => "C" | 13%N => "D" | 14%N => "E"
  | _ => "F"
  end%char.

(** The bytes left as they are: ASCII letters and digits and [*-._]. *)
Definition isPlain (c : ascii) : bool :=
  let n := N_of_ascii c in
  ((48 <=? n) && (n <=? 57) || (65 <=? n) && (n <=? 90)
   || (97 <=? n) && (n <=? 122)
   || (n =? 42) || (n =? 45) || (n =? 46) || (n =? 95))%N.

Definition encodeByte (c : ascii) : string :=
  if Ascii.eqb c " " then "+"
  else if isPlain c then String c EmptyString
  else
    let n := N_of_ascii c in
    String "%" (String (hexDigit (n / 16)) (String (hexDigit (n mod 16))
                                              EmptyString)).

Fixpoint encode (s : string) : string :=
  match s with
  | EmptyString => EmptyString
  | String c r => encodeByte c ++ encode r
  end.

(** [new URLSearchParams(obj).toString()]. *)
Definition toString (params : list (string * string)) : string :=
  String.concat "&"
    (map (fun kv => encode (fst kv) ++ "=" ++ encode (snd kv)) params).

End Url.

(** ** handlers/entitlements.ts *)

Module entitlementsHandler.
Section EntitlementsHandler.
Context {env : Env}.
Import entitlements.

Definition requireAnyKey (event : APIGatewayProxyEvent)
    : M (option ResolvedApiKey) :=
  resolveApiKey event.

Definition checkHandler (event : APIGatewayProxyEvent)
    : M APIGatewayProxyResult :=
  try_catch
    (auth <- requireAnyKey event ;;
     match auth with
     | None => ret (error "Unauthorized — valid API key required" 401)
     | Some auth =>
     body <- lift (JSON_parse (Js.orStr (eventBody event) "{}")) ;;
     let user_id := Js.get body "user_id" in
     match Js.nonEmpty (Js.get body "user_email") with
     | None => ret (error "user_email is required" 400)
     | Some user_email =>
     (* the product: that of the key, or for an admin key that of the body *)
     match (if String.eqb (r_productId auth) "*"
            then Js.nonEmpty (Js.get body "product_id")
            else Some (r_productId auth)) with
     | None =>
         ret (error "product_id is required when using admin API key" 400)
     | Some productId =>
     let userId := Js.orStr user_id user_email in
     tenant <- db.getTenant (r_tenantId auth) ;;
     if negb (from_option credentialsConfigured false tenant) then
       ret (error "Stripe credentials not configured for this tenant" 400)
     else
     product <- db.getProduct (r_tenantId auth) productId ;;
     match product with
     | None => ret (error "Product not found" 404)
     | Some product =>
     result <- checkEntitlement (r_tenantId auth) productId userId user_email ;;
     if d_hasAccess result then
       match d_subscription result with
       | Some subscription =>
           ret (success
                  (JObj [("has_access", JBool true);
                         ("subscription",
                          JObj [("status", JStr (s_status subscription));
                                ("plan_code", JStr (s_planCode subscription));
                                ("current_period_end",
                                 JStr (s_currentPeriodEnd subscription))])]))
       | None =>
           (* [result.subscription!.status] on undefined *)
           throw (mkExn "TypeError" "Cannot read properties of undefined")
       end
     else
       let checkoutDomain :=
         Js.orStr (checkoutDomain product) "https://pay.agentbrigade.ai" in
       let params :=
         Url.toString [("t", r_tenantId auth); ("p", productId);
                       ("email", user_email)] in
       ret (success
              (JObj [("has_access", JBool false);
                     ("checkout_url",
                      JStr (checkoutDomain ++ "/plans?" ++ params))]))
     end end end end)
    (fun err => ret (error "Failed to check entitlement" 500)).

End EntitlementsHandler.
End entitlementsHandler.

(** ** handlers/credentials.ts: the status *)

Section CredentialsStatus.
Context {env : Env}.

Definition getStatusHandler (event : APIGatewayProxyEvent)
    : M APIGatewayProxyResult :=
  try_catch
    (auth <- requireAdminKey event ;;
     match auth with
     | None => ret (error "Unauthorized — admin API key required" 401)
     | Some auth =>
     match Js.nonEmpty (Js.get (pathParameters event) "tenantId") with
     | None => ret (error "tenantId is required" 400)
     | Some tenantId =>
     if negb (String.eqb (r_tenantId auth) tenantId) then
       ret (error "Access denied" 403)
     else
     tenant <- db.getTenant tenantId ;;
     match tenant with
     | None => ret (error "Tenant not found" 404)
     | Some tenant =>
         ret (success
                (JObj [("configured", JBool (credentialsConfigured tenant));
                       ("publishable_key",
                        JOpt (Js.nonEmpty (stripePublishableKey tenant)));
                       ("validated_at",
                        JOpt (Js.nonEmpty (credentialsValidatedAt tenant)))]))
     end end end)
    (fun err => ret (error "Failed to get credentials status" 500)).

End CredentialsStatus.

(** ** handlers/tenants.ts *)

Module tenantsHandler.
Section Tenants.
Context {env : Env}.

(** [s.replace(/-/g, '')]. *)
Fixpoint removeDashes (s : string) : string :=
  match s with
  | EmptyString => EmptyString
  | String c r =>
      if Ascii.eqb c "-" then removeDashes r else String c (removeDashes r)
  end.

(** The id of a new tenant, from the UUID drawn for it:
    [`t_${uuidv4().replace(/-/g, '').slice(0, 12)}`]. *)
Definition newTenantId (uuid : string) : string :=
  "t_" ++ String.substring 0 12 (removeDashes uuid).

(** The item of the tenants table as JSON: absent members are left out. *)
Definition tenantJson (t : Tenant) : Json :=
  JObj ([("tenantId", JStr (tenantId t)); ("name", JStr (name t));
         ("adminEmail", JStr (adminEmail t))]
        ++ from_option (fun k => [("stripePublishableKey", JStr k)]) []
             (stripePublishableKey t)
        ++ [("credentialsConfigured", JBool (credentialsConfigured t))]
        ++ from_option (fun k => [("credentialsValidatedAt", JStr k)]) []
             (credentialsValidatedAt t)
        ++ [("createdAt", JStr (createdAt t));
            ("updatedAt", JStr (updatedAt t))])%list.

Definition getHandler (event : APIGatewayProxyEvent)
    : M APIGatewayProxyResult :=
  try_catch
    (auth <- requireAdminKey event ;;
     match auth with
     | None => ret (error "Unauthorized — admin API key required" 401)
     | Some auth =>
     match Js.nonEmpty (Js.get (pathParameters event) "tenantId") with
     | None => ret (error "tenantId is required" 400)
     | Some tenantId =>
     if negb (String.eqb (r_tenantId auth) tenantId) then
       ret (error "Access denied" 403)
     else
     tenant <- db.getTenant tenantId ;;
     match tenant with
     | None => ret (error "Tenant not found" 404)
     | Some tenant => ret (success (tenantJson tenant))
     end end end)
    (fun err => ret (error "Failed to get tenant" 500)).

End Tenants.
End tenantsHandler.

(** ** services/dynamodb.ts: the delete of an entitlement row *)

Module dbMore.
Section DbMore.
Context {env : Env}.

Definition deleteEntitlementCache (tenantId productId userId : string)
    : M unit :=
  let tenantProductKey := tenantId ++ "#" ++ productId in
  aws (DynamoDB DeleteCommand ENTITLEMENT_CACHE_TABLE
         [tenantProductKey; userId]) ;;;
  modify (set_entitlements (delete (tenantProductKey, userId))).

End DbMore.
End dbMore.

(** ** Shapes of strings *)

(** The character occurs in the string. *)
Fixpoint hasChar (c : ascii) (s : string) : bool :=
  match s with
  | EmptyString => false
  | String d r => Ascii.eqb d c || hasChar c r
  end.



(** ** Postconditions that depend on the answer *)

(** [m] relates every world it starts in, its outcome and the world it ends
    in by [Q]. *)
Definition ensures {A} (Q : World -> Exn + A -> World -> Prop) (m : M A)
    : Prop :=
  forall w, Q w (fst (m w)) (snd (m w)).

(** [P] holds when the request is answered with a status for which [cond]
    holds, and [T] holds when the computation throws. *)
Definition whenAnswered (cond : Z -> bool) (P T : World -> World -> Prop)
    : World -> Exn + APIGatewayProxyResult -> World -> Prop :=
  fun w r w' =>
    match r with
    | inr response => cond (statusCode response) = true -> P w w'
    | inl _ => T w w'
    end.

(** The computation does not throw, and answers with a status for which
    [cond] does not hold. *)
Definition answersOutside (cond : Z -> bool)
    (r : Exn + APIGatewayProxyResult) : Prop :=
  match r with
  | inr response => cond (statusCode response) = false
  | inl _ => False
  end.

(** The computation throws, or answers with a status for which [cond] does
    not hold. *)
Definition throwsOrAnswersOutside (cond : Z -> bool)
    (r : Exn + APIGatewayProxyResult) : Prop :=
  match r with
  | inr response => cond (statusCode response) = false
  | inl _ => True
  end.

Definition anything (w w' : World) : Prop := True.

(** Secrets Manager and the tenants table are as they were. *)
Definition keepsCredentials (w w' : World) : Prop :=
  secrets w' = secrets w /\ tenants w' = tenants w.

(** The statuses other than 200 and 500. *)
Definition refused (status : Z) : bool :=
  negb (Z.eqb status 200) && negb (Z.eqb status 500).

Definition isSecretsRequest (e : Effect) : bool :=
  match e with
  | SecretsManager _ _ => true
  | _ => false
  end.

(** Nothing but the trace changed, and no request went to Secrets Manager
    or to the billing provider. *)
Definition readsTablesOnly (w w' : World) : Prop :=
  tenants w' = tenants w /\ products w' = products w /\
  apiKeys w' = apiKeys w /\ entitlements w' = entitlements w /\
  audits w' = audits w /\ secrets w' = secrets w /\
  clientCache w' = clientCache w /\
  count isSecretsRequest w' = count isSecretsRequest w /\
  providerCalls w' = providerCalls w.

Definition keepsTenants (w w' : World) : Prop := tenants w' = tenants w.

(** Every record of the audit table is still there, unchanged. *)
Definition auditsGrow (w w' : World) : Prop :=
  forall key audit, audits w !! key = Some audit ->
                    audits w' !! key = Some audit.

Definition is400 (status : Z) : bool := Z.eqb status 400.

(** The entitlement table is as it was. *)
Definition keepsEntitlements (w w' : World) : Prop :=
  entitlements w' = entitlements w.

(** The statuses other than 200. *)
Definition notOk (status : Z) : bool := negb (Z.eqb status 200).

(** ** Concrete scenarios *)

Module Scenario.

Definition unreachable : Exn :=
  mkExn "StripeConnectionError" "An error occurred with our connection to Stripe.".

Definition throttled : Exn :=
  mkExn "ProvisionedThroughputExceededException" "The level of configured provisioned throughput for the table was exceeded.".

Definition noSignature : Exn := Error "No signatures found matching the expected signature for payload.".

Definition noFaults : nat -> Effect -> option Exn := fun _ _ => None.

(** An environment at a fixed instant whose provider gives the same answers
    whenever it is asked. *)
Definition scenario (faults : nat -> Effect -> option Exn)
    (customers : Exn + list Customer)
    (subscriptions : string -> Exn + list Subscription)
    (customer : Exn + Customer) (subscription : Exn + Subscription)
    (price : Exn + Price) (event : Exn + StripeEvent)
    (parsed : list (string * string)) : Env := {|
  clock := fun _ => 1700000000000;
  awsFault := faults;
  toISOString := fun _ => "2023-11-14T22:13:20.000Z";
  hashApiKey := fun k => "sha256:" ++ k;
  customers_list := fun _ _ _ => customers;
  customers_retrieve := fun _ _ _ => customer;
  subscriptions_list := fun _ _ _ st => subscriptions st;
  subscriptions_retrieve := fun _ _ _ => subscription;
  subscriptions_create := fun _ _ _ => subscription;
  prices_retrieve := fun _ _ _ => price;
  products_list := fun _ _ => None;
  constructEvent := fun _ _ _ => event;
  fetch := fun _ _ => None;
  JSON_parse := fun _ => inr parsed;
|}.

(** A provider that knows no customer. *)
Definition quiet : Env :=
  scenario noFaults (inr []) (fun _ => inr []) (inl unreachable)
    (inl unreachable) (inl unreachable) (inl noSignature) [].

(** A provider that cannot be reached. *)
Definition outage : Env :=
  scenario noFaults (inl unreachable) (fun _ => inl unreachable)
    (inl unreachable) (inl unreachable) (inl unreachable) (inl noSignature) [].

(** As [quiet], with every write to the entitlement table refused. *)
Definition readOnly : Env :=
  scenario (fun _ e => if isEntitlementWrite e then Some throttled else None)
    (inr []) (fun _ => inr []) (inl unreachable)
    (inl unreachable) (inl unreachable) (inl noSignature) [].

Definition alice : Customer :=
  {| cus_id := "cus_1"; cus_email := Some "alice@example.com" |}.

Definition proPlan : StripeProduct :=
  {| sp_id := "prod_pro"; sp_active := true; sp_name := "Pro";
     sp_audience := Some "p1"; sp_plan_code := Some "pro" |}.

(** A plan sold as a bundle of two products. *)
Definition bundlePlan : StripeProduct :=
  {| sp_id := "prod_bundle"; sp_active := true; sp_name := "Compass bundle";
     sp_audience := Some "compass_studio,compass_chat";
     sp_plan_code := Some "bundle" |}.

Definition priceOf (plan : StripeProduct) : Price :=
  {| price_id := "price_1"; price_product := ProductObject plan;
     price_recurring := true |}.

(** A subscription of [alice] to [plan], as the API returns it with the
    product expanded. *)
Definition subscriptionTo (plan : StripeProduct) (status : string)
    (paywall_product : option string) : Subscription :=
  {| sub_id := "sub_1"; sub_status := status; sub_customer := "cus_1";
     sub_items := [ {| item_price := priceOf plan |} ];
     sub_current_period_end := 1702592000;
     sub_paywall_product := paywall_product; sub_user_id := None |}.

(** [alice] holds an active subscription to the bundle. *)
Definition bundle : Env :=
  scenario noFaults (inr [alice])
    (fun st => if String.eqb st "active"
               then inr [subscriptionTo bundlePlan "active" None]
               else inr [])
    (inr alice) (inr (subscriptionTo bundlePlan "active" None))
    (inr (priceOf bundlePlan)) (inl noSignature) [].


(** The event Stripe sends when the subscription of [alice] falls behind
    with its payment. *)
Definition pastDue : StripeEvent :=
  {| ev_id := "evt_1"; ev_type := "customer.subscription.updated";
     ev_object :=
       SubscriptionObject (subscriptionTo proPlan "past_due" (Some "p1")) |}.

Definition dunning : Env :=
  scenario noFaults (inr [alice]) (fun _ => inr []) (inr alice)
    (inr (subscriptionTo proPlan "past_due" (Some "p1")))
    (inr (priceOf proPlan)) (inr pastDue) [].

(** The same event, while the provider cannot be reached. *)
Definition dunningOutage : Env :=
  scenario noFaults (inl unreachable) (fun _ => inl unreachable)
    (inl unreachable) (inl unreachable) (inl unreachable) (inr pastDue) [].

(** A tenant replaces its keys. *)
Definition rotation : Env :=
  scenario noFaults (inr []) (fun _ => inr []) (inl unreachable)
    (inl unreachable) (inl unreachable) (inl noSignature)
    [("stripe_secret_key", "sk_live_new");
     ("stripe_publishable_key", "pk_live_new")].

Definition empty : World := {|
  tenants := ∅; products := ∅; apiKeys := ∅; entitlements := ∅;
  audits := ∅; secrets := ∅; clientCache := ∅; trace := [];
|}.

(** Tenant [t1] has stored its credentials. *)
Definition configured : World :=
  set_secrets <["paywall/stripe/t1" :=
                  {| stripe_secret_key := "sk_test_1";
                     stripe_webhook_secret := Some "whsec_1" |}]> empty.

Definition t1 : Tenant :=
  {| tenantId := "t1"; name := "Tenant one"; adminEmail := "ops@example.com";
     stripePublishableKey := Some "pk_test_1"; credentialsConfigured := true;
     credentialsValidatedAt := Some "2023-11-01T00:00:00.000Z";
     createdAt := "2023-11-01T00:00:00.000Z";
     updatedAt := "2023-11-01T00:00:00.000Z" |}.

Definition p1 : Product :=
  {| p_tenantId := "t1"; p_productId := "p1"; productName := "Product one";
     checkoutDomain := None;
     allowedReturnUrls := ["https://app.example.com/welcome"];
     subscriptionCallbackUrl := None |}.

(** Tenant [t1] with its product [p1], its admin key and, in the process,
    a Stripe client made from the stored secret key a minute ago. *)
Definition shop : World := {|
  tenants := {["t1" := t1]};
  products := {[("t1", "p1") := p1]};
  apiKeys := {["sha256:pk_paywall_admin" :=
                 {| apiKeyHash := "sha256:pk_paywall_admin";
                    k_tenantId := "t1"; k_productId := "*";
                    keyType := adminKey |}]};
  entitlements := ∅;
  audits := ∅;
  secrets := {["paywall/stripe/t1" :=
                 {| stripe_secret_key := "sk_test_1";
                    stripe_webhook_secret := Some "whsec_1" |}]};
  clientCache := {["t1" := {| client := {| secretKey := "sk_test_1" |};
                              expiry := 1700000240000 |}]};
  trace := [];
|}.

(** The requests.  What a body parses to and which event it verifies as
    is given by the scenario; the bodies are written here with apostrophes
    for the quotes of JSON. *)
Definition finalizeRequest : APIGatewayProxyEvent :=
  {| headers := []; pathParameters := [];
     eventBody :=
       Some "{'tenant_id':'t1','customer_id':'cus_1','price_id':'price_1','product_id':'p1'}" |}.

Definition webhookRequest : APIGatewayProxyEvent :=
  {| headers := [("stripe-signature", "t=1700000000,v1=5257a869")];
     pathParameters := [("tenantId", "t1")];
     eventBody :=
       Some "{'id':'evt_1','type':'customer.subscription.updated'}" |}.

Definition credentialsRequest : APIGatewayProxyEvent :=
  {| headers := [("x-api-key", "pk_paywall_admin")];
     pathParameters := [("tenantId", "t1")];
     eventBody :=
       Some "{'stripe_secret_key':'sk_live_new','stripe_publishable_key':'pk_live_new'}" |}.

(** A row whose optional members are all absent, valid for another 100
    seconds. *)
Definition bareRow : EntitlementCache := {|
  tenantProductKey := "t1#p1"; userId := "u1"; hasAccess := true;
  subscriptionId := None; planCode := None; status := None;
  currentPeriodEnd := None; userEmail := None; ttl := 1700000100;
|}.

(** The row written for a canceled subscription, valid for another 30
    seconds. *)
Definition revokedRow : EntitlementCache := {|
  tenantProductKey := "t1#p1"; userId := "u1"; hasAccess := false;
  subscriptionId := Some "sub_1"; planCode := None;
  status := Some "canceled"; currentPeriodEnd := None;
  userEmail := Some "u1@example.com"; ttl := 1700000030;
|}.

Definition withRow (row : EntitlementCache) (w : World) : World :=
  set_entitlements <[(tenantProductKey row, userId row) := row]> w.

End Scenario.

(** A product asks whether a user it knows by email has access, with the
    admin key of its tenant. *)
Module CheckScenario.

Definition checking : Env :=
  Scenario.scenario Scenario.noFaults (inr []) (fun _ => inr [])
    (inl Scenario.unreachable) (inl Scenario.unreachable)
    (inl Scenario.unreachable) (inl Scenario.noSignature)
    [("user_email", "u1@example.com"); ("product_id", "p1")].


End CheckScenario.

(** * Properties *)

(** ** Frame rules *)

Section Frame.
Context {env : Env}.
Variable P : World -> World -> Prop.
Hypothesis P_refl : forall w, P w w.
Hypothesis P_trans : forall w1 w2 w3, P w1 w2 -> P w2 w3 -> P w1 w3.

Lemma preserves_ret {A} (a : A) : preserves P (ret a).
Proof. intros w. apply P_refl. Qed.

Lemma preserves_throw {A} (e : Exn) : preserves P (@throw A e).
Proof. intros w. apply P_refl. Qed.

Lemma preserves_get_world : preserves P get_world.
Proof. intros w. apply P_refl. Qed.

Lemma preserves_Date_now : preserves P Date_now.
Proof. intros w. apply P_refl. Qed.

Lemma preserves_bind {A B} (m : M A) (k : A -> M B) :
  preserves P m -> (forall a, preserves P (k a)) -> preserves P (bind m k).
Proof.
  intros Hm Hk w. unfold bind. specialize (Hm w).
  destruct (m w) as [[e|a] w1]; cbn in *; [assumption|].
  eapply P_trans; [eassumption | apply Hk].
Qed.

Lemma preserves_try_catch {A} (m : M A) (h : Exn -> M A) :
  preserves P m -> (forall e, preserves P (h e)) ->
  preserves P (try_catch m h).
Proof.
  intros Hm Hh w. unfold try_catch. specialize (Hm w).
  destruct (m w) as [[e|a] w1]; cbn in *; [|assumption].
  eapply P_trans; [eassumption | apply Hh].
Qed.

Lemma preserves_modify (f : World -> World) :
  (forall w, P w (f w)) -> preserves P (modify f).
Proof. intros Hf w. apply Hf. Qed.

Lemma preserves_aws (e : Effect) :
  (forall w, P w (record e w)) -> preserves P (aws e).
Proof.
  intros He w. unfold aws. destruct (awsFault _ _); apply He.
Qed.

Lemma preserves_stripeCall {A} call s arg (f : nat -> string -> Exn + A) :
  (forall w, P w (record (StripeApi call (secretKey s) arg) w)) ->
  preserves P (stripeCall call s arg f).
Proof.
  intros He w. unfold stripeCall. destruct (f _ _); apply He.
Qed.

End Frame.

(** One step of a frame proof: follow the shape of the program. *)
Ltac frame_step refl trans :=
  lazymatch goal with
  | |- preserves _ (bind _ _) =>
      apply (preserves_bind _ trans); [ | intros ? ]
  | |- preserves _ (try_catch _ _) =>
      apply (preserves_try_catch _ trans); [ | intros ? ]
  | |- preserves _ (ret _) => apply (preserves_ret _ refl)
  | |- preserves _ (throw _) => apply (preserves_throw _ refl)
  | |- preserves _ get_world => apply (preserves_get_world _ refl)
  | |- preserves _ Date_now => apply (preserves_Date_now _ refl)
  | |- preserves _ (modify _) => apply preserves_modify; intros ?
  | |- preserves _ (aws _) => apply preserves_aws; intros ?
  | |- preserves _ (stripeCall _ _ _ _) =>
      apply preserves_stripeCall; intros ?
  | |- preserves _ (match ?x with _ => _ end) => destruct x
  end.

Lemma keepsStore_refl w : keepsStore w w.
Proof. repeat split. Qed.

Lemma keepsStore_trans w1 w2 w3 :
  keepsStore w1 w2 -> keepsStore w2 w3 -> keepsStore w1 w3.
Proof.
  unfold keepsStore. intros (?&?&?&?) (?&?&?&?). repeat split; congruence.
Qed.

Lemma keepsStore_record e w :
  isEntitlementWrite e = false -> isAuditWrite e = false ->
  keepsStore w (record e w).
Proof.
  intros H1 H2. unfold keepsStore, entitlementWrites, auditWrites, count.
  cbn. rewrite H1, H2. repeat split.
Qed.

Ltac keepsStore_frame :=
  repeat first
    [ assumption
    | frame_step keepsStore_refl keepsStore_trans
    | apply keepsStore_record; reflexivity
    | solve [repeat split] ].

Section ResolverFrames.
Context {env : Env}.

Lemma getStripeSecretKey_keepsStore t :
  preserves keepsStore (creds.getStripeSecretKey t).
Proof.
  unfold creds.getStripeSecretKey, creds.getSecretValue.
  keepsStore_frame.
Qed.

End ResolverFrames.

(** ** Running a computation one bind at a time *)

Lemma bind_inr {A B} (m : M A) (k : A -> M B) w a w' :
  m w = (inr a, w') -> bind m k w = k a w'.
Proof. intros H. unfold bind. now rewrite H. Qed.

Lemma bind_inl {A B} (m : M A) (k : A -> M B) w e w' :
  m w = (inl e, w') -> bind m k w = (inl e, w').
Proof. intros H. unfold bind. now rewrite H. Qed.

Lemma preserves_run P {A} (m : M A) w r w' :
  preserves P m -> m w = (r, w') -> P w w'.
Proof. intros H E. specialize (H w). now rewrite E in H. Qed.

Lemma count_record p e w :
  count p (record e w) = if p e then S (count p w) else count p w.
Proof. unfold count. cbn. now destruct (p e). Qed.

Section ResolverRuns.
Context {env : Env}.
Import entitlements.

Lemma getStripeClient_keepsStore t : preserves keepsStore (getStripeClient t).
Proof.
  unfold getStripeClient, noCredentials.
  keepsStore_frame. all: apply getStripeSecretKey_keepsStore.
Qed.

Lemma queryStripeEntitlement_keepsStore s e p :
  preserves keepsStore (queryStripeEntitlement s e p).
Proof. unfold queryStripeEntitlement. keepsStore_frame. Qed.

(** The read of the cache, spelled out. *)
Lemma getEntitlementCache_run t p u w :
  db.getEntitlementCache t p u w =
    let e := DynamoDB GetCommand ENTITLEMENT_CACHE_TABLE [t ++ "#" ++ p; u] in
    match awsFault (ticks w) e with
    | Some x => (inl x, record e w)
    | None => (inr (entitlements w !! (t ++ "#" ++ p, u)), record e w)
    end.
Proof.
  unfold db.getEntitlementCache, bind, aws, get_world, ret. cbn.
  now destruct (awsFault _ _).
Qed.

Lemma setEntitlementCache_run row w :
  db.setEntitlementCache row w =
    let e := DynamoDB PutCommand ENTITLEMENT_CACHE_TABLE
               [tenantProductKey row; userId row] in
    match awsFault (ticks w) e with
    | Some x => (inl x, record e w)
    | None =>
        (inr tt,
         set_entitlements <[(tenantProductKey row, userId row) := row]>
           (record e w))
    end.
Proof.
  unfold db.setEntitlementCache, bind, aws, modify. cbn.
  now destruct (awsFault _ _).
Qed.

End ResolverRuns.

(** ** The resolver: [checkEntitlement] *)

Section Resolver.
Context {env : Env}.
Import entitlements.

(** The three ways a cache-miss resolution can go on, once the read has
    come back without a fresh row. *)
Lemma checkEntitlement_miss t p u e w cached w1 :
  db.getEntitlementCache t p u w = (inr cached, w1) ->
  fresh cached (clock (ticks w1)) = None ->
  checkEntitlement t p u e w =
    match getStripeClient t w1 with
    | (inl x, w2) => (inl x, w2)
    | (inr stripe, w2) =>
        match queryStripeEntitlement stripe e p w2 with
        | (inl x, w3) => (inl x, w3)
        | (inr result, w3) =>
            let row :=
              {| tenantProductKey := t ++ "#" ++ p; userId := u;
                 hasAccess := q_hasAccess result;
                 subscriptionId := q_subscriptionId result;
                 planCode := q_planCode result;
                 status := q_status result;
                 currentPeriodEnd := q_currentPeriodEnd result;
                 userEmail := Some e;
                 ttl := clock (ticks w3) / 1000 +
                        (if q_hasAccess result then ACTIVE_TTL
                         else INACTIVE_TTL) |} in
            match db.setEntitlementCache row w3 with
            | (inl x, w4) => (inl x, w4)
            | (inr _, w4) =>
                (inr {| d_hasAccess := q_hasAccess result;
                        d_subscription :=
                          subscriptionOf (q_hasAccess result)
                            (q_status result) (q_planCode result)
                            (q_currentPeriodEnd result) |}, w4)
            end
        end
    end.
Proof.
  intros Hget Hfresh. unfold checkEntitlement.
  rewrite (bind_inr _ _ _ _ _ Hget).
  rewrite (bind_inr Date_now _ w1 (clock (ticks w1)) w1 eq_refl).
  rewrite Hfresh. unfold bind at 1.
  destruct (getStripeClient t w1) as [[x|stripe] w2]; [reflexivity|].
  unfold bind at 1.
  destruct (queryStripeEntitlement stripe e p w2) as [[x|result] w3];
    [reflexivity|].
  rewrite (bind_inr Date_now _ w3 (clock (ticks w3)) w3 eq_refl).
  unfold bind at 1.
  destruct (db.setEntitlementCache _ w3) as [[x|[]] w4]; reflexivity.
Qed.

(** A fresh row is answered from the store alone. *)
Lemma checkEntitlement_hit t p u e w row :
  awsFault (ticks w)
    (DynamoDB GetCommand ENTITLEMENT_CACHE_TABLE [t ++ "#" ++ p; u]) = None ->
  entitlements w !! (t ++ "#" ++ p, u) = Some row ->
  ttl row > clock (S (ticks w)) / 1000 ->
  checkEntitlement t p u e w =
    (inr {| d_hasAccess := hasAccess row;
            d_subscription :=
              subscriptionOf (hasAccess row) (status row) (planCode row)
                (currentPeriodEnd row) |},
     record (DynamoDB GetCommand ENTITLEMENT_CACHE_TABLE [t ++ "#" ++ p; u]) w).
Proof.
  intros Hok Hrow Httl. unfold checkEntitlement.
  erewrite bind_inr; cycle 1.
  { rewrite getEntitlementCache_run. cbv zeta. rewrite Hok, Hrow. reflexivity. }
  erewrite (bind_inr Date_now) by reflexivity.
  unfold fresh. change (ticks (record _ w)) with (S (ticks w)).
  destruct (Z.gtb_spec (ttl row) (clock (S (ticks w)) / 1000)); [|lia].
  reflexivity.
Qed.

(** The row a resolution starts from is the one the read returns, when the
    read returns. *)
Lemma getEntitlementCache_inr t p u w cached w1 :
  db.getEntitlementCache t p u w = (inr cached, w1) ->
  cached = entitlements w !! (t ++ "#" ++ p, u) /\
  w1 = record (DynamoDB GetCommand ENTITLEMENT_CACHE_TABLE [t ++ "#" ++ p; u]) w.
Proof.
  rewrite getEntitlementCache_run. cbv zeta.
  destruct (awsFault _ _); intros [= <- <-]; auto.
Qed.

Lemma getEntitlementCache_keepsStore t p u :
  preserves keepsStore (db.getEntitlementCache t p u).
Proof. unfold db.getEntitlementCache. keepsStore_frame. Qed.

End Resolver.

Section ResolverClaims.
Context {env : Env}.
Import entitlements.

Lemma setEntitlementCache_writes row w r w' :
  db.setEntitlementCache row w = (r, w') ->
  entitlementWrites w' = S (entitlementWrites w) /\
  auditWrites w' = auditWrites w /\ audits w' = audits w /\
  match r with
  | inl _ => entitlements w' = entitlements w
  | inr _ =>
      entitlements w' =
        <[(tenantProductKey row, userId row) := row]> (entitlements w)
  end.
Proof.
  rewrite setEntitlementCache_run. cbv zeta.
  destruct (awsFault _ _); intros [= <- <-];
    unfold entitlementWrites, auditWrites; cbn;
    rewrite ?count_record; cbn; auto.
Qed.

(** What a call to [checkEntitlement] does to the entitlement table, in
    every outcome: at most one write is attempted; one is attempted only
    when the read found no fresh row; and the call does not return a
    decision on a miss without having attempted exactly one. *)
Lemma checkEntitlement_writes t p u e w r w' :
  checkEntitlement t p u e w = (r, w') ->
  let get := DynamoDB GetCommand ENTITLEMENT_CACHE_TABLE [t ++ "#" ++ p; u] in
  let miss :=
    awsFault (ticks w) get = None /\
    fresh (entitlements w !! (t ++ "#" ++ p, u)) (clock (S (ticks w))) = None in
  (entitlementWrites w' = entitlementWrites w \/
   entitlementWrites w' = S (entitlementWrites w)) /\
  (entitlementWrites w' = S (entitlementWrites w) -> miss) /\
  (miss -> (exists d, r = inr d) ->
   entitlementWrites w' = S (entitlementWrites w)).
Proof.
  intros Hrun get miss. subst miss.
  assert (Hno : forall w0, entitlementWrites w0 = entitlementWrites w ->
            entitlementWrites w0 <> S (entitlementWrites w)) by (intros; lia).
  destruct (db.getEntitlementCache t p u w) as [[x|cached] w1] eqn:Hget.
  - (* the read fails *)
    unfold checkEntitlement in Hrun. rewrite (bind_inl _ _ _ _ _ Hget) in Hrun.
    injection Hrun as <- <-.
    pose proof (preserves_run _ _ _ _ _ (getEntitlementCache_keepsStore t p u) Hget)
      as (_&_&Hw&_).
    split; [left; exact Hw|]. split.
    + intros H. now apply Hno in Hw.
    + intros _ [? ?]. discriminate.
  - pose proof (preserves_run _ _ _ _ _ (getEntitlementCache_keepsStore t p u) Hget)
      as (_&_&Hw1&_).
    pose proof Hget as Hget'.
    rewrite getEntitlementCache_run in Hget'. cbv zeta in Hget'.
    fold get in Hget'. destruct (awsFault (ticks w) get) eqn:Hf; [discriminate|].
    injection Hget' as <- <-.
    change (ticks (record get w)) with (S (ticks w)) in *.
    destruct (fresh (entitlements w !! (t ++ "#" ++ p, u)) (clock (S (ticks w))))
      as [row|] eqn:Hfresh.
    + (* a fresh row *)
      unfold checkEntitlement in Hrun.
      rewrite (bind_inr _ _ _ _ _ Hget) in Hrun.
      erewrite (bind_inr Date_now) in Hrun by reflexivity.
      change (ticks (record get w)) with (S (ticks w)) in Hrun.
      rewrite Hfresh in Hrun. injection Hrun as <- <-.
      split; [left; exact Hw1|]. split.
      * intros H. now apply Hno in Hw1.
      * intros [_ ?]. discriminate.
    + (* no fresh row *)
      rewrite (checkEntitlement_miss _ _ _ _ _ _ _ Hget Hfresh) in Hrun.
      destruct (getStripeClient t (record get w)) as [[x|stripe] w2] eqn:Hc;
        pose proof (preserves_run _ _ _ _ _ (getStripeClient_keepsStore t) Hc)
          as (_&_&Hw2&_); rewrite Hw1 in Hw2.
      { injection Hrun as <- <-.
        split; [left; exact Hw2|]. split.
        - intros H. now apply Hno in Hw2.
        - intros _ [? ?]. discriminate. }
      destruct (queryStripeEntitlement stripe e p w2) as [[x|res] w3] eqn:Hq;
        pose proof (preserves_run _ _ _ _ _
                      (queryStripeEntitlement_keepsStore stripe e p) Hq)
          as (_&_&Hw3&_); rewrite Hw2 in Hw3.
      { injection Hrun as <- <-.
        split; [left; exact Hw3|]. split.
        - intros H. now apply Hno in Hw3.
        - intros _ [? ?]. discriminate. }
      cbv zeta in Hrun.
      destruct (db.setEntitlementCache _ w3) as [[x|[]] w4] eqn:Hs;
        injection Hrun as <- <-;
        apply setEntitlementCache_writes in Hs as (Hw4&_);
        rewrite Hw3 in Hw4; auto.
Qed.

End ResolverClaims.

Section ResolverTheorems.
Context {env : Env}.
Import entitlements.

(** C2, as amended.  A stored row whose [ttl] is strictly later than the
    time of the read is answered from the store: [checkEntitlement] returns
    the stored [hasAccess]; with [hasAccess] true it returns the stored
    status, plan code and period end, an absent or empty status replaced by
    ["active"] and an absent plan code or period end by the empty string;
    with [hasAccess] false it returns no subscription.  It then makes no
    provider call and no store write.  In every outcome at most one store
    write is attempted, one is attempted only on a miss or an expired row,
    and a call that returns a decision on a miss has attempted exactly
    one. *)
Theorem fresh_row_served_from_store (t p u e : string) (w : World) :
  let get := DynamoDB GetCommand ENTITLEMENT_CACHE_TABLE [t ++ "#" ++ p; u] in
  let key := (t ++ "#" ++ p, u) in
  let miss :=
    awsFault (ticks w) get = None /\
    fresh (entitlements w !! key) (clock (S (ticks w))) = None in
  (forall row,
     awsFault (ticks w) get = None ->
     entitlements w !! key = Some row ->
     ttl row > clock (S (ticks w)) / 1000 ->
     exists w',
       checkEntitlement t p u e w =
         (inr {| d_hasAccess := hasAccess row;
                 d_subscription :=
                   if hasAccess row then
                     Some {| s_status := Js.orStr (status row) "active";
                             s_planCode := Js.orStr (planCode row) "";
                             s_currentPeriodEnd :=
                               Js.orStr (currentPeriodEnd row) "" |}
                   else None |}, w') /\
       providerCalls w' = providerCalls w /\
       entitlementWrites w' = entitlementWrites w /\
       entitlements w' = entitlements w) /\
  (forall r w',
     checkEntitlement t p u e w = (r, w') ->
     (entitlementWrites w' = entitlementWrites w \/
      entitlementWrites w' = S (entitlementWrites w)) /\
     (entitlementWrites w' = S (entitlementWrites w) -> miss) /\
     (miss -> (exists d, r = inr d) ->
      entitlementWrites w' = S (entitlementWrites w))).
Proof.
  intros get key miss. split.
  - intros row Hok Hrow Httl. eexists. split.
    + apply (checkEntitlement_hit t p u e w row Hok Hrow Httl).
    + unfold providerCalls, entitlementWrites.
      rewrite !count_record. cbn. auto.
  - intros r w' Hrun. exact (checkEntitlement_writes _ _ _ _ _ _ _ Hrun).
Qed.

(** C4.  When the billing query throws during a cache-miss resolution,
    [checkEntitlement] throws the same error and the entitlement table is
    as it was: no write was attempted, so no negative decision is cached or
    returned. *)
Theorem provider_failure_propagates_unwritten
    (t p u e : string) (w w1 w2 w3 : World)
    (cached : option EntitlementCache) (stripe : Stripe) (x : Exn) :
  db.getEntitlementCache t p u w = (inr cached, w1) ->
  fresh cached (clock (ticks w1)) = None ->
  getStripeClient t w1 = (inr stripe, w2) ->
  queryStripeEntitlement stripe e p w2 = (inl x, w3) ->
  checkEntitlement t p u e w = (inl x, w3) /\
  entitlements w3 = entitlements w /\
  entitlementWrites w3 = entitlementWrites w.
Proof.
  intros Hget Hfresh Hc Hq. split.
  - rewrite (checkEntitlement_miss _ _ _ _ _ _ _ Hget Hfresh), Hc, Hq.
    reflexivity.
  - pose proof (preserves_run _ _ _ _ _ (getEntitlementCache_keepsStore t p u) Hget)
      as (E1&_&W1&_).
    pose proof (preserves_run _ _ _ _ _ (getStripeClient_keepsStore t) Hc)
      as (E2&_&W2&_).
    pose proof (preserves_run _ _ _ _ _
                  (queryStripeEntitlement_keepsStore stripe e p) Hq)
      as (E3&_&W3&_).
    split; congruence.
Qed.

(** C5.  A cache-miss resolution whose billing query and write-back succeed
    stores, under the key of the request, a row with the computed
    [hasAccess] whose [ttl] is the time of the write plus 5 minutes when
    [hasAccess] is true and plus 1 minute when it is false. *)
Theorem miss_row_ttl_by_outcome
    (t p u e : string) (w w1 w2 w3 : World)
    (cached : option EntitlementCache) (stripe : Stripe)
    (result : QueryResult) :
  db.getEntitlementCache t p u w = (inr cached, w1) ->
  fresh cached (clock (ticks w1)) = None ->
  getStripeClient t w1 = (inr stripe, w2) ->
  queryStripeEntitlement stripe e p w2 = (inr result, w3) ->
  awsFault (ticks w3)
    (DynamoDB PutCommand ENTITLEMENT_CACHE_TABLE [t ++ "#" ++ p; u]) = None ->
  exists d row w4,
    checkEntitlement t p u e w = (inr d, w4) /\
    d_hasAccess d = q_hasAccess result /\
    entitlements w4 !! (t ++ "#" ++ p, u) = Some row /\
    hasAccess row = q_hasAccess result /\
    ttl row - clock (ticks w3) / 1000 =
      if hasAccess row then 5 * 60 else 60.
Proof.
  intros Hget Hfresh Hc Hq Hput.
  rewrite (checkEntitlement_miss _ _ _ _ _ _ _ Hget Hfresh), Hc, Hq.
  cbv zeta. rewrite setEntitlementCache_run. cbv zeta. cbn [tenantProductKey userId].
  rewrite Hput. do 3 eexists. split; [reflexivity|]. cbn.
  split; [reflexivity|]. split; [apply lookup_insert_eq|].
  split; [reflexivity|]. cbn.
  unfold ACTIVE_TTL, INACTIVE_TTL. destruct (q_hasAccess result); lia.
Qed.

(** C7, as amended.  When the write-back fails after the billing query has
    computed a decision, [checkEntitlement] throws the error of the write:
    the decision is not returned, and the table is as it was. *)
Theorem writeback_failure_propagates
    (t p u e : string) (w w1 w2 w3 : World)
    (cached : option EntitlementCache) (stripe : Stripe)
    (result : QueryResult) (x : Exn) :
  db.getEntitlementCache t p u w = (inr cached, w1) ->
  fresh cached (clock (ticks w1)) = None ->
  getStripeClient t w1 = (inr stripe, w2) ->
  queryStripeEntitlement stripe e p w2 = (inr result, w3) ->
  awsFault (ticks w3)
    (DynamoDB PutCommand ENTITLEMENT_CACHE_TABLE [t ++ "#" ++ p; u]) = Some x ->
  exists w4,
    checkEntitlement t p u e w = (inl x, w4) /\
    entitlements w4 = entitlements w.
Proof.
  intros Hget Hfresh Hc Hq Hput.
  rewrite (checkEntitlement_miss _ _ _ _ _ _ _ Hget Hfresh), Hc, Hq.
  cbv zeta. rewrite setEntitlementCache_run. cbv zeta. cbn [tenantProductKey userId].
  rewrite Hput. eexists. split; [reflexivity|]. cbn.
  pose proof (preserves_run _ _ _ _ _ (getEntitlementCache_keepsStore t p u) Hget)
    as (E1&_).
  pose proof (preserves_run _ _ _ _ _ (getStripeClient_keepsStore t) Hc)
    as (E2&_).
  pose proof (preserves_run _ _ _ _ _
                (queryStripeEntitlement_keepsStore stripe e p) Hq)
    as (E3&_).
  congruence.
Qed.

End ResolverTheorems.

(** C2 as stated fails at two inputs: a fresh row without a status is
    answered with the status ["active"], which the store does not hold; and
    a miss during a provider outage writes nothing. *)
Lemma hit_fields_not_verbatim_miss_not_always_written :
  let w := Scenario.withRow Scenario.bareRow Scenario.configured in
  (entitlements w !! ("t1#p1", "u1") = Some Scenario.bareRow /\
   status Scenario.bareRow = None /\
   ttl Scenario.bareRow > @clock Scenario.quiet 1 / 1000 /\
   fst (@entitlements.checkEntitlement Scenario.quiet
          "t1" "p1" "u1" "u1@example.com" w) =
     inr {| entitlements.d_hasAccess := true;
            entitlements.d_subscription :=
              Some {| entitlements.s_status := "active";
                      entitlements.s_planCode := "";
                      entitlements.s_currentPeriodEnd := "" |} |}) /\
  (entitlements Scenario.configured !! ("t1#p1", "u1") = None /\
   fst (@entitlements.checkEntitlement Scenario.outage
          "t1" "p1" "u1" "u1@example.com" Scenario.configured) =
     inl Scenario.unreachable /\
   entitlementWrites
     (snd (@entitlements.checkEntitlement Scenario.outage
             "t1" "p1" "u1" "u1@example.com" Scenario.configured)) = 0%nat).
Proof. vm_compute. repeat split. Qed.

(** C2 at work: the row of a canceled subscription, 30 seconds before its
    expiry, is answered from the store, without a subscription. *)
Lemma fresh_row_served_from_store_witness :
  let w := Scenario.withRow Scenario.revokedRow Scenario.configured in
  exists w',
    @entitlements.checkEntitlement Scenario.quiet
      "t1" "p1" "u1" "u1@example.com" w =
      (inr {| entitlements.d_hasAccess := false;
              entitlements.d_subscription := None |}, w') /\
    providerCalls w' = providerCalls w /\
    entitlementWrites w' = entitlementWrites w /\
    entitlements w' = entitlements w.
Proof.
  intros w.
  apply (proj1 (@fresh_row_served_from_store Scenario.quiet
                  "t1" "p1" "u1" "u1@example.com" w) Scenario.revokedRow);
    vm_compute; reflexivity.
Defined.

(** C4 at work: a check for a user without row during a provider outage. *)
Lemma provider_failure_propagates_unwritten_witness :
  exists w3,
    @entitlements.checkEntitlement Scenario.outage
      "t1" "p1" "u1" "u1@example.com" Scenario.configured =
      (inl Scenario.unreachable, w3) /\
    entitlements w3 = entitlements Scenario.configured /\
    entitlementWrites w3 = entitlementWrites Scenario.configured.
Proof.
  pose (w1 := snd (@db.getEntitlementCache Scenario.outage "t1" "p1" "u1"
                     Scenario.configured)).
  pose (w2 := snd (@getStripeClient Scenario.outage "t1" w1)).
  pose (w3 := snd (@entitlements.queryStripeEntitlement Scenario.outage
                     {| secretKey := "sk_test_1" |} "u1@example.com" "p1" w2)).
  exists w3.
  apply (@provider_failure_propagates_unwritten Scenario.outage
           "t1" "p1" "u1" "u1@example.com" Scenario.configured w1 w2 w3
           None {| secretKey := "sk_test_1" |} Scenario.unreachable);
    vm_compute; reflexivity.
Defined.

(** C5 at work: a user the provider does not know gets a row that expires
    after a minute. *)
Lemma miss_row_ttl_by_outcome_witness :
  exists d row w4,
    @entitlements.checkEntitlement Scenario.quiet
      "t1" "p1" "u1" "u1@example.com" Scenario.configured = (inr d, w4) /\
    entitlements.d_hasAccess d = false /\
    entitlements w4 !! ("t1#p1", "u1") = Some row /\
    hasAccess row = false /\
    ttl row - 1700000000 = if hasAccess row then 5 * 60 else 60.
Proof.
  pose (w1 := snd (@db.getEntitlementCache Scenario.quiet "t1" "p1" "u1"
                     Scenario.configured)).
  pose (w2 := snd (@getStripeClient Scenario.quiet "t1" w1)).
  pose (w3 := snd (@entitlements.queryStripeEntitlement Scenario.quiet
                     {| secretKey := "sk_test_1" |} "u1@example.com" "p1" w2)).
  apply (@miss_row_ttl_by_outcome Scenario.quiet
           "t1" "p1" "u1" "u1@example.com" Scenario.configured w1 w2 w3
           None {| secretKey := "sk_test_1" |} entitlements.noAccess);
    vm_compute; reflexivity.
Defined.

(** C7 at work: the same check against a table that refuses writes. *)
Lemma writeback_failure_propagates_witness :
  exists w4,
    @entitlements.checkEntitlement Scenario.readOnly
      "t1" "p1" "u1" "u1@example.com" Scenario.configured =
      (inl Scenario.throttled, w4) /\
    entitlements w4 = entitlements Scenario.configured.
Proof.
  pose (w1 := snd (@db.getEntitlementCache Scenario.readOnly "t1" "p1" "u1"
                     Scenario.configured)).
  pose (w2 := snd (@getStripeClient Scenario.readOnly "t1" w1)).
  pose (w3 := snd (@entitlements.queryStripeEntitlement Scenario.readOnly
                     {| secretKey := "sk_test_1" |} "u1@example.com" "p1" w2)).
  apply (@writeback_failure_propagates Scenario.readOnly
           "t1" "p1" "u1" "u1@example.com" Scenario.configured w1 w2 w3
           None {| secretKey := "sk_test_1" |} entitlements.noAccess
           Scenario.throttled);
    vm_compute; reflexivity.
Defined.

(** C7 as stated fails when the table refuses writes: the billing query
    computes a decision, the write-back is refused, and the caller gets the
    error of the write instead of the decision. *)
Lemma writeback_failure_hides_decision :
  fst (@entitlements.queryStripeEntitlement Scenario.readOnly
         {| secretKey := "sk_test_1" |} "u1@example.com" "p1"
         Scenario.configured) = inr entitlements.noAccess /\
  fst (@entitlements.checkEntitlement Scenario.readOnly
         "t1" "p1" "u1" "u1@example.com" Scenario.configured) =
    inl Scenario.throttled.
Proof. vm_compute. split; reflexivity. Qed.

(** ** The finalize writer *)

Lemma bind_inv {A B} (m : M A) (k : A -> M B) w b w' :
  bind m k w = (inr b, w') ->
  exists a w1, m w = (inr a, w1) /\ k a w1 = (inr b, w').
Proof.
  unfold bind. destruct (m w) as [[e|a] w1]; [discriminate|]. eauto.
Qed.

Lemma later_refl w : later w w.
Proof. unfold later. lia. Qed.

Lemma later_trans w1 w2 w3 : later w1 w2 -> later w2 w3 -> later w1 w3.
Proof. unfold later. lia. Qed.

Lemma later_record e w : later w (record e w).
Proof. unfold later, ticks. cbn. lia. Qed.

Ltac later_frame :=
  repeat first
    [ assumption
    | frame_step later_refl later_trans
    | apply later_record
    | solve [unfold later, ticks; cbn; lia] ].

Section Later.
Context {env : Env}.




Lemma stripeCall_later {A} c s a (f : nat -> string -> Exn + A) :
  preserves later (stripeCall c s a f).
Proof. later_frame. Qed.

End Later.

Ltac inv_ret H :=
  unfold ret in H; inversion H; subst; clear H.

Section Finalize.
Context {env : Env}.
Import subscriptions entitlements.

Lemma stripeCall_inv {A} c s a (f : nat -> string -> Exn + A) w r w' :
  stripeCall c s a f w = (inr r, w') ->
  f (ticks w) (secretKey s) = inr r /\
  w' = record (StripeApi c (secretKey s) a) w.
Proof.
  unfold stripeCall. destruct (f _ _); intros [= <- <-]; auto.
Qed.

Lemma setEntitlementCache_inv row w w' :
  db.setEntitlementCache row w = (inr tt, w') ->
  w' = set_entitlements <[(tenantProductKey row, userId row) := row]>
         (record (DynamoDB PutCommand ENTITLEMENT_CACHE_TABLE
                    [tenantProductKey row; userId row]) w).
Proof.
  rewrite setEntitlementCache_run. cbv zeta.
  destruct (awsFault _ _); intros [= <-]; auto.
Qed.



End Finalize.

Section FinalizeTheorem.
Context {env : Env}.
Import subscriptions entitlements.


End FinalizeTheorem.


(** ** The billing query: audience matching *)

Section Audience.
Context {env : Env}.
Import entitlements.

(** The resolver matches a plan without audience (absent or empty) and a
    plan whose whole audience string is the product id. *)
Lemma audienceMatches_spec (audience : option string) (productId : string) :
  audienceMatches audience productId = true <->
  audience = None \/ audience = Some "" \/ audience = Some productId.
Proof.
  unfold audienceMatches, Js.truthy. destruct audience as [a|]; cbn.
  - destruct (String.eqb_spec a ""); cbn.
    + subst. intuition.
    + destruct (String.eqb_spec a productId); subst; intuition congruence.
  - intuition.
Qed.

Lemma matchItems_Some productId sub items :
  is_Some (matchItems productId sub items) <->
  exists item, In item items /\
    audienceMatches (pf_audience (price_product (item_price item))) productId
      = true.
Proof.
  induction items as [|item rest IH]; cbn.
  - split; [intros [? [=]] | intros (? & [] & _)].
  - destruct (audienceMatches _ productId) eqn:Hm.
    + split; [|eauto]. intros _. exists item. auto.
    + rewrite IH. split.
      * intros (i & Hi & Ha). eauto.
      * intros (i & [<-|Hi] & Ha); [congruence|eauto].
Qed.

Lemma matchItems_access productId sub items r :
  matchItems productId sub items = Some r -> q_hasAccess r = true.
Proof.
  induction items as [|item rest IH]; cbn; [discriminate|].
  destruct (audienceMatches _ productId); [|exact IH].
  intros [= <-]. reflexivity.
Qed.

Lemma matchSubs_Some productId allSubs :
  is_Some (matchSubs productId allSubs) <->
  exists sub item, In sub allSubs /\ In item (sub_items sub) /\
    audienceMatches (pf_audience (price_product (item_price item))) productId
      = true.
Proof.
  induction allSubs as [|sub rest IH]; cbn.
  - split; [intros [? [=]] | intros (? & ? & [] & _)].
  - destruct (matchItems productId sub (sub_items sub)) as [r|] eqn:Hm.
    + split; [|eauto]. intros _.
      destruct (proj1 (matchItems_Some productId sub (sub_items sub)))
        as (item & Hi & Ha); [rewrite Hm; eauto|].
      exists sub, item. auto.
    + rewrite IH. split.
      * intros (s & i & Hs & Hi & Ha). exists s, i. auto.
      * intros (s & i & [Heq|Hs] & Hi & Ha); [subst s|eauto].
        destruct (proj2 (matchItems_Some productId sub (sub_items sub)))
          as [? Hr]; [eauto|]. congruence.
Qed.

Lemma matchSubs_access productId allSubs r :
  matchSubs productId allSubs = Some r -> q_hasAccess r = true.
Proof.
  induction allSubs as [|sub rest IH]; cbn; [discriminate|].
  destruct (matchItems productId sub (sub_items sub)) eqn:Hm; [|exact IH].
  intros [= <-]. eapply matchItems_access; eauto.
Qed.

(** What the billing query decides, when the provider answers: access is
    granted exactly when some line item of the active or trialing
    subscriptions of the first customer found has a plan without audience
    or with an audience equal to the product id. *)
Lemma queryStripeEntitlement_decides stripe email productId w result w' :
  queryStripeEntitlement stripe email productId w = (inr result, w') ->
  q_hasAccess result = true <->
  exists customer rest active trialing sub item,
    customers_list (ticks w) (secretKey stripe) email = inr (customer :: rest) /\
    subscriptions_list (S (ticks w)) (secretKey stripe) (cus_id customer)
      "active" = inr active /\
    subscriptions_list (S (S (ticks w))) (secretKey stripe) (cus_id customer)
      "trialing" = inr trialing /\
    In sub (active ++ trialing)%list /\ In item (sub_items sub) /\
    let audience := pf_audience (price_product (item_price item)) in
    audience = None \/ audience = Some "" \/ audience = Some productId.
Proof.
  unfold queryStripeEntitlement. intros Hrun.
  apply bind_inv in Hrun as (customers & w1 & Hc & Hrun).
  apply stripeCall_inv in Hc as (Hc & ->).
  destruct customers as [|customer rest].
  { inv_ret Hrun. cbn. split; [discriminate|].
    intros (?&?&?&?&?&?&H&_). congruence. }
  apply bind_inv in Hrun as (active & w2 & Ha & Hrun).
  apply stripeCall_inv in Ha as (Ha & ->).
  apply bind_inv in Hrun as (trialing & w3 & Ht & Hrun).
  apply stripeCall_inv in Ht as (Ht & ->).
  change (ticks (record _ (record _ w))) with (S (S (ticks w))) in Ht.
  change (ticks (record _ w)) with (S (ticks w)) in Ha.
  inv_ret Hrun.
  destruct (matchSubs productId (active ++ trialing)%list) as [r|] eqn:Hm; cbn.
  - split; [|intros _; eapply matchSubs_access; eauto]. intros _.
    destruct (proj1 (matchSubs_Some productId (active ++ trialing)%list))
      as (sub & item & Hs & Hi & Hau); [rewrite Hm; eauto|].
    exists customer, rest, active, trialing, sub, item.
    repeat (split; [assumption|]). now apply audienceMatches_spec.
  - split; [discriminate|].
    intros (c' & r' & a' & t' & sub & item & Hc' & Ha' & Ht' & Hs & Hi & Hau).
    rewrite Hc in Hc'. injection Hc' as <- <-.
    rewrite Ha in Ha'. injection Ha' as <-.
    rewrite Ht in Ht'. injection Ht' as <-.
    destruct (proj2 (matchSubs_Some productId (active ++ trialing)%list))
      as [? Hr]; [|congruence].
    exists sub, item. repeat (split; [assumption|]).
    now apply audienceMatches_spec.
Qed.

End Audience.

(** C1.  A plan whose audience is the list
    ["compass_studio,compass_chat"] is offered by the plan listing for the
    product ["compass_studio"], yet the billing query denies access to that
    product to a customer with an active subscription to the plan: the
    resolver compares the whole audience string with the product id. *)
Theorem bundle_audience_listed_but_denied :
  plans.listed "compass_studio" (Scenario.priceOf Scenario.bundlePlan) = true /\
  @subscriptions_list Scenario.bundle 1 "sk_test_1" "cus_1" "active" =
    inr [Scenario.subscriptionTo Scenario.bundlePlan "active" None] /\
  entitlements.audienceMatches (sp_audience Scenario.bundlePlan)
    "compass_studio" = false /\
  fst (@entitlements.queryStripeEntitlement Scenario.bundle
         {| secretKey := "sk_test_1" |} "alice@example.com" "compass_studio"
         Scenario.configured) = inr entitlements.noAccess /\
  fst (@entitlements.checkEntitlement Scenario.bundle
         "t1" "compass_studio" "alice@example.com" "alice@example.com"
         Scenario.configured) =
    inr {| entitlements.d_hasAccess := false;
           entitlements.d_subscription := None |}.
Proof. vm_compute. repeat split. Qed.

(** ** The webhook reconciler *)

Lemma preserves_bind_then (P Q : World -> World -> Prop) {A B}
    (m : M A) (k : A -> M B) :
  (forall w1 w2, P w1 w2 -> Q w1 w2) ->
  (forall w1 w2 w3, P w1 w2 -> Q w2 w3 -> Q w1 w3) ->
  preserves P m -> (forall a, preserves Q (k a)) -> preserves Q (bind m k).
Proof.
  intros Hsub Hcomp Hm Hk w. unfold bind. specialize (Hm w).
  destruct (m w) as [[e|a] w1]; cbn in *; [auto|].
  eapply Hcomp; [eassumption | apply Hk].
Qed.

Lemma silent_refl w : silent w w.
Proof. split; [apply keepsStore_refl | reflexivity]. Qed.

Lemma silent_trans w1 w2 w3 : silent w1 w2 -> silent w2 w3 -> silent w1 w3.
Proof.
  intros [K1 C1] [K2 C2]. split; [eapply keepsStore_trans; eauto | congruence].
Qed.

Lemma silent_record e w :
  isEntitlementWrite e = false -> isAuditWrite e = false ->
  isProviderCall e = false -> silent w (record e w).
Proof.
  intros H1 H2 H3. split; [now apply keepsStore_record|].
  unfold providerCalls. now rewrite count_record, H3.
Qed.

Ltac silent_frame :=
  repeat first
    [ assumption
    | frame_step silent_refl silent_trans
    | apply silent_record; reflexivity
    | solve [repeat split] ].

Lemma oneWrite_refl w : oneWrite w w.
Proof. unfold oneWrite. auto. Qed.

Lemma keepsStore_oneWrite w1 w2 : keepsStore w1 w2 -> oneWrite w1 w2.
Proof. intros (_&?&?&?). unfold oneWrite. auto. Qed.

Lemma keepsStore_then_oneWrite w1 w2 w3 :
  keepsStore w1 w2 -> oneWrite w2 w3 -> oneWrite w1 w3.
Proof.
  intros (_&A&E&U) (A'&U'&E'). unfold oneWrite.
  rewrite A', U', A, U, <- E. auto.
Qed.

Section WebhookFrames.
Context {env : Env}.
Import webhooks.

Lemma getStripeWebhookSecret_silent t :
  preserves silent (creds.getStripeWebhookSecret t).
Proof.
  unfold creds.getStripeWebhookSecret, creds.getSecretValue. silent_frame.
Qed.

Lemma getStripeClient_silent t : preserves silent (getStripeClient t).
Proof.
  unfold getStripeClient, noCredentials, creds.getStripeSecretKey,
    creds.getSecretValue.
  silent_frame.
Qed.

Lemma verify_silent t event : preserves silent (verify t event).
Proof.
  unfold verify. silent_frame.
  - apply getStripeWebhookSecret_silent.
  - apply getStripeClient_silent.
Qed.

Lemma fullSubscription_keepsStore stripe sub :
  preserves keepsStore (fullSubscription stripe sub).
Proof. unfold fullSubscription. keepsStore_frame. Qed.

Lemma setEntitlementCache_oneWrite row :
  preserves oneWrite (db.setEntitlementCache row).
Proof.
  intros w. destruct (db.setEntitlementCache row w) as [r w'] eqn:H.
  apply setEntitlementCache_writes in H as (?&?&?&_). cbn. unfold oneWrite. auto.
Qed.

Ltac oneWrite_bind :=
  apply (preserves_bind_then keepsStore oneWrite);
    [ exact keepsStore_oneWrite | exact keepsStore_then_oneWrite | | intros ? ].

Lemma updateEntitlementFromSubscription_oneWrite t stripe sub :
  preserves oneWrite (updateEntitlementFromSubscription t stripe sub).
Proof.
  unfold updateEntitlementFromSubscription.
  oneWrite_bind; [keepsStore_frame|].
  destruct (Js.nonEmpty _); [|intros w; apply oneWrite_refl].
  oneWrite_bind; [apply fullSubscription_keepsStore|].
  oneWrite_bind; [keepsStore_frame|].
  apply setEntitlementCache_oneWrite.
Qed.

Lemma revokeEntitlementFromSubscription_oneWrite t stripe sub :
  preserves oneWrite (revokeEntitlementFromSubscription t stripe sub).
Proof.
  unfold revokeEntitlementFromSubscription.
  oneWrite_bind; [keepsStore_frame|].
  destruct (Js.nonEmpty _); [|intros w; apply oneWrite_refl].
  oneWrite_bind; [apply fullSubscription_keepsStore|].
  oneWrite_bind; [keepsStore_frame|].
  apply setEntitlementCache_oneWrite.
Qed.

Lemma processWebhookEvent_oneWrite t stripe ev :
  preserves oneWrite (processWebhookEvent t stripe ev).
Proof.
  unfold processWebhookEvent, asSubscription, asInvoice.
  repeat match goal with
         | |- preserves _ (if ?c then _ else _) => destruct c
         end.
  - oneWrite_bind; [keepsStore_frame|].
    apply updateEntitlementFromSubscription_oneWrite.
  - oneWrite_bind; [keepsStore_frame|].
    apply revokeEntitlementFromSubscription_oneWrite.
  - oneWrite_bind; [keepsStore_frame|].
    destruct (Js.nonEmpty _); [|intros w; apply oneWrite_refl].
    oneWrite_bind; [keepsStore_frame|].
    apply updateEntitlementFromSubscription_oneWrite.
  - intros w. apply oneWrite_refl.
Qed.

End WebhookFrames.

Section Deliver.
Context {env : Env}.
Import webhooks.



Lemma getWebhookAudit_run t id w :
  db.getWebhookAudit t id w =
    let e := DynamoDB GetCommand WEBHOOK_AUDIT_TABLE [t ++ "#" ++ id] in
    match awsFault (ticks w) e with
    | Some x => (inl x, record e w)
    | None => (inr (audits w !! (t ++ "#" ++ id)), record e w)
    end.
Proof.
  unfold db.getWebhookAudit, bind, aws, get_world, ret. cbn.
  now destruct (awsFault _ _).
Qed.

Lemma createWebhookAudit_run audit w :
  db.createWebhookAudit audit w =
    let e := DynamoDB PutCommand WEBHOOK_AUDIT_TABLE [tenantEventKey audit] in
    match awsFault (ticks w) e with
    | Some x => (inl x, record e w)
    | None =>
        match audits w !! tenantEventKey audit with
        | Some _ =>
            (inl (mkExn "ConditionalCheckFailedException"
                    "The conditional request failed"), record e w)
        | None =>
            (inr tt, set_audits <[tenantEventKey audit := audit]> (record e w))
        end
    end.
Proof.
  unfold db.createWebhookAudit, bind, aws, get_world, throw, modify. cbn.
  destruct (awsFault _ _); [reflexivity|]. cbn.
  now destruct (audits w !! tenantEventKey audit).
Qed.




End Deliver.

Section WebhookTheorems.
Context {env : Env}.
Import webhooks.





End WebhookTheorems.



(** C6.  The row the webhook reconciler writes for a subscription that has
    become [past_due] has [hasAccess] false and expires 5 minutes, not 1
    minute, after the write. *)
Theorem past_due_update_keeps_long_window :
  let w' := snd (@webhooks.handler Scenario.dunning Scenario.webhookRequest
                   Scenario.configured) in
  exists row,
    entitlements w' !! ("t1#p1", "alice@example.com") = Some row /\
    status row = Some "past_due" /\
    hasAccess row = false /\
    ttl row - @clock Scenario.dunning 3 / 1000 = 5 * 60.
Proof.
  exists {| tenantProductKey := "t1#p1"; userId := "alice@example.com";
            hasAccess := false; subscriptionId := Some "sub_1";
            planCode := Some "pro"; status := Some "past_due";
            currentPeriodEnd := Some "2023-11-14T22:13:20.000Z";
            userEmail := Some "alice@example.com"; ttl := 1700000300 |}.
  vm_compute. repeat split.
Qed.

(** ** The provider-client cache and the credentials handlers *)

Lemma keepsCache_refl w : keepsCache w w.
Proof. reflexivity. Qed.

Lemma keepsCache_trans w1 w2 w3 :
  keepsCache w1 w2 -> keepsCache w2 w3 -> keepsCache w1 w3.
Proof. unfold keepsCache. congruence. Qed.

Lemma preserves_lift (P : World -> World -> Prop) {A} (r : Exn + A) :
  (forall w, P w w) -> preserves P (lift r).
Proof. intros H w. apply H. Qed.

Ltac keepsCache_frame :=
  repeat first
    [ assumption
    | frame_step keepsCache_refl keepsCache_trans
    | apply preserves_lift; intros ?
    | reflexivity ].

Section CredentialsFrames.
Context {env : Env}.
Import credentials.

Lemma requireAdminKey_keepsCache event :
  preserves keepsCache (requireAdminKey event).
Proof.
  unfold requireAdminKey, resolveApiKey, db.getApiKeyByHash.
  keepsCache_frame.
Qed.

Lemma getTenant_keepsCache t : preserves keepsCache (db.getTenant t).
Proof. unfold db.getTenant. keepsCache_frame. Qed.

Lemma updateTenant_keepsCache t u : preserves keepsCache (db.updateTenant t u).
Proof.
  unfold db.updateTenant. destruct (db.noUpdates u).
  - apply getTenant_keepsCache.
  - keepsCache_frame.
Qed.

Lemma validateStripeKey_keepsCache k :
  preserves keepsCache (creds.validateStripeKey k).
Proof. unfold creds.validateStripeKey. keepsCache_frame. Qed.

Lemma storeCredentials_keepsCache t c :
  preserves keepsCache (creds.storeCredentials t c).
Proof.
  unfold creds.storeCredentials, creds.putSecretValue, creds.createSecret.
  keepsCache_frame.
Qed.

Lemma deleteCredentials_keepsCache t :
  preserves keepsCache (creds.deleteCredentials t).
Proof.
  unfold creds.deleteCredentials, creds.deleteSecret. keepsCache_frame.
Qed.

(** Neither credentials handler touches the client cache, whatever the
    request and the outcome. *)
Lemma setHandler_keepsCache event : preserves keepsCache (setHandler event).
Proof.
  unfold setHandler.
  keepsCache_frame;
    first [ apply requireAdminKey_keepsCache | apply getTenant_keepsCache
          | apply validateStripeKey_keepsCache
          | apply storeCredentials_keepsCache
          | apply updateTenant_keepsCache ].
Qed.

Lemma deleteHandler_keepsCache event :
  preserves keepsCache (deleteHandler event).
Proof.
  unfold deleteHandler.
  keepsCache_frame;
    first [ apply requireAdminKey_keepsCache | apply getTenant_keepsCache
          | apply deleteCredentials_keepsCache
          | apply updateTenant_keepsCache ].
Qed.

(** A cached client that has not expired is what [getStripeClient] returns,
    whatever Secrets Manager holds. *)
Lemma getStripeClient_cached t w cached :
  clientCache w !! t = Some cached ->
  expiry cached > clock (ticks w) ->
  getStripeClient t w = (inr (client cached), w).
Proof.
  intros Hc He. unfold getStripeClient.
  erewrite bind_inr by reflexivity. erewrite (bind_inr Date_now) by reflexivity.
  unfold cachedClient. rewrite Hc.
  destruct (Z.gtb_spec (expiry cached) (clock (ticks w))); [reflexivity|lia].
Qed.

(** After either handler, a cached client that is still within its five
    minutes keeps being served. *)
Lemma stale_client_survives_credentials_change event t w cached :
  clientCache w !! t = Some cached ->
  forall r w',
    (setHandler event w = (r, w') \/ deleteHandler event w = (r, w')) ->
    expiry cached > clock (ticks w') ->
    getStripeClient t w' = (inr (client cached), w').
Proof.
  intros Hc r w' Hrun He. apply getStripeClient_cached; [|exact He].
  destruct Hrun as [Hrun|Hrun].
  - rewrite (preserves_run _ _ _ _ _ (setHandler_keepsCache event) Hrun).
    exact Hc.
  - rewrite (preserves_run _ _ _ _ _ (deleteHandler_keepsCache event) Hrun).
    exact Hc.
Qed.

End CredentialsFrames.

(** C9.  After the credentials of a tenant were replaced through
    [setHandler], and after they were removed through [deleteHandler], the
    next [getStripeClient] for the tenant still returns the client made
    from the old secret key: neither handler invalidates the cached
    client. *)
Theorem stale_client_after_credentials_change :
  let set := @credentials.setHandler Scenario.rotation
               Scenario.credentialsRequest Scenario.shop in
  let del := @credentials.deleteHandler Scenario.rotation
               Scenario.credentialsRequest Scenario.shop in
  (answered (fst set) = Some 200 /\
   stripe_secret_key <$> secrets (snd set) !! "paywall/stripe/t1" =
     Some "sk_live_new" /\
   fst (@getStripeClient Scenario.rotation "t1" (snd set)) =
     inr {| secretKey := "sk_test_1" |}) /\
  (answered (fst del) = Some 200 /\
   secrets (snd del) !! "paywall/stripe/t1" = None /\
   fst (@getStripeClient Scenario.rotation "t1" (snd del)) =
     inr {| secretKey := "sk_test_1" |}) /\
  (* with the cache invalidated, the next client is made from what
     Secrets Manager holds *)
  fst (@getStripeClient Scenario.rotation "t1"
         (snd (invalidateStripeClient "t1" (snd set)))) =
    inr {| secretKey := "sk_live_new" |}.
Proof. vm_compute. repeat split. Qed.

(** ** The freshness windows of the webhook writers *)

Section Windows.
Context {env : Env}.
Import webhooks.

Lemma fullSubscription_later stripe sub :
  preserves later (fullSubscription stripe sub).
Proof. unfold fullSubscription. later_frame. Qed.

(** Whatever the status of the subscription, the row written by
    [updateEntitlementFromSubscription] expires 5 minutes after the
    write. *)
Lemma update_window t stripe sub w w' :
  updateEntitlementFromSubscription t stripe sub w = (inr tt, w') ->
  entitlements w' = entitlements w \/
  exists row n,
    (ticks w <= n)%nat /\
    entitlements w' =
      <[(tenantProductKey row, userId row) := row]> (entitlements w) /\
    hasAccess row =
      (String.eqb (sub_status sub) "active"
       || String.eqb (sub_status sub) "trialing") /\
    ttl row = clock n / 1000 + 5 * 60.
Proof.
  unfold updateEntitlementFromSubscription. intros Hrun.
  apply bind_inv in Hrun as (customer & w1 & Hc & Hrun).
  pose proof (preserves_run _ _ _ _ _ (stripeCall_later _ _ _ _) Hc) as L1.
  apply stripeCall_inv in Hc as (_ & ->).
  destruct (Js.nonEmpty (cus_email customer)) as [email|];
    [|inv_ret Hrun; left; reflexivity].
  apply bind_inv in Hrun as (fullSub & w2 & Hf & Hrun).
  pose proof (preserves_run _ _ _ _ _ (fullSubscription_later _ _) Hf) as L2.
  pose proof (preserves_run _ _ _ _ _ (fullSubscription_keepsStore _ _) Hf)
    as (E2 & _).
  apply bind_inv in Hrun as (now & w3 & Hnow & Hrun).
  unfold Date_now in Hnow. injection Hnow as <- <-.
  apply setEntitlementCache_inv in Hrun. right.
  match type of Hrun with
  | _ = set_entitlements (insert _ ?r) _ => exists r
  end.
  exists (ticks w2). split; [unfold later in *; lia|].
  split; [|split; reflexivity].
  rewrite Hrun. unfold set_entitlements, record.
  cbn [entitlements tenantProductKey userId]. rewrite E2. reflexivity.
Qed.

(** The row written by [revokeEntitlementFromSubscription] has [hasAccess]
    false and expires 1 minute after the write. *)
Lemma revoke_window t stripe sub w w' :
  revokeEntitlementFromSubscription t stripe sub w = (inr tt, w') ->
  entitlements w' = entitlements w \/
  exists row n,
    (ticks w <= n)%nat /\
    entitlements w' =
      <[(tenantProductKey row, userId row) := row]> (entitlements w) /\
    hasAccess row = false /\
    ttl row = clock n / 1000 + 60.
Proof.
  unfold revokeEntitlementFromSubscription. intros Hrun.
  apply bind_inv in Hrun as (customer & w1 & Hc & Hrun).
  pose proof (preserves_run _ _ _ _ _ (stripeCall_later _ _ _ _) Hc) as L1.
  apply stripeCall_inv in Hc as (_ & ->).
  destruct (Js.nonEmpty (cus_email customer)) as [email|];
    [|inv_ret Hrun; left; reflexivity].
  apply bind_inv in Hrun as (fullSub & w2 & Hf & Hrun).
  pose proof (preserves_run _ _ _ _ _ (fullSubscription_later _ _) Hf) as L2.
  pose proof (preserves_run _ _ _ _ _ (fullSubscription_keepsStore _ _) Hf)
    as (E2 & _).
  apply bind_inv in Hrun as (now & w3 & Hnow & Hrun).
  unfold Date_now in Hnow. injection Hnow as <- <-.
  apply setEntitlementCache_inv in Hrun. right.
  match type of Hrun with
  | _ = set_entitlements (insert _ ?r) _ => exists r
  end.
  exists (ticks w2). split; [unfold later in *; lia|].
  split; [|split; reflexivity].
  rewrite Hrun. unfold set_entitlements, record.
  cbn [entitlements tenantProductKey userId]. rewrite E2. reflexivity.
Qed.

End Windows.

(** * Further properties of the code *)

(** ** Splitting and trimming *)













(** ** The audience of a plan, as the plan listing reads it *)




(** ** Keys of the entitlement table *)

Lemma substring_hasChar c n m s :
  hasChar c (String.substring n m s) = true -> hasChar c s = true.
Proof.
  revert n m. induction s as [|d r IH]; intros n m.
  - destruct n, m; cbn; discriminate.
  - destruct n as [|n]; cbn.
    + destruct m as [|m]; cbn; [discriminate|].
      intros H. apply orb_true_iff in H as [H|H]; [now rewrite H|].
      rewrite (IH _ _ H). apply orb_true_r.
    + intros H. rewrite (IH _ _ H). apply orb_true_r.
Qed.

Lemma removeDashes_hasChar c s :
  hasChar c (tenantsHandler.removeDashes s) = true -> hasChar c s = true.
Proof.
  induction s as [|d r IH]; cbn; [discriminate|].
  destruct (Ascii.eqb d "-"); cbn.
  - intros H. rewrite (IH H). apply orb_true_r.
  - intros H. apply orb_true_iff in H as [H|H]; [now rewrite H|].
    rewrite (IH H). apply orb_true_r.
Qed.

Lemma substring_length_le n m s :
  (String.length (String.substring n m s) <= m)%nat.
Proof.
  revert n m. induction s as [|d r IH]; intros n m.
  - destruct n, m; cbn; lia.
  - destruct n as [|n]; cbn.
    + destruct m as [|m]; cbn; [lia|]. specialize (IH 0%nat m). lia.
    + apply IH.
Qed.

(** The id given to a new tenant is [t_] followed by at most 12 characters
    of the UUID drawn for it, none of them a dash; it holds no [#] when the
    UUID holds none. *)
Lemma newTenantId_spec (uuid : string) :
  String.prefix "t_" (tenantsHandler.newTenantId uuid) = true /\
  (String.length (tenantsHandler.newTenantId uuid) <= 14)%nat /\
  (hasChar "#" uuid = false ->
   hasChar "#" (tenantsHandler.newTenantId uuid) = false).
Proof.
  unfold tenantsHandler.newTenantId.
  pose proof (substring_length_le 0 12 (tenantsHandler.removeDashes uuid))
    as Hlen.
  pose proof (substring_hasChar "#" 0 12 (tenantsHandler.removeDashes uuid))
    as Hsub.
  remember (String.substring 0 12 (tenantsHandler.removeDashes uuid)) as x.
  change ("t_" ++ x) with (String "t" (String "_" x)).
  split; [|split].
  - cbn. now destruct x.
  - cbn. lia.
  - intros H. cbn. destruct (hasChar "#" x) eqn:Hc; [|reflexivity].
    specialize (Hsub eq_refl). apply removeDashes_hasChar in Hsub. congruence.
Qed.

(** Two partition keys [tenantId#productId] of tenants whose ids hold no
    [#] are equal only for the same tenant and the same product. *)
Lemma tenant_key_inj (t t' p p' : string) :
  hasChar "#" t = false -> hasChar "#" t' = false ->
  t ++ "#" ++ p = t' ++ "#" ++ p' -> t = t' /\ p = p'.
Proof.
  revert t'. induction t as [|c r IH]; intros [|c' r'];
    cbv [String.append]; fold String.append; cbn.
  - intros _ _ [= ->]. auto.
  - intros _ H [= <- _]. cbn in H. discriminate.
  - intros H _ [= -> _]. cbn in H. discriminate.
  - intros H H' [= -> Heq].
    apply orb_false_iff in H as [_ H]. apply orb_false_iff in H' as [_ H'].
    destruct (IH _ H H' Heq) as [-> ->]. auto.
Qed.

(** X3.  The id given to a new tenant is [t_] followed by at most 12 characters
    of the UUID drawn for it; as a UUID holds no [#], the partition keys
    [tenantId#productId] of two such tenants are equal only for the same
    tenant id and the same product id, whatever the product ids hold. *)
Theorem generated_tenant_ids_keep_keys_apart (uuid uuid' p p' : string) :
  hasChar "#" uuid = false -> hasChar "#" uuid' = false ->
  String.prefix "t_" (tenantsHandler.newTenantId uuid) = true /\
  (String.length (tenantsHandler.newTenantId uuid) <= 14)%nat /\
  (tenantsHandler.newTenantId uuid ++ "#" ++ p =
   tenantsHandler.newTenantId uuid' ++ "#" ++ p' ->
   tenantsHandler.newTenantId uuid = tenantsHandler.newTenantId uuid' /\
   p = p').
Proof.
  intros H H'.
  destruct (newTenantId_spec uuid) as (Hp & Hl & Hh).
  destruct (newTenantId_spec uuid') as (_ & _ & Hh').
  split; [exact Hp|]. split; [exact Hl|].
  apply tenant_key_inj; auto.
Qed.

Lemma generated_tenant_ids_keep_keys_apart_witness :
  tenantsHandler.newTenantId "123e4567-e89b-42d3-a456-426614174000" =
    "t_123e4567e89b" /\
  String.prefix "t_"
    (tenantsHandler.newTenantId "123e4567-e89b-42d3-a456-426614174000") = true.
Proof.
  split; [reflexivity|].
  apply (generated_tenant_ids_keep_keys_apart
           "123e4567-e89b-42d3-a456-426614174000"
           "123e4567-e89b-42d3-a456-426614174000" "p1" "p1");
    reflexivity.
Defined.

(** ** The entitlement table *)

Section EntitlementTable.
Context {env : Env}.

(** X4.  A row that was put is what a read of its key returns; the rows of other
    keys, and in particular of other tenants, are as they were; and a
    delete of the key removes the row. *)
Theorem entitlement_row_roundtrip
    (t p u : string) (row : EntitlementCache) (w w1 : World) :
  tenantProductKey row = t ++ "#" ++ p ->
  userId row = u ->
  db.setEntitlementCache row w = (inr tt, w1) ->
  (awsFault (ticks w1)
     (DynamoDB GetCommand ENTITLEMENT_CACHE_TABLE [t ++ "#" ++ p; u]) = None ->
   fst (db.getEntitlementCache t p u w1) = inr (Some row)) /\
  (forall t' p' u',
     hasChar "#" t = false -> hasChar "#" t' = false ->
     (t', p', u') <> (t, p, u) ->
     entitlements w1 !! (t' ++ "#" ++ p', u') =
     entitlements w !! (t' ++ "#" ++ p', u')) /\
  (forall w2,
     dbMore.deleteEntitlementCache t p u w1 = (inr tt, w2) ->
     entitlements w2 !! (t ++ "#" ++ p, u) = None).
Proof.
  intros Hk Hu Hset. apply setEntitlementCache_inv in Hset.
  rewrite Hk, Hu in Hset. subst w1. split; [|split].
  - intros Hok. rewrite getEntitlementCache_run. cbv zeta. rewrite Hok.
    cbn. now rewrite lookup_insert_eq.
  - intros t' p' u' Ht Ht' Hne. cbn. apply lookup_insert_ne.
    intros [= Hkey ->]. apply Hne.
    destruct (tenant_key_inj _ _ _ _ Ht Ht' Hkey) as [-> ->].
    reflexivity.
  - intros w2. unfold dbMore.deleteEntitlementCache, bind, aws, modify.
    destruct (awsFault _ _); [discriminate|]. intros [= <-]. cbn.
    apply lookup_delete_eq.
Qed.

End EntitlementTable.

Lemma entitlement_row_roundtrip_witness :
  fst (@db.getEntitlementCache Scenario.quiet "t1" "p1" "u1"
         (snd (@db.setEntitlementCache Scenario.quiet Scenario.revokedRow
                 Scenario.configured))) = inr (Some Scenario.revokedRow).
Proof.
  apply (proj1 (@entitlement_row_roundtrip Scenario.quiet "t1" "p1" "u1"
                  Scenario.revokedRow Scenario.configured _
                  eq_refl eq_refl eq_refl)).
  reflexivity.
Defined.

(** ** Stored credentials *)

Section StoredCredentials.
Context {env : Env}.

Lemma getSecretValue_run name w :
  creds.getSecretValue name w =
    let e := SecretsManager GetSecretValueCommand name in
    match awsFault (ticks w) e with
    | Some x => (inl x, record e w)
    | None =>
        match secrets w !! name with
        | Some v => (inr v, record e w)
        | None => (inl creds.ResourceNotFoundException, record e w)
        end
    end.
Proof.
  unfold creds.getSecretValue, bind, aws, get_world, ret, throw. cbn.
  destruct (awsFault _ _); [reflexivity|]. cbn.
  now destruct (secrets w !! name).
Qed.

Lemma getStripeSecretKey_run t w :
  creds.getStripeSecretKey t w =
    let e := SecretsManager GetSecretValueCommand (creds.SECRET_PREFIX ++ t) in
    match awsFault (ticks w) e with
    | Some x =>
        if creds.isResourceNotFound x then (inr None, record e w)
        else (inl x, record e w)
    | None =>
        (inr (stripe_secret_key <$> secrets w !! (creds.SECRET_PREFIX ++ t)),
         record e w)
    end.
Proof.
  unfold creds.getStripeSecretKey, try_catch, bind.
  rewrite getSecretValue_run. cbv zeta.
  destruct (awsFault _ _) as [x|].
  - unfold ret, throw. now destruct (creds.isResourceNotFound x).
  - now destruct (secrets w !! _).
Qed.

Lemma getStripeWebhookSecret_run t w :
  creds.getStripeWebhookSecret t w =
    let e := SecretsManager GetSecretValueCommand (creds.SECRET_PREFIX ++ t) in
    match awsFault (ticks w) e with
    | Some x =>
        if creds.isResourceNotFound x then (inr None, record e w)
        else (inl x, record e w)
    | None =>
        (inr (secrets w !! (creds.SECRET_PREFIX ++ t)
                ≫= fun c => Js.nonEmpty (stripe_webhook_secret c)),
         record e w)
    end.
Proof.
  unfold creds.getStripeWebhookSecret, try_catch, bind.
  rewrite getSecretValue_run. cbv zeta.
  destruct (awsFault _ _) as [x|].
  - unfold ret, throw. now destruct (creds.isResourceNotFound x).
  - now destruct (secrets w !! _).
Qed.

Lemma stored_credentials_are_read_back_aux t c w w1 :
  creds.storeCredentials t c w = (inr tt, w1) ->
  secrets w1 !! (creds.SECRET_PREFIX ++ t) = Some c /\
  secrets w1 = <[creds.SECRET_PREFIX ++ t := c]> (secrets w).
Proof.
  intros Hrun.
  assert (Hs : secrets w1 = <[creds.SECRET_PREFIX ++ t := c]> (secrets w)).
  { revert Hrun.
    unfold creds.storeCredentials, try_catch, creds.putSecretValue,
      creds.createSecret, bind, aws, get_world, modify, throw.
    cbn. destruct (awsFault (ticks w) _) as [x|]; cbn.
    - destruct (creds.isResourceNotFound x); [|discriminate].
      destruct (awsFault _ _); [discriminate|]. cbn.
      destruct (secrets w !! _); [discriminate|]. now intros [= <-].
    - destruct (secrets w !! _) eqn:Hsec; [now intros [= <-]|]. cbn.
      destruct (awsFault _ _); [discriminate|]. cbn. rewrite Hsec.
      now intros [= <-]. }
  split; [rewrite Hs; apply lookup_insert_eq|exact Hs].
Qed.

Lemma validateStripeKey_never_throws_aux key w :
  exists v w1,
    creds.validateStripeKey key w = (inr v, w1) /\
    (creds.valid v = true -> products_list (ticks w) key = None).
Proof.
  unfold creds.validateStripeKey, try_catch, bind, stripeCall, ret. cbn.
  destruct (products_list (ticks w) key) as [x|]; cbn.
  - destruct (creds.includesStr _ _); do 2 eexists;
      (split; [reflexivity|]); cbn; discriminate.
  - do 2 eexists. split; [reflexivity|]. auto.
Qed.

(** X5.  Credentials that were stored, whether the tenant had a secret before or
    not, are what Secrets Manager holds for the tenant and what the two
    readers return; the secrets of other tenants are as they were. *)
Theorem stored_credentials_are_read_back
    (t : string) (c : StripeCredentials) (w w1 : World) :
  creds.storeCredentials t c w = (inr tt, w1) ->
  secrets w1 !! (creds.SECRET_PREFIX ++ t) = Some c /\
  (forall name, name <> creds.SECRET_PREFIX ++ t ->
     secrets w1 !! name = secrets w !! name) /\
  (awsFault (ticks w1)
     (SecretsManager GetSecretValueCommand (creds.SECRET_PREFIX ++ t)) = None ->
   fst (creds.getStripeSecretKey t w1) = inr (Some (stripe_secret_key c)) /\
   fst (creds.getStripeWebhookSecret t w1) =
     inr (Js.nonEmpty (stripe_webhook_secret c))).
Proof.
  intros Hrun.
  destruct (stored_credentials_are_read_back_aux _ _ _ _ Hrun) as [_ Hs].
  split; [rewrite Hs; apply lookup_insert_eq|].
  split; [intros name Hne; rewrite Hs; now apply lookup_insert_ne|].
  intros Hok. rewrite getStripeSecretKey_run, getStripeWebhookSecret_run.
  cbv zeta. rewrite Hok, Hs, lookup_insert_eq. split; reflexivity.
Qed.

(** X6.  Deleting the credentials of a tenant does not throw when the tenant
    has none; afterwards Secrets Manager holds nothing for the tenant and
    the reader of the secret key returns null. *)
Theorem deleteCredentials_is_idempotent (t : string) (w : World) :
  awsFault (ticks w)
    (SecretsManager DeleteSecretCommand (creds.SECRET_PREFIX ++ t)) = None ->
  exists w1,
    creds.deleteCredentials t w = (inr tt, w1) /\
    secrets w1 !! (creds.SECRET_PREFIX ++ t) = None /\
    (forall name, name <> creds.SECRET_PREFIX ++ t ->
       secrets w1 !! name = secrets w !! name) /\
    (awsFault (ticks w1)
       (SecretsManager GetSecretValueCommand (creds.SECRET_PREFIX ++ t))
       = None ->
     fst (creds.getStripeSecretKey t w1) = inr None).
Proof.
  intros Hok.
  unfold creds.deleteCredentials, try_catch, creds.deleteSecret, bind, aws,
    get_world, modify, throw.
  cbn. rewrite Hok. cbn.
  destruct (secrets w !! (creds.SECRET_PREFIX ++ t)) eqn:Hsec; cbn;
    eexists; (split; [reflexivity|]); cbn.
  - split; [apply lookup_delete_eq|].
    split; [intros name Hne; now apply lookup_delete_ne|].
    intros Hget. rewrite getStripeSecretKey_run. cbv zeta.
    unfold ticks in *. cbn in *. rewrite Hget. cbn.
    now rewrite lookup_delete_eq.
  - split; [exact Hsec|]. split; [reflexivity|].
    intros Hget. rewrite getStripeSecretKey_run. cbv zeta.
    unfold ticks in *. cbn in *. rewrite Hget. cbn.
    now rewrite Hsec.
Qed.

(** X7.  The validation of a secret key never throws: it reports the key valid
    exactly when the provider accepted the test call, and otherwise carries
    an error message; it stores nothing. *)
Theorem validateStripeKey_never_throws (key : string) (w : World) :
  exists v w1,
    creds.validateStripeKey key w = (inr v, w1) /\
    (creds.valid v = true <-> products_list (ticks w) key = None) /\
    (creds.valid v = false -> is_Some (creds.v_error v)) /\
    secrets w1 = secrets w /\ clientCache w1 = clientCache w.
Proof.
  unfold creds.validateStripeKey, try_catch, bind, stripeCall, ret. cbn.
  destruct (products_list (ticks w) key) as [x|]; cbn.
  - destruct (creds.includesStr _ _); do 2 eexists;
      (split; [reflexivity|]); cbn; (split; [split; discriminate|]); eauto.
  - do 2 eexists. split; [reflexivity|]. cbn. split; [tauto|].
    split; [discriminate|]. auto.
Qed.

End StoredCredentials.

Lemma stored_credentials_are_read_back_witness :
  fst (@creds.getStripeSecretKey Scenario.quiet "t1"
         (snd (@creds.storeCredentials Scenario.quiet "t1"
                 {| stripe_secret_key := "sk_live_new";
                    stripe_webhook_secret := None |} Scenario.empty))) =
    inr (Some "sk_live_new").
Proof.
  apply (proj2 (proj2 (@stored_credentials_are_read_back Scenario.quiet "t1"
                         {| stripe_secret_key := "sk_live_new";
                            stripe_webhook_secret := None |}
                         Scenario.empty _ eq_refl))).
  reflexivity.
Defined.

Lemma deleteCredentials_is_idempotent_witness :
  exists w1,
    @creds.deleteCredentials Scenario.quiet "t1" Scenario.empty = (inr tt, w1)
    /\ secrets w1 !! "paywall/stripe/t1" = None.
Proof.
  destruct (@deleteCredentials_is_idempotent Scenario.quiet "t1"
              Scenario.empty eq_refl) as (w1 & H1 & H2 & _).
  exists w1. split; assumption.
Defined.

(** ** The client cache *)

Section ClientCache.
Context {env : Env}.

(** What [getStripeClient] does when the cache has no live entry. *)
Lemma getStripeClient_miss t w :
  cachedClient w t (clock (ticks w)) = None ->
  getStripeClient t w =
    match creds.getStripeSecretKey t w with
    | (inl x, w1) => (inl x, w1)
    | (inr None, w1) =>
        (inl (Error ("No Stripe credentials configured for tenant " ++ t)), w1)
    | (inr (Some key), w1) =>
        if String.eqb key "" then
          (inl (Error ("No Stripe credentials configured for tenant " ++ t)),
           w1)
        else
          (inr {| secretKey := key |},
           set_clientCache
             <[t := {| client := {| secretKey := key |};
                       expiry := clock (ticks w1) + CACHE_TTL |}]> w1)
    end.
Proof.
  intros Hmiss. unfold getStripeClient.
  erewrite bind_inr by reflexivity. erewrite (bind_inr Date_now) by reflexivity.
  rewrite Hmiss. unfold bind at 1.
  destruct (creds.getStripeSecretKey t w) as [[x|[key|]] w1]; try reflexivity.
  destruct (String.eqb key ""); reflexivity.
Qed.

Lemma getStripeSecretKey_keepsCache t :
  preserves keepsCache (creds.getStripeSecretKey t).
Proof.
  unfold creds.getStripeSecretKey, creds.getSecretValue. keepsCache_frame.
Qed.

(** X8.  A client that [getStripeClient] returned is in the cache: asked again
    at once, or at any time before the entry expires, [getStripeClient]
    returns the same client without a request to Secrets Manager. *)
Theorem client_is_reused_until_expiry (t : string) (w w1 : World) (c : Stripe) :
  getStripeClient t w = (inr c, w1) ->
  exists e,
    clientCache w1 !! t = Some {| client := c; expiry := e |} /\
    getStripeClient t w1 = (inr c, w1) /\
    forall w2,
      clientCache w2 !! t = clientCache w1 !! t ->
      e > clock (ticks w2) ->
      getStripeClient t w2 = (inr c, w2).
Proof.
  intros Hrun.
  assert (H : exists e, clientCache w1 !! t = Some {| client := c; expiry := e |}
                        /\ e > clock (ticks w1)).
  { destruct (cachedClient w t (clock (ticks w))) as [c0|] eqn:Hc.
    - unfold getStripeClient in Hrun.
      erewrite bind_inr in Hrun by reflexivity.
      erewrite (bind_inr Date_now) in Hrun by reflexivity.
      rewrite Hc in Hrun. injection Hrun as <- <-.
      unfold cachedClient in Hc.
      destruct (clientCache w !! t) as [[c1 e]|]; [|discriminate]. cbn in Hc.
      destruct (Z.gtb_spec e (clock (ticks w))); [|discriminate].
      injection Hc as <-. exists e. split; [reflexivity|lia].
    - rewrite (getStripeClient_miss _ _ Hc) in Hrun.
      destruct (creds.getStripeSecretKey t w) as [[x|[key|]] w0];
        try discriminate.
      destruct (String.eqb key ""); [discriminate|].
      injection Hrun as <- <-. eexists. cbn. rewrite lookup_insert_eq.
      split; [reflexivity|]. unfold CACHE_TTL, ticks. cbn. lia. }
  destruct H as (e & Hc & He). exists e. split; [exact Hc|].
  split.
  - apply (getStripeClient_cached t w1 _ Hc He).
  - intros w2 Hsame He2. rewrite <- Hsame in Hc.
    apply (getStripeClient_cached t w2 _ Hc He2).
Qed.

(** X9.  A call that throws leaves the cache as it was; and for a tenant without
    a live cache entry and without a stored secret key the call throws the
    error that names the tenant. *)
Theorem missing_credentials_are_reported_not_cached (t : string) (w : World) :
  (forall x w1, getStripeClient t w = (inl x, w1) ->
                clientCache w1 = clientCache w) /\
  (cachedClient w t (clock (ticks w)) = None ->
   awsFault (ticks w)
     (SecretsManager GetSecretValueCommand (creds.SECRET_PREFIX ++ t)) = None ->
   secrets w !! (creds.SECRET_PREFIX ++ t) = None ->
   fst (getStripeClient t w) =
     inl (Error ("No Stripe credentials configured for tenant " ++ t))).
Proof.
  split.
  - intros x w1 Hrun.
    destruct (cachedClient w t (clock (ticks w))) as [c0|] eqn:Hc.
    + unfold getStripeClient in Hrun.
      erewrite bind_inr in Hrun by reflexivity.
      erewrite (bind_inr Date_now) in Hrun by reflexivity.
      rewrite Hc in Hrun. discriminate.
    + rewrite (getStripeClient_miss _ _ Hc) in Hrun.
      destruct (creds.getStripeSecretKey t w) as [[y|[key|]] w0] eqn:Hk;
        pose proof (preserves_run _ _ _ _ _ (getStripeSecretKey_keepsCache t) Hk)
          as Hkeep; unfold keepsCache in Hkeep.
      * now injection Hrun as <- <-.
      * destruct (String.eqb key ""); [|discriminate].
        now injection Hrun as <- <-.
      * now injection Hrun as <- <-.
  - intros Hc Hok Hsec. rewrite (getStripeClient_miss _ _ Hc).
    rewrite getStripeSecretKey_run. cbv zeta. rewrite Hok, Hsec. reflexivity.
Qed.

(** X10.  Invalidating the client of a tenant drops the entry of that tenant
    only, and the next client of the tenant is made from the secret key
    that Secrets Manager holds, whatever was cached. *)
Theorem invalidated_client_is_rebuilt
    (t : string) (w : World) (cred : StripeCredentials) :
  secrets w !! (creds.SECRET_PREFIX ++ t) = Some cred ->
  stripe_secret_key cred <> "" ->
  awsFault (ticks w)
    (SecretsManager GetSecretValueCommand (creds.SECRET_PREFIX ++ t)) = None ->
  let w0 := snd (invalidateStripeClient t w) in
  (forall t', t' <> t -> clientCache w0 !! t' = clientCache w !! t') /\
  fst (getStripeClient t w0) = inr {| secretKey := stripe_secret_key cred |}.
Proof.
  intros Hsec Hkey Hok w0. subst w0.
  unfold invalidateStripeClient, modify. cbn [snd]. split.
  - intros t' Hne. cbn. now apply lookup_delete_ne.
  - rewrite getStripeClient_miss.
    + rewrite getStripeSecretKey_run. cbv zeta. unfold ticks in *. cbn.
      rewrite Hok. cbn. rewrite Hsec. cbn.
      destruct (String.eqb_spec (stripe_secret_key cred) ""); [contradiction|].
      reflexivity.
    + unfold cachedClient. cbn. now rewrite lookup_delete_eq.
Qed.

End ClientCache.

Lemma client_is_reused_until_expiry_witness :
  exists e,
    clientCache (snd (@getStripeClient Scenario.quiet "t1" Scenario.configured))
      !! "t1" = Some {| client := {| secretKey := "sk_test_1" |}; expiry := e |}.
Proof.
  destruct (@client_is_reused_until_expiry Scenario.quiet "t1"
              Scenario.configured _ {| secretKey := "sk_test_1" |} eq_refl)
    as (e & H & _).
  exists e. exact H.
Defined.

Lemma invalidated_client_is_rebuilt_witness :
  fst (@getStripeClient Scenario.rotation "t1"
         (snd (invalidateStripeClient "t1" Scenario.shop))) =
    inr {| secretKey := "sk_test_1" |}.
Proof.
  apply (proj2 (@invalidated_client_is_rebuilt Scenario.rotation "t1"
                  Scenario.shop
                  {| stripe_secret_key := "sk_test_1";
                     stripe_webhook_secret := Some "whsec_1" |}
                  eq_refl ltac:(discriminate) eq_refl)).
Defined.

(** ** Rules for postconditions that depend on the answer *)

Section Ensures.
Variable cond : Z -> bool.
Variables P T : World -> World -> Prop.
Hypothesis P_refl : forall w, P w w.
Hypothesis P_trans : forall a b c, P a b -> P b c -> P a c.
Hypothesis PT : forall a b, P a b -> T a b.
Hypothesis PT_trans : forall a b c, P a b -> T b c -> T a c.

Lemma ensures_ret r : ensures (whenAnswered cond P T) (ret r).
Proof. intros w. cbn. auto. Qed.

Lemma ensures_throw e :
  ensures (whenAnswered cond P T) (@throw APIGatewayProxyResult e).
Proof. intros w. cbn. auto. Qed.

(** A step that keeps [P], then a continuation. *)
Lemma ensures_bind {A} (m : M A) (k : A -> M APIGatewayProxyResult) :
  preserves P m ->
  (forall a, ensures (whenAnswered cond P T) (k a)) ->
  ensures (whenAnswered cond P T) (bind m k).
Proof.
  intros Hm Hk w. specialize (Hm w). unfold bind.
  destruct (m w) as [[x|a] w1]; cbn in *; [auto|].
  specialize (Hk a w1). unfold whenAnswered in *.
  destruct (fst (k a w1)); eauto.
Qed.


End Ensures.

(** The same with nothing promised on a throw: the continuation may then
    throw. *)
Lemma ensures_bind_commit_anything (cond : Z -> bool)
    (P : World -> World -> Prop) {A}
    (m : M A) (k : A -> M APIGatewayProxyResult) :
  (forall a w, throwsOrAnswersOutside cond (fst (k a w))) ->
  ensures (whenAnswered cond P anything) (bind m k).
Proof.
  intros Hk w. unfold bind.
  destruct (m w) as [[x|a] w1]; cbn; [exact I|].
  specialize (Hk a w1). unfold whenAnswered, throwsOrAnswersOutside in *.
  destruct (fst (k a w1)); [exact I|]. congruence.
Qed.

(** The [try] of a handler: a throw is answered with [response]. *)
Lemma ensures_try (cond : Z -> bool) (P T T' : World -> World -> Prop)
    (m : M APIGatewayProxyResult) (response : APIGatewayProxyResult) :
  (cond (statusCode response) = true -> forall a b, T a b -> P a b) ->
  ensures (whenAnswered cond P T) m ->
  ensures (whenAnswered cond P T') (try_catch m (fun _ => ret response)).
Proof.
  intros Hr Hm w. specialize (Hm w). unfold try_catch, ret.
  destruct (m w) as [[x|r] w1]; cbn in *; auto.
Qed.

(** A handler of this shape always answers. *)
Lemma try_answers (m : M APIGatewayProxyResult)
    (response : APIGatewayProxyResult) w :
  exists r, fst (try_catch m (fun _ => ret response) w) = inr r.
Proof.
  unfold try_catch, ret. destruct (m w) as [[x|r] w1]; cbn; eauto.
Qed.

Lemma ensures_run {A} (Q : World -> Exn + A -> World -> Prop) (m : M A)
    w r w' :
  ensures Q m -> m w = (r, w') -> Q w r w'.
Proof. intros H E. specialize (H w). now rewrite E in H. Qed.

Lemma keepsCredentials_refl w : keepsCredentials w w.
Proof. split; reflexivity. Qed.

Lemma keepsCredentials_trans a b c :
  keepsCredentials a b -> keepsCredentials b c -> keepsCredentials a c.
Proof. unfold keepsCredentials. intros [? ?] [? ?]. split; congruence. Qed.

Ltac keepsCredentials_frame :=
  repeat first
    [ assumption
    | frame_step keepsCredentials_refl keepsCredentials_trans
    | apply preserves_lift; intros ?
    | solve [split; reflexivity] ].

(** A continuation that ends with an answer outside [cond]. *)
Lemma bind_ret_outside (cond : Z -> bool) {A} (m : M A)
    (f : A -> APIGatewayProxyResult) w :
  (forall a, cond (statusCode (f a)) = false) ->
  throwsOrAnswersOutside cond (fst (bind m (fun a => ret (f a)) w)).
Proof.
  intros H. unfold bind, ret. destruct (m w) as [[x|a] w1]; cbn; auto.
Qed.

(** One step of a proof about the answer of a handler, for a relation [P]
    with the lemmas [refl] and [trans], and nothing promised on a throw. *)
Ltac answer_step refl trans :=
  lazymatch goal with
  | |- ensures _ (try_catch _ (fun _ => ret _)) =>
      apply (ensures_try _ _ anything); [ intros; discriminate | ]
  | |- ensures _ (bind _ _) =>
      apply (ensures_bind _ _ anything trans
               (fun _ _ _ => I) (fun _ _ _ _ _ => I)); [ | intros ? ]
  | |- ensures _ (ret _) => apply (ensures_ret _ _ anything refl)
  | |- ensures _ (match ?x with _ => _ end) => destruct x
  end.

Section CredentialsAnswers.
Context {env : Env}.
Import credentials.

Lemma requireAdminKey_keepsCredentials event :
  preserves keepsCredentials (requireAdminKey event).
Proof.
  unfold requireAdminKey, resolveApiKey, db.getApiKeyByHash.
  keepsCredentials_frame.
Qed.

Lemma getTenant_keepsCredentials t :
  preserves keepsCredentials (db.getTenant t).
Proof. unfold db.getTenant. keepsCredentials_frame. Qed.

Lemma validateStripeKey_keepsCredentials k :
  preserves keepsCredentials (creds.validateStripeKey k).
Proof. unfold creds.validateStripeKey. keepsCredentials_frame. Qed.

Lemma setHandler_refused event :
  ensures (whenAnswered refused keepsCredentials anything) (setHandler event).
Proof.
  unfold setHandler.
  repeat first
    [ apply requireAdminKey_keepsCredentials
    | apply getTenant_keepsCredentials
    | apply validateStripeKey_keepsCredentials
    | apply preserves_lift; intros ?; apply keepsCredentials_refl
    | lazymatch goal with
      | |- ensures _ (bind (creds.storeCredentials _ _) _) =>
          apply ensures_bind_commit_anything; intros [] w;
          erewrite (bind_inr Date_now) by reflexivity;
          apply (bind_ret_outside refused _ (fun _ => _));
          intros; reflexivity
      end
    | answer_step keepsCredentials_refl keepsCredentials_trans ].
Qed.

Lemma deleteHandler_refused event :
  ensures (whenAnswered refused keepsCredentials anything)
    (deleteHandler event).
Proof.
  unfold deleteHandler.
  repeat first
    [ apply requireAdminKey_keepsCredentials
    | apply getTenant_keepsCredentials
    | lazymatch goal with
      | |- ensures _ (bind (creds.deleteCredentials _) _) =>
          apply ensures_bind_commit_anything; intros [] w;
          erewrite (bind_inr Date_now) by reflexivity;
          apply (bind_ret_outside refused _ (fun _ => _));
          intros; reflexivity
      end
    | answer_step keepsCredentials_refl keepsCredentials_trans ].
Qed.

(** X11.  A request to store or delete credentials that is answered with a
    status other than 200 and 500 (no admin key, the key of another tenant,
    an unknown tenant, a malformed or rejected Stripe key) has changed
    neither Secrets Manager nor the tenants table. *)
Theorem refused_credentials_change_nothing
    (event : APIGatewayProxyEvent) (w w' : World)
    (response : APIGatewayProxyResult) :
  setHandler event w = (inr response, w') \/
  deleteHandler event w = (inr response, w') ->
  statusCode response <> 200 -> statusCode response <> 500 ->
  secrets w' = secrets w /\ tenants w' = tenants w.
Proof.
  intros Hrun H200 H500.
  assert (Hc : refused (statusCode response) = true).
  { unfold refused. destruct (Z.eqb_spec (statusCode response) 200);
      [contradiction|].
    destruct (Z.eqb_spec (statusCode response) 500); [contradiction|].
    reflexivity. }
  destruct Hrun as [Hrun|Hrun].
  - exact (ensures_run _ _ _ _ _ (setHandler_refused event) Hrun Hc).
  - exact (ensures_run _ _ _ _ _ (deleteHandler_refused event) Hrun Hc).
Qed.

End CredentialsAnswers.

Section CredentialsStored.
Context {env : Env}.
Import credentials.

Lemma updateTenant_run t u w :
  db.noUpdates u = false ->
  db.updateTenant t u w =
    let e := DynamoDB UpdateCommand TENANTS_TABLE [t] in
    match awsFault (ticks w) e with
    | Some x => (inl x, record e w)
    | None =>
        let t' := db.applyUpdates t u (tenants w !! t) in
        (inr (Some t'), set_tenants <[t := t']> (record e w))
    end.
Proof.
  intros Hu. unfold db.updateTenant. rewrite Hu.
  unfold bind, aws, get_world, modify, ret. cbn.
  now destruct (awsFault _ _).
Qed.

(** X12.  A request to store credentials that is answered 200 has stored the
    secret key and the webhook secret of the body for the tenant of the
    path, after Stripe accepted a test call with that key, and has marked
    the tenant as configured with the publishable key of the body. *)
Theorem accepted_credentials_are_stored
    (event : APIGatewayProxyEvent) (w w' : World)
    (response : APIGatewayProxyResult) :
  setHandler event w = (inr response, w') ->
  statusCode response = 200 ->
  exists t body sk pk tenant',
    Js.nonEmpty (Js.get (pathParameters event) "tenantId") = Some t /\
    JSON_parse (Js.orStr (eventBody event) "{}") = inr body /\
    Js.nonEmpty (Js.get body "stripe_secret_key") = Some sk /\
    Js.nonEmpty (Js.get body "stripe_publishable_key") = Some pk /\
    Js.startsWith sk "sk_" = true /\ Js.startsWith pk "pk_" = true /\
    (exists n, products_list n sk = None) /\
    secrets w' !! (creds.SECRET_PREFIX ++ t) =
      Some {| stripe_secret_key := sk;
              stripe_webhook_secret :=
                Js.nonEmpty (Js.get body "stripe_webhook_secret") |} /\
    tenants w' !! t = Some tenant' /\
    credentialsConfigured tenant' = true /\
    stripePublishableKey tenant' = Some pk.
Proof.
  intros Hrun H200. unfold setHandler, try_catch in Hrun.
  match type of Hrun with
  | match ?m w with _ => _ end = _ =>
      destruct (m w) as [[x|r] w0] eqn:Hbody
  end.
  { inv_ret Hrun. discriminate. }
  injection Hrun as -> ->.
  apply bind_inv in Hbody as (auth & w1 & Hauth & Hbody).
  destruct auth as [auth|]; [|inv_ret Hbody; discriminate].
  destruct (Js.nonEmpty (Js.get (pathParameters event) "tenantId")) as [t|];
    [|inv_ret Hbody; discriminate].
  destruct (negb _); [inv_ret Hbody; discriminate|].
  apply bind_inv in Hbody as (tenant & w2 & Hten & Hbody).
  destruct tenant as [tenant|]; [|inv_ret Hbody; discriminate].
  apply bind_inv in Hbody as (body & w3 & Hparse & Hbody).
  unfold lift in Hparse. injection Hparse as Hparse <-.
  destruct (Js.nonEmpty (Js.get body "stripe_secret_key")) as [sk|] eqn:Hsk;
    [|inv_ret Hbody; discriminate].
  destruct (Js.nonEmpty (Js.get body "stripe_publishable_key")) as [pk|] eqn:Hpk;
    [|inv_ret Hbody; discriminate].
  destruct (Js.startsWith sk "sk_") eqn:Hs1; cbn [negb] in Hbody;
    [|inv_ret Hbody; discriminate].
  destruct (Js.startsWith pk "pk_") eqn:Hs2; cbn [negb] in Hbody;
    [|inv_ret Hbody; discriminate].
  destruct (from_option _ false _); [inv_ret Hbody; discriminate|].
  apply bind_inv in Hbody as (validation & w4 & Hval & Hbody).
  destruct (creds.valid validation) eqn:Hvalid; cbn [negb] in Hbody;
    [|inv_ret Hbody; discriminate].
  apply bind_inv in Hbody as ([] & w5 & Hstore & Hbody).
  apply bind_inv in Hbody as (now & w6 & Hnow & Hbody).
  unfold Date_now in Hnow. injection Hnow as <- <-.
  apply bind_inv in Hbody as (updated & w7 & Hupd & Hbody).
  inv_ret Hbody.
  destruct (stored_credentials_are_read_back_aux _ _ _ _ Hstore) as [Hsec _].
  rewrite updateTenant_run in Hupd by reflexivity. cbv zeta in Hupd.
  destruct (awsFault _ _); [discriminate|]. injection Hupd as <- <-.
  destruct (validateStripeKey_never_throws_aux sk w2) as (v & wv & Hv & Hiff).
  rewrite Hval in Hv. injection Hv as <- <-.
  exists t, body, sk, pk. eexists.
  repeat (split; [first [assumption | reflexivity]|]).
  split; [exists (ticks w2); now apply Hiff|].
  split; [exact Hsec|]. cbn. rewrite lookup_insert_eq.
  repeat split; reflexivity.
Qed.

End CredentialsStored.

(** ** The admin endpoints *)

Lemma readsTablesOnly_refl w : readsTablesOnly w w.
Proof. repeat split. Qed.

Lemma readsTablesOnly_trans a b c :
  readsTablesOnly a b -> readsTablesOnly b c -> readsTablesOnly a c.
Proof.
  unfold readsTablesOnly.
  intros (?&?&?&?&?&?&?&?&?) (?&?&?&?&?&?&?&?&?).
  repeat split; congruence.
Qed.

Lemma readsTablesOnly_record e w :
  isSecretsRequest e = false -> isProviderCall e = false ->
  readsTablesOnly w (record e w).
Proof.
  intros H1 H2. unfold readsTablesOnly, providerCalls.
  rewrite !count_record, H1, H2. repeat split.
Qed.

Ltac readsTablesOnly_frame :=
  repeat first
    [ assumption
    | frame_step readsTablesOnly_refl readsTablesOnly_trans
    | apply readsTablesOnly_record; reflexivity
    | apply readsTablesOnly_refl ].

Section AdminEndpoints.
Context {env : Env}.
Import credentials.

(** X13.  An admin key of one tenant is refused on the endpoints of another: the
    four handlers answer 403, having made no request but the lookup of the
    key. *)
Theorem admin_endpoints_are_tenant_scoped
    (event : APIGatewayProxyEvent) (w w1 : World) (auth : ResolvedApiKey)
    (t : string) :
  requireAdminKey event w = (inr (Some auth), w1) ->
  Js.nonEmpty (Js.get (pathParameters event) "tenantId") = Some t ->
  r_tenantId auth <> t ->
  setHandler event w = (inr (error "Access denied" 403), w1) /\
  deleteHandler event w = (inr (error "Access denied" 403), w1) /\
  getStatusHandler event w = (inr (error "Access denied" 403), w1) /\
  tenantsHandler.getHandler event w = (inr (error "Access denied" 403), w1).
Proof.
  intros Hauth Ht Hne.
  assert (Hneq : negb (String.eqb (r_tenantId auth) t) = true)
    by (destruct (String.eqb_spec (r_tenantId auth) t); [contradiction|auto]).
  unfold setHandler, deleteHandler, getStatusHandler, tenantsHandler.getHandler,
    try_catch.
  rewrite !(bind_inr _ _ _ _ _ Hauth), Ht, Hneq. auto.
Qed.

(** X14.  A product key, like no key at all, is refused on the admin endpoints:
    the four handlers answer 401 and nothing is read but the key. *)
Theorem admin_endpoints_refuse_product_keys
    (event : APIGatewayProxyEvent) (w w1 : World)
    (resolved : option ResolvedApiKey) :
  resolveApiKey event w = (inr resolved, w1) ->
  from_option (fun r => r_keyType r = productKey) True resolved ->
  let unauthorized := error "Unauthorized — admin API key required" 401 in
  setHandler event w = (inr unauthorized, w1) /\
  deleteHandler event w = (inr unauthorized, w1) /\
  getStatusHandler event w = (inr unauthorized, w1) /\
  tenantsHandler.getHandler event w = (inr unauthorized, w1).
Proof.
  intros Hres Hkind unauthorized.
  assert (Hauth : requireAdminKey event w = (inr None, w1)).
  { unfold requireAdminKey. rewrite (bind_inr _ _ _ _ _ Hres).
    destruct resolved as [r|]; [|reflexivity]. cbn in Hkind.
    now rewrite Hkind. }
  unfold setHandler, deleteHandler, getStatusHandler, tenantsHandler.getHandler,
    try_catch.
  rewrite !(bind_inr _ _ _ _ _ Hauth). auto.
Qed.

Lemma requireAdminKey_readsTablesOnly event :
  preserves readsTablesOnly (requireAdminKey event).
Proof.
  unfold requireAdminKey, resolveApiKey, db.getApiKeyByHash.
  readsTablesOnly_frame.
Qed.

Lemma getTenant_readsTablesOnly t : preserves readsTablesOnly (db.getTenant t).
Proof. unfold db.getTenant. readsTablesOnly_frame. Qed.

(** X15.  The status of the credentials is read from the tenants table alone: the
    handler changes nothing and makes no request to Secrets Manager or to
    Stripe, and when it answers 200 the body is made of three members of
    the record of the tenant of the path. *)
Theorem credentials_status_comes_from_the_tenant_record
    (event : APIGatewayProxyEvent) (w : World) :
  readsTablesOnly w (snd (getStatusHandler event w)) /\
  forall response,
    fst (getStatusHandler event w) = inr response ->
    statusCode response = 200 ->
    exists t tenant,
      Js.nonEmpty (Js.get (pathParameters event) "tenantId") = Some t /\
      tenants w !! t = Some tenant /\
      body response =
        JObj [("success", JBool true);
              ("data",
               JObj [("configured", JBool (credentialsConfigured tenant));
                     ("publishable_key",
                      JOpt (Js.nonEmpty (stripePublishableKey tenant)));
                     ("validated_at",
                      JOpt (Js.nonEmpty (credentialsValidatedAt tenant)))])].
Proof.
  split.
  - assert (H : preserves readsTablesOnly (getStatusHandler event)).
    { unfold getStatusHandler. readsTablesOnly_frame.
      - apply requireAdminKey_readsTablesOnly.
      - apply getTenant_readsTablesOnly. }
    apply H.
  - intros response Hrun H200.
    destruct (getStatusHandler event w) as [r w'] eqn:Hh. cbn in Hrun. subst r.
    unfold getStatusHandler, try_catch in Hh.
    match type of Hh with
    | match ?m w with _ => _ end = _ =>
        destruct (m w) as [[x|r] w0] eqn:Hbody
    end.
    { inv_ret Hh. discriminate. }
    injection Hh as -> ->.
    apply bind_inv in Hbody as (auth & w1 & Hauth & Hbody).
    pose proof (preserves_run _ _ _ _ _
                  (requireAdminKey_readsTablesOnly event) Hauth) as (Ht1 & _).
    destruct auth as [auth|]; [|inv_ret Hbody; discriminate].
    destruct (Js.nonEmpty (Js.get (pathParameters event) "tenantId")) as [t|];
      [|inv_ret Hbody; discriminate].
    destruct (negb _); [inv_ret Hbody; discriminate|].
    apply bind_inv in Hbody as (tenant & w2 & Hten & Hbody).
    unfold db.getTenant, bind, aws, get_world, ret in Hten.
    destruct (awsFault _ _); [discriminate|]. cbn in Hten.
    injection Hten as <- <-.
    destruct (tenants w1 !! t) as [tenant|] eqn:Hlook;
      [|inv_ret Hbody; discriminate].
    inv_ret Hbody. exists t, tenant. rewrite <- Ht1. auto.
Qed.

End AdminEndpoints.

Lemma admin_endpoints_are_tenant_scoped_witness :
  let event :=
    {| headers := [("x-api-key", "pk_paywall_admin")];
       pathParameters := [("tenantId", "t2")];
       eventBody := None |} in
  exists w1,
    @credentials.setHandler Scenario.rotation event Scenario.shop =
      (inr (error "Access denied" 403), w1) /\
    secrets w1 = secrets Scenario.shop.
Proof.
  intros event.
  pose (w1 := snd (@requireAdminKey Scenario.rotation event Scenario.shop)).
  exists w1. split; [|reflexivity].
  apply (@admin_endpoints_are_tenant_scoped Scenario.rotation event
           Scenario.shop w1
           {| r_tenantId := "t1"; r_productId := "*"; r_keyType := adminKey |}
           "t2");
    [vm_compute; reflexivity | reflexivity | discriminate].
Defined.

Lemma admin_endpoints_refuse_product_keys_witness :
  let event :=
    {| headers := []; pathParameters := [("tenantId", "t1")];
       eventBody := None |} in
  @credentials.deleteHandler Scenario.rotation event Scenario.shop =
    (inr (error "Unauthorized — admin API key required" 401), Scenario.shop).
Proof.
  intros event.
  apply (@admin_endpoints_refuse_product_keys Scenario.rotation event
           Scenario.shop Scenario.shop None); [reflexivity | exact I].
Defined.

Lemma refused_credentials_change_nothing_witness :
  let event :=
    {| headers := [("x-api-key", "pk_paywall_admin")];
       pathParameters := [("tenantId", "t2")];
       eventBody := None |} in
  secrets (snd (@credentials.setHandler Scenario.rotation event Scenario.shop))
    = secrets Scenario.shop.
Proof.
  intros event.
  pose (r := @credentials.setHandler Scenario.rotation event Scenario.shop).
  assert (Hrun : r = (inr (error "Access denied" 403), snd r))
    by (vm_compute; reflexivity).
  apply (@refused_credentials_change_nothing Scenario.rotation event
           Scenario.shop (snd r) _ (or_introl Hrun));
    discriminate.
Defined.

Lemma accepted_credentials_are_stored_witness :
  exists tenant',
    tenants (snd (@credentials.setHandler Scenario.rotation
                    Scenario.credentialsRequest Scenario.shop)) !! "t1" =
      Some tenant' /\
    stripePublishableKey tenant' = Some "pk_live_new".
Proof.
  pose (r := @credentials.setHandler Scenario.rotation
               Scenario.credentialsRequest Scenario.shop).
  assert (Hrun : r = (inr (success
                             (JObj [("status", JStr "validated");
                                    ("publishable_key", JStr "pk_live_new");
                                    ("validated_at",
                                     JStr "2023-11-14T22:13:20.000Z")])),
                      snd r)) by (vm_compute; reflexivity).
  destruct (@accepted_credentials_are_stored Scenario.rotation
              Scenario.credentialsRequest Scenario.shop (snd r) _ Hrun eq_refl)
    as (t & body & sk & pk & tenant' & Ht & Hb & _ & Hpk & _ & _ & _ & _
        & Hten & _ & Hpub).
  injection Ht as <-. injection Hb as <-. injection Hpk as <-.
  exists tenant'. split; assumption.
Defined.

Lemma keepsTenants_refl w : keepsTenants w w.
Proof. reflexivity. Qed.

Lemma keepsTenants_trans a b c :
  keepsTenants a b -> keepsTenants b c -> keepsTenants a c.
Proof. unfold keepsTenants. congruence. Qed.

Ltac keepsTenants_frame :=
  repeat first
    [ assumption
    | frame_step keepsTenants_refl keepsTenants_trans
    | reflexivity ].

Section CredentialsDeleted.
Context {env : Env}.
Import credentials.

Lemma deleteCredentials_keepsTenants t :
  preserves keepsTenants (creds.deleteCredentials t).
Proof.
  unfold creds.deleteCredentials, creds.deleteSecret. keepsTenants_frame.
Qed.

Lemma requireAdminKey_keepsTenants event :
  preserves keepsTenants (requireAdminKey event).
Proof.
  unfold requireAdminKey, resolveApiKey, db.getApiKeyByHash.
  keepsTenants_frame.
Qed.

Lemma deleteCredentials_gone t w w1 :
  creds.deleteCredentials t w = (inr tt, w1) ->
  awsFault (ticks w)
    (SecretsManager DeleteSecretCommand (creds.SECRET_PREFIX ++ t)) = None ->
  secrets w1 !! (creds.SECRET_PREFIX ++ t) = None.
Proof.
  unfold creds.deleteCredentials, try_catch, creds.deleteSecret, bind, aws,
    get_world, modify, throw.
  cbn. intros Hrun Hok. rewrite Hok in Hrun. cbn in Hrun.
  destruct (secrets w !! (creds.SECRET_PREFIX ++ t)) eqn:Hsec; cbn in Hrun;
    injection Hrun as <-; cbn; [apply lookup_delete_eq | exact Hsec].
Qed.

(** X16.  A request to delete credentials that is answered 200 has marked the
    tenant as not configured, and has left the publishable key and the
    time of validation in the record of the tenant: [updateTenant] skips
    the members given as undefined.  The secret of the tenant is gone when
    the delete request to Secrets Manager itself did not fail. *)
Theorem deleted_credentials_leave_the_publishable_key
    (event : APIGatewayProxyEvent) (w w' : World)
    (response : APIGatewayProxyResult) :
  deleteHandler event w = (inr response, w') ->
  statusCode response = 200 ->
  exists t tenant tenant',
    Js.nonEmpty (Js.get (pathParameters event) "tenantId") = Some t /\
    tenants w !! t = Some tenant /\
    tenants w' !! t = Some tenant' /\
    credentialsConfigured tenant' = false /\
    stripePublishableKey tenant' = stripePublishableKey tenant /\
    credentialsValidatedAt tenant' = credentialsValidatedAt tenant /\
    ((forall n, awsFault n (SecretsManager DeleteSecretCommand
                              (creds.SECRET_PREFIX ++ t)) = None) ->
     secrets w' !! (creds.SECRET_PREFIX ++ t) = None).
Proof.
  intros Hrun H200. unfold deleteHandler, try_catch in Hrun.
  match type of Hrun with
  | match ?m w with _ => _ end = _ =>
      destruct (m w) as [[x|r] w0] eqn:Hbody
  end.
  { inv_ret Hrun. discriminate. }
  injection Hrun as -> ->.
  apply bind_inv in Hbody as (auth & w1 & Hauth & Hbody).
  pose proof (preserves_run _ _ _ _ _ (requireAdminKey_keepsTenants event) Hauth)
    as T1.
  destruct auth as [auth|]; [|inv_ret Hbody; discriminate].
  destruct (Js.nonEmpty (Js.get (pathParameters event) "tenantId")) as [t|];
    [|inv_ret Hbody; discriminate].
  destruct (negb _); [inv_ret Hbody; discriminate|].
  apply bind_inv in Hbody as (tenant & w2 & Hten & Hbody).
  unfold db.getTenant, bind, aws, get_world, ret in Hten.
  destruct (awsFault _ _); [discriminate|]. cbn in Hten.
  injection Hten as <- <-.
  destruct (tenants w1 !! t) as [tenant|] eqn:Hlook;
    [|inv_ret Hbody; discriminate].
  apply bind_inv in Hbody as ([] & w3 & Hdel & Hbody).
  pose proof (preserves_run _ _ _ _ _ (deleteCredentials_keepsTenants t) Hdel)
    as T3.
  apply bind_inv in Hbody as (now & w4 & Hnow & Hbody).
  unfold Date_now in Hnow. injection Hnow as <- <-.
  apply bind_inv in Hbody as (updated & w5 & Hupd & Hbody).
  inv_ret Hbody.
  rewrite updateTenant_run in Hupd by reflexivity. cbv zeta in Hupd.
  destruct (awsFault _ _); [discriminate|]. injection Hupd as <- <-.
  unfold keepsTenants in *. cbn in T3. rewrite T3, Hlook.
  exists t, tenant. eexists. split; [reflexivity|].
  split; [now rewrite <- T1|]. cbn. rewrite lookup_insert_eq.
  split; [reflexivity|]. cbn. repeat (split; [reflexivity|]).
  intros Hok. eapply deleteCredentials_gone; [exact Hdel | apply Hok].
Qed.

End CredentialsDeleted.

Lemma deleted_credentials_leave_the_publishable_key_witness :
  exists tenant',
    tenants (snd (@credentials.deleteHandler Scenario.rotation
                    Scenario.credentialsRequest Scenario.shop)) !! "t1" =
      Some tenant' /\
    credentialsConfigured tenant' = false /\
    stripePublishableKey tenant' = Some "pk_test_1".
Proof.
  pose (r := @credentials.deleteHandler Scenario.rotation
               Scenario.credentialsRequest Scenario.shop).
  assert (Hrun : r = (inr (success (JObj [("deleted", JBool true)])), snd r))
    by (vm_compute; reflexivity).
  destruct (@deleted_credentials_leave_the_publishable_key Scenario.rotation
              Scenario.credentialsRequest Scenario.shop (snd r) _ Hrun eq_refl)
    as (t & tenant & tenant' & Ht & Hold & Hnew & Hc & Hp & _).
  injection Ht as <-.
  assert (Hshop : tenants Scenario.shop !! "t1" = Some Scenario.t1)
    by (vm_compute; reflexivity).
  rewrite Hshop in Hold. injection Hold as <-.
  exists tenant'. repeat split; assumption.
Defined.

(** ** The webhook endpoint *)

Lemma preserves_weaken (P Q : World -> World -> Prop) {A} (m : M A) :
  (forall a b, P a b -> Q a b) -> preserves P m -> preserves Q m.
Proof. intros H Hm w. apply H, Hm. Qed.

Lemma ensures_outside (cond : Z -> bool) (P : World -> World -> Prop)
    (m : M APIGatewayProxyResult) :
  (forall w, throwsOrAnswersOutside cond (fst (m w))) ->
  ensures (whenAnswered cond P anything) m.
Proof.
  intros H w. specialize (H w). unfold whenAnswered, throwsOrAnswersOutside in *.
  destruct (fst (m w)); [exact I|]. congruence.
Qed.

Lemma auditsGrow_refl w : auditsGrow w w.
Proof. intros k a H. exact H. Qed.

Lemma auditsGrow_trans a b c :
  auditsGrow a b -> auditsGrow b c -> auditsGrow a c.
Proof. intros H1 H2 k x H. apply H2, H1, H. Qed.

Lemma auditsGrow_same a b : audits b = audits a -> auditsGrow a b.
Proof. intros H k x Hk. now rewrite H. Qed.

Section WebhookEndpoint.
Context {env : Env}.
Import webhooks.

(** A delivery that is answered is answered 200. *)
Lemma deliver_status t stripe ev w :
  throwsOrAnswersOutside is400 (fst (deliver t stripe ev w)) /\
  forall r, fst (deliver t stripe ev w) = inr r -> statusCode r = 200.
Proof.
  unfold deliver, bind. rewrite getWebhookAudit_run. cbv zeta.
  destruct (awsFault _ _); [cbn; split; [exact I|discriminate]|].
  destruct (audits w !! _);
    [cbn; split; [reflexivity|now intros r [= <-]]|].
  destruct (try_catch _ _ _) as [[x|o] w1];
    [cbn; split; [exact I|discriminate]|].
  unfold Date_now.
  destruct (db.createWebhookAudit _ w1) as [[x|[]] w2]; cbn;
    split; try exact I; try discriminate; try reflexivity.
  now intros r [= <-].
Qed.

(** An early return of the verification is a 400. *)
Lemma verify_early t event w response w1 :
  verify t event w = (inr (inl response), w1) -> statusCode response = 400.
Proof.
  unfold verify. intros H.
  apply bind_inv in H as (secret & w2 & _ & H).
  destruct (Js.nonEmpty secret); [|inv_ret H; reflexivity].
  destruct (Js.nonEmpty _); [|inv_ret H; reflexivity].
  apply bind_inv in H as (stripe & w3 & _ & H).
  destruct (constructEvent _ _ _); inv_ret H. reflexivity.
Qed.

(** X17.  The webhook handler never throws: it answers 200, 400 or 500. *)
Theorem webhook_handler_always_answers
    (event : APIGatewayProxyEvent) (w : World) :
  exists response,
    fst (handler event w) = inr response /\
    (statusCode response = 200 \/ statusCode response = 400 \/
     statusCode response = 500).
Proof.
  unfold handler.
  destruct (Js.nonEmpty (Js.get (pathParameters event) "tenantId")) as [t|];
    [|eexists; split; [reflexivity|cbn; auto]].
  unfold try_catch, bind.
  destruct (verify t event w) as [[x|[early|[stripe ev]]] w1] eqn:Hv.
  - eexists. split; [reflexivity|cbn; auto].
  - eexists. split; [reflexivity|]. right. left.
    eapply verify_early; exact Hv.
  - destruct (deliver t stripe ev w1) as [[x|r] w2] eqn:Hd.
    + eexists. split; [reflexivity|cbn; auto].
    + exists r. split; [reflexivity|]. left.
      apply (proj2 (deliver_status t stripe ev w1)). now rewrite Hd.
Qed.

Lemma handler_rejections event :
  ensures (whenAnswered is400 silent anything) (handler event).
Proof.
  unfold handler.
  destruct (Js.nonEmpty (Js.get (pathParameters event) "tenantId")) as [t|];
    [|apply (ensures_ret _ _ anything silent_refl)].
  apply (ensures_try _ _ anything); [intros; discriminate|].
  apply (ensures_bind _ _ anything silent_trans
           (fun _ _ _ => I) (fun _ _ _ _ _ => I));
    [apply verify_silent|].
  intros [early|[stripe ev]].
  - apply (ensures_ret _ _ anything silent_refl).
  - apply ensures_outside. intros w. apply deliver_status.
Qed.

(** X18.  A webhook request that is answered 400 (no tenant in the path, no
    webhook secret, no signature header, or a signature that does not
    verify) has changed neither table, attempted no write, written no
    audit record and made no provider call. *)
Theorem rejected_webhooks_leave_no_trace
    (event : APIGatewayProxyEvent) (w w' : World)
    (response : APIGatewayProxyResult) :
  handler event w = (inr response, w') ->
  statusCode response = 400 ->
  entitlements w' = entitlements w /\ audits w' = audits w /\
  entitlementWrites w' = entitlementWrites w /\
  auditWrites w' = auditWrites w /\
  providerCalls w' = providerCalls w.
Proof.
  intros Hrun H400.
  assert (Hc : is400 (statusCode response) = true)
    by (unfold is400; now rewrite H400).
  destruct (ensures_run _ _ _ _ _ (handler_rejections event) Hrun Hc)
    as ((?&?&?&?)&?).
  auto.
Qed.

Lemma createWebhookAudit_auditsGrow audit :
  preserves auditsGrow (db.createWebhookAudit audit).
Proof.
  intros w. rewrite createWebhookAudit_run. cbv zeta.
  destruct (awsFault _ _); [now apply auditsGrow_same|].
  destruct (audits w !! tenantEventKey audit) eqn:Hk;
    [now apply auditsGrow_same|].
  intros k a Ha. cbn.
  destruct (decide (tenantEventKey audit = k)) as [<-|Hne]; [congruence|].
  now rewrite lookup_insert_ne.
Qed.

Lemma handler_auditsGrow event : preserves auditsGrow (handler event).
Proof.
  unfold handler, deliver.
  repeat lazymatch goal with
    | |- preserves auditsGrow (verify _ _) =>
        apply (preserves_weaken silent);
          [intros a b [(_&H&_) _]; now apply auditsGrow_same
          |apply verify_silent]
    | |- preserves auditsGrow (db.getWebhookAudit _ _) =>
        apply (preserves_weaken keepsStore);
          [intros a b (_&H&_); now apply auditsGrow_same
          |unfold db.getWebhookAudit; keepsStore_frame]
    | |- preserves auditsGrow (processWebhookEvent _ _ _) =>
        apply (preserves_weaken oneWrite);
          [intros a b (H&_); now apply auditsGrow_same
          |apply processWebhookEvent_oneWrite]
    | |- preserves auditsGrow (db.createWebhookAudit _) =>
        apply createWebhookAudit_auditsGrow
    | |- preserves auditsGrow _ =>
        frame_step auditsGrow_refl auditsGrow_trans
    end.
Qed.

(** X19.  No webhook request, whatever it is and however it ends, changes or
    removes a record of the audit table: an event that was recorded stays
    recorded as it was. *)
Theorem audit_records_are_never_overwritten
    (event : APIGatewayProxyEvent) (w : World)
    (key : string) (audit : WebhookAudit) :
  audits w !! key = Some audit ->
  audits (snd (handler event w)) !! key = Some audit.
Proof. intros H. exact (handler_auditsGrow event w key audit H). Qed.

End WebhookEndpoint.

Lemma rejected_webhooks_leave_no_trace_witness :
  audits (snd (@webhooks.handler Scenario.quiet Scenario.webhookRequest
                 Scenario.configured)) = audits Scenario.configured.
Proof.
  pose (r := @webhooks.handler Scenario.quiet Scenario.webhookRequest
               Scenario.configured).
  assert (Hrun : r = (inr (json 400 (JObj [("error", JStr "Invalid signature")])),
                      snd r)) by (vm_compute; reflexivity).
  apply (@rejected_webhooks_leave_no_trace Scenario.quiet
           Scenario.webhookRequest Scenario.configured (snd r) _ Hrun eq_refl).
Defined.

Lemma audit_records_are_never_overwritten_witness :
  let w1 := snd (@webhooks.handler Scenario.dunning Scenario.webhookRequest
                   Scenario.configured) in
  exists audit,
    audits w1 !! "t1#evt_1" = Some audit /\
    audits (snd (@webhooks.handler Scenario.dunningOutage
                   Scenario.webhookRequest w1)) !! "t1#evt_1" = Some audit.
Proof.
  intros w1.
  assert (H : exists audit, audits w1 !! "t1#evt_1" = Some audit)
    by (vm_compute; eauto).
  destruct H as [audit H]. exists audit. split; [exact H|].
  apply (@audit_records_are_never_overwritten Scenario.dunningOutage
           Scenario.webhookRequest w1 "t1#evt_1" audit H).
Defined.


Section WebhookTargets.
Context {env : Env}.
Import webhooks.

(** When the first item of the subscription carries its product, the two
    writers of the reconciler touch one partition of the table at most. *)
Lemma webhook_write_frame t stripe sub w r w' :
  from_option pf_truthy false (firstProduct sub) = true ->
  updateEntitlementFromSubscription t stripe sub w = (r, w') \/
  revokeEntitlementFromSubscription t stripe sub w = (r, w') ->
  forall key,
    fst key <> t ++ "#" ++ targetProduct sub (firstProduct sub) ->
    entitlements w' !! key = entitlements w !! key.
Proof.
  intros Htruthy Hrun key Hkey.
  assert (Hset : forall row w0 r0 w1,
            tenantProductKey row =
              t ++ "#" ++ targetProduct sub (firstProduct sub) ->
            db.setEntitlementCache row w0 = (r0, w1) ->
            entitlements w1 !! key = entitlements w0 !! key).
  { intros row w0 r0 w1 Hrow. rewrite setEntitlementCache_run. cbv zeta.
    destruct (awsFault _ _); intros [= <- <-]; [reflexivity|]. cbn.
    apply lookup_insert_ne. intros <-. apply Hkey. exact Hrow. }
  destruct Hrun as [Hrun|Hrun]; revert Hrun;
    unfold updateEntitlementFromSubscription,
      revokeEntitlementFromSubscription, bind, stripeCall, fullSubscription;
    rewrite Htruthy;
    (destruct (customers_retrieve _ _ _) as [x|customer];
       [intros [= <- <-]; reflexivity|]);
    (destruct (Js.nonEmpty (cus_email customer)) as [email|];
       [|intros [= <- <-]; reflexivity]);
    unfold ret, Date_now; intros Hrun;
    (eapply eq_trans;
       [eapply Hset; [|exact Hrun]; reflexivity | reflexivity]).
Qed.

(** X20.  The row written by the webhook reconciler goes under the product named
    by the metadata of the subscription, else by the audience of its plan,
    else under the sentinel [*]: when the first item of the subscription
    carries its product, every row of another partition of the table is as
    it was, however the processing ends. *)
Theorem webhook_rows_land_on_the_target_product
    (t : string) (stripe : Stripe) (sub : Subscription) (w w' : World)
    (r : Exn + unit) (key : string * string) :
  from_option pf_truthy false (firstProduct sub) = true ->
  updateEntitlementFromSubscription t stripe sub w = (r, w') \/
  revokeEntitlementFromSubscription t stripe sub w = (r, w') ->
  fst key <>
    t ++ "#" ++ Js.orStr (Js.or (sub_paywall_product sub)
                                (firstProduct sub ≫= pf_audience)) "*" ->
  entitlements w' !! key = entitlements w !! key.
Proof. intros H1 H2 H3. exact (webhook_write_frame _ _ _ _ _ _ H1 H2 key H3). Qed.



End WebhookTargets.

Lemma webhook_rows_land_on_the_target_product_witness :
  let sub := Scenario.subscriptionTo Scenario.proPlan "past_due" (Some "p1") in
  entitlements
    (snd (@webhooks.updateEntitlementFromSubscription Scenario.dunning "t1"
            {| secretKey := "sk_test_1" |} sub Scenario.configured))
    !! ("t1#p2", "alice@example.com") = None.
Proof.
  intros sub.
  pose (r := @webhooks.updateEntitlementFromSubscription Scenario.dunning "t1"
               {| secretKey := "sk_test_1" |} sub Scenario.configured).
  change (entitlements (snd r) !! ("t1#p2", "alice@example.com") =
          entitlements Scenario.configured !! ("t1#p2", "alice@example.com")).
  apply (@webhook_rows_land_on_the_target_product Scenario.dunning "t1"
           {| secretKey := "sk_test_1" |} sub Scenario.configured (snd r)
           (fst r) ("t1#p2", "alice@example.com"));
    [reflexivity | left; apply surjective_pairing | vm_compute; discriminate].
Defined.



(** ** The finalize endpoint *)

Lemma keepsEntitlements_refl w : keepsEntitlements w w.
Proof. reflexivity. Qed.

Lemma keepsEntitlements_trans a b c :
  keepsEntitlements a b -> keepsEntitlements b c -> keepsEntitlements a c.
Proof. unfold keepsEntitlements. congruence. Qed.



Section FinalizeAnswers.
Context {env : Env}.
Import subscriptions.


Lemma getProduct_readsTablesOnly t p :
  preserves readsTablesOnly (db.getProduct t p).
Proof. unfold db.getProduct. readsTablesOnly_frame. Qed.





End FinalizeAnswers.

Section FinalizeRedirect.
Context {env : Env}.
Import subscriptions.


End FinalizeRedirect.


(** ** The check endpoint *)

Section CheckTwice.
Context {env : Env}.
Import entitlements.

Lemma fresh_Some cached now c : fresh cached now = Some c -> cached = Some c.
Proof.
  unfold fresh. destruct cached as [row|]; [|discriminate].
  destruct (ttl row >? now / 1000); congruence.
Qed.

(** The row under the key of a check that has returned a decision, and the
    decision read off that row. *)
Lemma checkEntitlement_leaves_its_row t p u e w d w1 :
  checkEntitlement t p u e w = (inr d, w1) ->
  exists row,
    entitlements w1 !! (t ++ "#" ++ p, u) = Some row /\
    d = {| d_hasAccess := hasAccess row;
           d_subscription :=
             subscriptionOf (hasAccess row) (status row) (planCode row)
               (currentPeriodEnd row) |}.
Proof.
  intros Hrun.
  destruct (db.getEntitlementCache t p u w) as [[x|cached] w0] eqn:Hget.
  { unfold checkEntitlement in Hrun.
    rewrite (bind_inl _ _ _ _ _ Hget) in Hrun. discriminate. }
  destruct (fresh cached (clock (ticks w0))) as [c|] eqn:Hfresh.
  - unfold checkEntitlement in Hrun.
    rewrite (bind_inr _ _ _ _ _ Hget) in Hrun.
    rewrite (bind_inr Date_now _ w0 (clock (ticks w0)) w0 eq_refl) in Hrun.
    rewrite Hfresh in Hrun. inv_ret Hrun.
    apply fresh_Some in Hfresh. subst cached.
    apply getEntitlementCache_inr in Hget as (Hrow & ->).
    exists c. split; [now rewrite Hrow|reflexivity].
  - rewrite (checkEntitlement_miss _ _ _ _ _ _ _ Hget Hfresh) in Hrun.
    destruct (getStripeClient t w0) as [[x|stripe] w2]; [discriminate|].
    destruct (queryStripeEntitlement stripe e p w2) as [[x|result] w3];
      [discriminate|].
    cbv zeta in Hrun.
    match type of Hrun with
    | match db.setEntitlementCache ?r w3 with _ => _ end = _ =>
        destruct (db.setEntitlementCache r w3) as [[x|[]] w4] eqn:Hput;
          [discriminate|]; exists r
    end.
    injection Hrun as <- <-.
    apply setEntitlementCache_inv in Hput. subst w4. cbn.
    split; [apply lookup_insert_eq|reflexivity].
Qed.

(** X25.  A check that has returned a decision leaves behind the row of that
    decision: a second check of the same user and product that reads the
    store while the row has not expired returns the same decision, access
    and subscription alike, after the one read, with no request to the
    billing provider and no write. *)
Theorem repeated_check_returns_the_same_decision
    (t p u e : string) (w w1 : World) (d : Decision) :
  checkEntitlement t p u e w = (inr d, w1) ->
  awsFault (ticks w1)
    (DynamoDB GetCommand ENTITLEMENT_CACHE_TABLE [t ++ "#" ++ p; u]) = None ->
  (forall row, entitlements w1 !! (t ++ "#" ++ p, u) = Some row ->
               ttl row > clock (S (ticks w1)) / 1000) ->
  checkEntitlement t p u e w1 =
    (inr d,
     record (DynamoDB GetCommand ENTITLEMENT_CACHE_TABLE [t ++ "#" ++ p; u])
       w1).
Proof.
  intros Hrun Hok Hfresh.
  destruct (checkEntitlement_leaves_its_row _ _ _ _ _ _ _ Hrun)
    as (row & Hrow & ->).
  exact (checkEntitlement_hit _ _ _ _ _ _ Hok Hrow (Hfresh _ Hrow)).
Qed.

(** Whenever a check grants access its decision carries the subscription,
    and when the check throws the entitlement table is as it was. *)
Lemma checkEntitlement_outcomes t p u e w :
  match fst (checkEntitlement t p u e w) with
  | inl _ => keepsEntitlements w (snd (checkEntitlement t p u e w))
  | inr d => d_hasAccess d = true -> d_subscription d <> None
  end.
Proof.
  destruct (checkEntitlement t p u e w) as [[x|d] w1] eqn:Hrun; cbn.
  - destruct (db.getEntitlementCache t p u w) as [[y|cached] w0] eqn:Hget.
    { unfold checkEntitlement in Hrun.
      rewrite (bind_inl _ _ _ _ _ Hget) in Hrun. injection Hrun as <- <-.
      now pose proof (preserves_run _ _ _ _ _
                        (getEntitlementCache_keepsStore t p u) Hget) as (?&_). }
    pose proof (preserves_run _ _ _ _ _
                  (getEntitlementCache_keepsStore t p u) Hget) as (E0&_).
    destruct (fresh cached (clock (ticks w0))) as [c|] eqn:Hfresh.
    { unfold checkEntitlement in Hrun.
      rewrite (bind_inr _ _ _ _ _ Hget) in Hrun.
      rewrite (bind_inr Date_now _ w0 (clock (ticks w0)) w0 eq_refl) in Hrun.
      rewrite Hfresh in Hrun. discriminate. }
    rewrite (checkEntitlement_miss _ _ _ _ _ _ _ Hget Hfresh) in Hrun.
    destruct (getStripeClient t w0) as [[y|stripe] w2] eqn:Hc.
    { injection Hrun as <- <-.
      pose proof (preserves_run _ _ _ _ _ (getStripeClient_keepsStore t) Hc)
        as (E&_). unfold keepsEntitlements. congruence. }
    pose proof (preserves_run _ _ _ _ _ (getStripeClient_keepsStore t) Hc)
      as (E2&_).
    destruct (queryStripeEntitlement stripe e p w2) as [[y|result] w3] eqn:Hq.
    { injection Hrun as <- <-.
      pose proof (preserves_run _ _ _ _ _
                    (queryStripeEntitlement_keepsStore stripe e p) Hq) as (E&_).
      unfold keepsEntitlements. congruence. }
    pose proof (preserves_run _ _ _ _ _
                  (queryStripeEntitlement_keepsStore stripe e p) Hq) as (E3&_).
    cbv zeta in Hrun.
    match type of Hrun with
    | match db.setEntitlementCache ?r w3 with _ => _ end = _ =>
        destruct (db.setEntitlementCache r w3) as [[y|[]] w4] eqn:Hput;
          [|discriminate]
    end.
    injection Hrun as <- <-.
    apply setEntitlementCache_writes in Hput as (_&_&_&E4).
    unfold keepsEntitlements. congruence.
  - destruct (checkEntitlement_leaves_its_row _ _ _ _ _ _ _ Hrun)
      as (row & _ & ->). cbn. intros ->. discriminate.
Qed.

End CheckTwice.

Section CheckAnswers.
Context {env : Env}.
Import entitlements entitlementsHandler.

Lemma resolveApiKey_readsTablesOnly event :
  preserves readsTablesOnly (resolveApiKey event).
Proof.
  unfold resolveApiKey, db.getApiKeyByHash. readsTablesOnly_frame.
Qed.

Lemma readsTablesOnly_keepsEntitlements {A} (m : M A) :
  preserves readsTablesOnly m -> preserves keepsEntitlements m.
Proof. apply preserves_weaken. now intros a b (_&_&_&H&_). Qed.

(** A step that keeps [T] when it throws and returns a [good] value, then
    a continuation that answers outside [cond] on good values. *)
Lemma ensures_bind_commit_good (cond : Z -> bool)
    (P T : World -> World -> Prop) {A} (good : A -> Prop)
    (m : M A) (k : A -> M APIGatewayProxyResult) :
  (forall w, match fst (m w) with
             | inl _ => T w (snd (m w))
             | inr a => good a
             end) ->
  (forall a w, good a -> answersOutside cond (fst (k a w))) ->
  ensures (whenAnswered cond P T) (bind m k).
Proof.
  intros Hm Hk w. specialize (Hm w). unfold bind.
  destruct (m w) as [[x|a] w1]; cbn in *; [auto|].
  specialize (Hk a w1 Hm). unfold whenAnswered, answersOutside in *.
  destruct (fst (k a w1)); [contradiction|]. congruence.
Qed.

Lemma checkHandler_notOk event :
  ensures (whenAnswered notOk keepsEntitlements keepsEntitlements)
    (checkHandler event).
Proof.
  unfold checkHandler, requireAnyKey.
  apply (ensures_try _ _ keepsEntitlements); [auto|].
  repeat lazymatch goal with
    | |- preserves _ (lift _) =>
        apply preserves_lift; intros ?; apply keepsEntitlements_refl
    | |- preserves _ (resolveApiKey _) =>
        apply readsTablesOnly_keepsEntitlements, resolveApiKey_readsTablesOnly
    | |- preserves _ (db.getTenant _) =>
        apply readsTablesOnly_keepsEntitlements, getTenant_readsTablesOnly
    | |- preserves _ (db.getProduct _ _) =>
        apply readsTablesOnly_keepsEntitlements, getProduct_readsTablesOnly
    | |- ensures _ (bind (checkEntitlement _ _ _ _) _) =>
        apply (ensures_bind_commit_good _ _ _
                 (fun d => d_hasAccess d = true -> d_subscription d <> None));
          [ intros w; apply checkEntitlement_outcomes
          | intros d w Hd; destruct (d_hasAccess d); [|reflexivity];
            destruct (d_subscription d); [reflexivity|now elim Hd] ]
    | |- ensures _ (bind _ _) =>
        apply (ensures_bind _ _ _ keepsEntitlements_trans
                 (fun _ _ H => H) keepsEntitlements_trans); [ | intros ? ]
    | |- ensures _ (ret _) =>
        apply (ensures_ret _ _ _ keepsEntitlements_refl)
    | |- ensures _ (match ?x with _ => _ end) => destruct x
    end.
Qed.

Lemma checkHandler_refused event :
  ensures (whenAnswered refused readsTablesOnly anything)
    (checkHandler event).
Proof.
  unfold checkHandler, requireAnyKey.
  repeat lazymatch goal with
    | |- preserves _ (lift _) =>
        apply preserves_lift; intros ?; apply readsTablesOnly_refl
    | |- preserves _ (resolveApiKey _) => apply resolveApiKey_readsTablesOnly
    | |- preserves _ (db.getTenant _) => apply getTenant_readsTablesOnly
    | |- preserves _ (db.getProduct _ _) => apply getProduct_readsTablesOnly
    | |- ensures _ (bind (checkEntitlement _ _ _ _) _) =>
        apply ensures_bind_commit_anything; intros d w;
          destruct (d_hasAccess d); [|reflexivity];
          destruct (d_subscription d); [reflexivity|exact I]
    | |- ensures _ _ => answer_step readsTablesOnly_refl readsTablesOnly_trans
    end.
Qed.

(** X26.  The check endpoint always answers.  An answer other than 200 (among
    them the 500 given when the billing provider or the store fails) leaves
    the entitlement table as it was; an answer other than 200 and 500 (no
    valid key, a missing field, a tenant without credentials, an unknown
    product) was given from the key, tenant and product tables alone, with
    no request to the billing provider or to Secrets Manager and nothing
    changed. *)
Theorem check_writes_only_on_success
    (event : APIGatewayProxyEvent) (w : World) :
  exists response w',
    checkHandler event w = (inr response, w') /\
    (statusCode response <> 200 -> entitlements w' = entitlements w) /\
    (statusCode response <> 200 -> statusCode response <> 500 ->
     readsTablesOnly w w').
Proof.
  destruct (checkHandler event w) as [r w'] eqn:Hrun.
  assert (Ha : exists response, r = inr response).
  { revert Hrun. unfold checkHandler.
    match goal with
    | |- try_catch ?m (fun _ => ret ?resp) w = _ -> _ =>
        destruct (try_answers m resp w) as (x & Hx)
    end.
    intros Hrun. rewrite Hrun in Hx. eauto. }
  destruct Ha as (response & ->). exists response, w'.
  split; [reflexivity|]. split.
  - intros H200.
    apply (ensures_run _ _ _ _ _ (checkHandler_notOk event) Hrun).
    unfold notOk. now destruct (Z.eqb_spec (statusCode response) 200).
  - intros H200 H500.
    apply (ensures_run _ _ _ _ _ (checkHandler_refused event) Hrun).
    unfold refused. destruct (Z.eqb_spec (statusCode response) 200);
      [contradiction|].
    now destruct (Z.eqb_spec (statusCode response) 500).
Qed.


End CheckAnswers.

Lemma repeated_check_returns_the_same_decision_witness :
  exists d w1 w2,
    @entitlements.checkEntitlement Scenario.quiet
      "t1" "p1" "u1" "u1@example.com" Scenario.configured = (inr d, w1) /\
    @entitlements.checkEntitlement Scenario.quiet
      "t1" "p1" "u1" "u1@example.com" w1 = (inr d, w2) /\
    providerCalls w2 = providerCalls w1.
Proof.
  pose (r := @entitlements.checkEntitlement Scenario.quiet
               "t1" "p1" "u1" "u1@example.com" Scenario.configured).
  assert (Hrun : r = (inr {| entitlements.d_hasAccess := false;
                             entitlements.d_subscription := None |}, snd r))
    by (vm_compute; reflexivity).
  eexists _, (snd r), _. split; [exact Hrun|]. split.
  - apply (@repeated_check_returns_the_same_decision Scenario.quiet
             "t1" "p1" "u1" "u1@example.com" Scenario.configured (snd r) _
             Hrun eq_refl).
    intros row Hrow. vm_compute in Hrow. injection Hrow as <-.
    vm_compute. reflexivity.
  - reflexivity.
Defined.


(** ** The refusals at work *)

Lemma missing_credentials_are_reported_not_cached_witness :
  fst (@getStripeClient Scenario.quiet "t2" Scenario.configured) =
    inl (Error "No Stripe credentials configured for tenant t2").
Proof.
  exact (proj2 (@missing_credentials_are_reported_not_cached Scenario.quiet
                  "t2" Scenario.configured) eq_refl eq_refl eq_refl).
Defined.

Lemma credentials_status_comes_from_the_tenant_record_witness :
  exists response,
    fst (@getStatusHandler Scenario.rotation Scenario.credentialsRequest
           Scenario.shop) = inr response /\
    body response =
      JObj [("success", JBool true);
            ("data",
             JObj [("configured", JBool true);
                   ("publishable_key", JStr "pk_test_1");
                   ("validated_at", JStr "2023-11-01T00:00:00.000Z")])].
Proof.
  pose (r := @getStatusHandler Scenario.rotation Scenario.credentialsRequest
               Scenario.shop).
  assert (Hrun : fst r = inr (success
            (JObj [("configured", JBool true);
                   ("publishable_key", JStr "pk_test_1");
                   ("validated_at", JStr "2023-11-01T00:00:00.000Z")])))
    by (vm_compute; reflexivity).
  destruct (proj2 (@credentials_status_comes_from_the_tenant_record
                     Scenario.rotation Scenario.credentialsRequest
                     Scenario.shop) _ Hrun eq_refl)
    as (t & tenant & _).
  eexists. split; [exact Hrun|reflexivity].
Defined.


Lemma check_writes_only_on_success_witness :
  exists response w',
    @entitlementsHandler.checkHandler CheckScenario.checking
      Scenario.finalizeRequest Scenario.shop = (inr response, w') /\
    statusCode response = 401 /\
    entitlements w' = entitlements Scenario.shop /\
    providerCalls w' = providerCalls Scenario.shop.
Proof.
  destruct (@check_writes_only_on_success CheckScenario.checking
              Scenario.finalizeRequest Scenario.shop)
    as (response & w' & Hrun & Hkeep & Hreads).
  assert (H401 : statusCode response = 401).
  { assert (H : statusCode
                  match fst (@entitlementsHandler.checkHandler
                               CheckScenario.checking Scenario.finalizeRequest
                               Scenario.shop) with
                  | inr x => x
                  | inl _ => error "" 0
                  end = 401) by (vm_compute; reflexivity).
    rewrite Hrun in H. exact H. }
  exists response, w'. split; [exact Hrun|]. split; [exact H401|].
  split.
  - apply Hkeep. rewrite H401. discriminate.
  - apply Hreads; rewrite H401; discriminate.
Defined.

(** ** From the webhook to the check *)

Section WebhookThenCheck.
Context {env : Env}.
Import webhooks entitlements.

(** The row a webhook writer has put, when the first item of the
    subscription carries its product and the customer has an email. *)
Lemma webhook_row t stripe sub w w1 customer email :
  from_option pf_truthy false (firstProduct sub) = true ->
  customers_retrieve (ticks w) (secretKey stripe) (sub_customer sub) =
    inr customer ->
  Js.nonEmpty (cus_email customer) = Some email ->
  (updateEntitlementFromSubscription t stripe sub w = (inr tt, w1) ->
   exists row,
     entitlements w1 !! (t ++ "#" ++ targetProduct sub (firstProduct sub),
                         Js.orStr (sub_user_id sub) email) = Some row /\
     hasAccess row = (String.eqb (sub_status sub) "active"
                      || String.eqb (sub_status sub) "trialing") /\
     ttl row = clock (S (ticks w)) / 1000 + 5 * 60) /\
  (revokeEntitlementFromSubscription t stripe sub w = (inr tt, w1) ->
   exists row,
     entitlements w1 !! (t ++ "#" ++ targetProduct sub (firstProduct sub),
                         Js.orStr (sub_user_id sub) email) = Some row /\
     hasAccess row = false /\
     ttl row = clock (S (ticks w)) / 1000 + 60).
Proof.
  intros Htruthy Hcus Hemail.
  split; intros Hrun;
    [unfold updateEntitlementFromSubscription in Hrun
    |unfold revokeEntitlementFromSubscription in Hrun];
    apply bind_inv in Hrun as (customer' & w0 & Hc & Hrun);
    apply stripeCall_inv in Hc as (Hc & ->);
    rewrite Hcus in Hc; injection Hc as <-;
    rewrite Hemail in Hrun;
    unfold fullSubscription in Hrun; rewrite Htruthy in Hrun;
    apply bind_inv in Hrun as (fullSub & w2 & Hf & Hrun);
    inv_ret Hf;
    apply bind_inv in Hrun as (now & w3 & Hnow & Hrun);
    unfold Date_now in Hnow; injection Hnow as <- <-;
    apply setEntitlementCache_inv in Hrun; subst w1;
    eexists; (split; [cbn; apply lookup_insert_eq|]); split; reflexivity.
Qed.

(** X28.  The row a webhook writes is what the next check goes by.  When the
    first item of the subscription carries its product and the customer has
    an email, a check of the target product and user that reads the store
    before the row expires is answered from the row alone: after an update,
    with access exactly for the statuses [active] and [trialing], for five
    minutes; after a revocation, with a denial, for one minute. *)
Theorem webhook_row_decides_the_next_check
    (t : string) (stripe : Stripe) (sub : Subscription) (w w1 : World)
    (customer : Customer) (email e : string) :
  let p := targetProduct sub (firstProduct sub) in
  let u := Js.orStr (sub_user_id sub) email in
  let read := DynamoDB GetCommand ENTITLEMENT_CACHE_TABLE [t ++ "#" ++ p; u] in
  from_option pf_truthy false (firstProduct sub) = true ->
  customers_retrieve (ticks w) (secretKey stripe) (sub_customer sub) =
    inr customer ->
  Js.nonEmpty (cus_email customer) = Some email ->
  awsFault (ticks w1) read = None ->
  (updateEntitlementFromSubscription t stripe sub w = (inr tt, w1) ->
   clock (S (ticks w1)) / 1000 < clock (S (ticks w)) / 1000 + 5 * 60 ->
   exists d,
     checkEntitlement t p u e w1 = (inr d, record read w1) /\
     d_hasAccess d = (String.eqb (sub_status sub) "active"
                      || String.eqb (sub_status sub) "trialing")) /\
  (revokeEntitlementFromSubscription t stripe sub w = (inr tt, w1) ->
   clock (S (ticks w1)) / 1000 < clock (S (ticks w)) / 1000 + 60 ->
   checkEntitlement t p u e w1 =
     (inr {| d_hasAccess := false; d_subscription := None |},
      record read w1)).
Proof.
  intros p u read Htruthy Hcus Hemail Hok.
  destruct (webhook_row t stripe sub w w1 customer email Htruthy Hcus Hemail)
    as [Hup Hrev].
  split; intros Hrun Hclock.
  - destruct (Hup Hrun) as (row & Hrow & Hacc & Httl).
    eexists. split.
    + apply (checkEntitlement_hit _ _ _ _ _ row Hok Hrow). lia.
    + exact Hacc.
  - destruct (Hrev Hrun) as (row & Hrow & Hacc & Httl).
    rewrite (checkEntitlement_hit _ _ _ e _ row Hok Hrow) by lia.
    rewrite Hacc. reflexivity.
Qed.

End WebhookThenCheck.

Lemma webhook_row_decides_the_next_check_witness :
  let sub := Scenario.subscriptionTo Scenario.proPlan "canceled" (Some "p1") in
  exists w1 w2,
    @webhooks.revokeEntitlementFromSubscription Scenario.dunning "t1"
      {| secretKey := "sk_test_1" |} sub Scenario.configured = (inr tt, w1) /\
    @entitlements.checkEntitlement Scenario.dunning "t1" "p1"
      "alice@example.com" "alice@example.com" w1 =
      (inr {| entitlements.d_hasAccess := false;
              entitlements.d_subscription := None |}, w2).
Proof.
  intros sub.
  pose (r := @webhooks.revokeEntitlementFromSubscription Scenario.dunning "t1"
               {| secretKey := "sk_test_1" |} sub Scenario.configured).
  assert (Hrun : r = (inr tt, snd r)) by (vm_compute; reflexivity).
  exists (snd r). eexists. split; [exact Hrun|].
  apply (proj2 (@webhook_row_decides_the_next_check Scenario.dunning "t1"
                  {| secretKey := "sk_test_1" |} sub Scenario.configured
                  (snd r) Scenario.alice "alice@example.com"
                  "alice@example.com" eq_refl eq_refl eq_refl eq_refl));
    [exact Hrun | vm_compute; reflexivity].
Defined.
